(** * Vibbit managed backend: authorization engine, usage accounting and
      response normalizer

    A shallow embedding of [apps/backend/src/server.mjs] and
    [apps/backend/src/db.mjs].

    - JavaScript strings are sequences of UTF-16 code units ([list N]); the
      regular expressions of the source are hand-compiled into list
      functions, each one quoted next to its definition.
    - The two SQLite tables are lists of rows in rowid order; a statement
      with a [WHERE] clause acts on every row that satisfies it, [.get()]
      returns the first such row and [.changes] counts them.
    - The request handler runs in a small monad that threads the database
      and an event log and can return early or throw. *)

From Stdlib Require Import List NArith ZArith Bool Lia String Ascii.
Import ListNotations.

(* ================================================================== *)
(** ** JavaScript strings *)
(* ================================================================== *)

Module JsString.

Local Open Scope N_scope.

(** One UTF-16 code unit. *)
Definition char := N.

(** A JavaScript string value. *)
Definition jsstring := list char.

(** Code units of an ASCII literal. *)
Definition js (s : string) : jsstring :=
  map N_of_ascii (list_ascii_of_string s).

Definition LF : char := 10.
Definition CR : char := 13.
Definition TAB : char := 9.
Definition SPACE : char := 32.
Definition BACKSLASH : char := 92.
Definition BACKTICK : char := 96.
Definition QUOTE : char := 39.
Definition DQUOTE : char := 34.

(** Truthiness of a string: [!s] holds exactly for the empty string. *)
Definition truthy (s : jsstring) : bool :=
  match s with [] => false | _ :: _ => true end.

Fixpoint streq (a b : jsstring) : bool :=
  match a, b with
  | [], [] => true
  | x :: a', y :: b' => (x =? y) && streq a' b'
  | _, _ => false
  end.

(** [between lo hi c]: [lo <= c <= hi]. *)
Definition between (lo hi c : char) : bool := (lo <=? c) && (c <=? hi).

(** The regular-expression class [\s], which is also the set removed by
    [String.prototype.trim] (WhiteSpace and LineTerminator). *)
Definition isWhiteSpace (c : char) : bool :=
  between 9 13 c || (c =? 32) || (c =? 160) || (c =? 5760)
  || between 8192 8202 c || (c =? 8232) || (c =? 8233) || (c =? 8239)
  || (c =? 8287) || (c =? 12288) || (c =? 65279).

(** LineTerminator: the characters the regular-expression [.] refuses. *)
Definition isLineTerminator (c : char) : bool :=
  (c =? 10) || (c =? 13) || (c =? 8232) || (c =? 8233).

(** The class [[a-z]] under the [i] flag (no [u] flag): ASCII letters. *)
Definition isAsciiLetter (c : char) : bool :=
  between 65 90 c || between 97 122 c.

(** Canonical form of a code unit for an [i]-flag comparison against an
    ASCII pattern character: ASCII letters fold together, and a code unit
    of 128 or more never folds onto an ASCII one. *)
Definition foldCase (c : char) : char :=
  if between 97 122 c then c - 32 else c.

Definition eqChar_i (p c : char) : bool := foldCase p =? foldCase c.

Fixpoint dropWhile (f : char -> bool) (s : jsstring) : jsstring :=
  match s with
  | [] => []
  | c :: s' => if f c then dropWhile f s' else s
  end.

Fixpoint takeWhile (f : char -> bool) (s : jsstring) : jsstring :=
  match s with
  | [] => []
  | c :: s' => if f c then c :: takeWhile f s' else []
  end.

(** Removes the longest suffix whose characters all satisfy [f]: the cut
    is at the leftmost position from which every character satisfies [f]. *)
Fixpoint dropWhileEnd (f : char -> bool) (s : jsstring) : jsstring :=
  match s with
  | [] => []
  | c :: s' => if forallb f s then [] else c :: dropWhileEnd f s'
  end.

(** [String.prototype.trim]. *)
Definition trim (s : jsstring) : jsstring :=
  dropWhileEnd isWhiteSpace (dropWhile isWhiteSpace s).

(** [s.startsWith(p)], comparing code units. *)
Fixpoint startsWith (p s : jsstring) : bool :=
  match p, s with
  | [], _ => true
  | x :: p', y :: s' => (x =? y) && startsWith p' s'
  | _ :: _, [] => false
  end.

(** Prefix test under the [i] flag, for an ASCII pattern [p]. *)
Fixpoint startsWith_i (p s : jsstring) : bool :=
  match p, s with
  | [], _ => true
  | x :: p', y :: s' => eqChar_i x y && startsWith_i p' s'
  | _ :: _, [] => false
  end.

(** Global replacement of a literal, non-empty [pat] by [rep]: matches are
    taken left to right without overlap.  [skip] counts the characters of
    the current match that are still to be consumed. *)
Fixpoint replaceAll_from (pat rep : jsstring) (skip : nat) (s : jsstring)
  : jsstring :=
  match s with
  | [] => []
  | c :: s' =>
      match skip with
      | S k => replaceAll_from pat rep k s'
      | O =>
          if startsWith pat s
          then rep ++ replaceAll_from pat rep (Nat.pred (List.length pat)) s'
          else c :: replaceAll_from pat rep 0 s'
      end
  end.

Definition replaceAll (pat rep s : jsstring) : jsstring :=
  replaceAll_from pat rep 0 s.

(** Global replacement of a one-character class by [rep]. *)
Definition replaceClass (f : char -> bool) (rep : jsstring) (s : jsstring)
  : jsstring :=
  flat_map (fun c => if f c then rep else [c]) s.

(** Split at line feeds: always at least one piece. *)
Fixpoint splitLines (s : jsstring) : list jsstring :=
  match s with
  | [] => [[]]
  | c :: s' =>
      if c =? LF then [] :: splitLines s'
      else match splitLines s' with
           | [] => [[c]]
           | l :: ls => (c :: l) :: ls
           end
  end.

(** Join with line feeds. *)
Fixpoint joinLines (ls : list jsstring) : jsstring :=
  match ls with
  | [] => []
  | [l] => l
  | l :: ls' => l ++ LF :: joinLines ls'
  end.

(** CR LF pairs, then lone CRs, become a line feed (lines 110 and 120). *)
Definition normalizeNewlines (s : jsstring) : jsstring :=
  replaceClass (N.eqb CR) [LF] (replaceAll [CR; LF] [LF] s).

End JsString.

Import JsString.

(* ================================================================== *)
(** ** Response normalizer ([server.mjs], lines 105-158 and 309-322) *)
(* ================================================================== *)

Module Normalizer.

Local Open Scope N_scope.

(** The three-backtick fence. *)
Definition fence : jsstring := [BACKTICK; BACKTICK; BACKTICK].

(** The rest of [s] after its first line feed, if it has one. *)
Fixpoint afterFirstLF (s : jsstring) : option jsstring :=
  match s with
  | [] => None
  | c :: s' => if c =? LF then Some s' else afterFirstLF s'
  end.

(** Removal of the first match of [/^```[\s\S]*?\n/]: the lazy body stops
    at the first line feed after the fence; without one the pattern does
    not match. *)
Definition stripOpeningFence (s : jsstring) : jsstring :=
  if startsWith fence s
  then match afterFirstLF (skipn 3 s) with
       | Some rest => rest
       | None => s
       end
  else s.

(** Removal of the first match of [/```\s*$/]: the leftmost fence that only
    white space separates from the end of the text goes with that tail. *)
Fixpoint stripClosingFence (s : jsstring) : jsstring :=
  match s with
  | [] => []
  | c :: s' =>
      if startsWith fence s && forallb isWhiteSpace (skipn 3 s)
      then []
      else c :: stripClosingFence s'
  end.

(** The three global replacements of line 109: the literal texts
    backslash-r-backslash-n and backslash-n become a line feed, the
    literal text backslash-t becomes a tab, in that order. *)
Definition unescapeLiterals (s : jsstring) : jsstring :=
  replaceAll [BACKSLASH; 116] [TAB]
    (replaceAll [BACKSLASH; 110] [LF]
       (replaceAll [BACKSLASH; 114; BACKSLASH; 110] [LF] s)).

Definition isCurlySingle (c : char) : bool := (c =? 8216) || (c =? 8217).
Definition isCurlyDouble (c : char) : bool := (c =? 8220) || (c =? 8221).
Definition isZeroWidth (c : char) : bool := between 8203 8205 c || (c =? 65279).
Definition isNbsp (c : char) : bool := c =? 160.
Definition isBacktick (c : char) : bool := c =? BACKTICK.

(** Line 111: U+2018 and U+2019 become an apostrophe, then U+201C and
    U+201D become a straight double quote. *)
Definition straightenQuotes (s : jsstring) : jsstring :=
  replaceClass isCurlyDouble [DQUOTE] (replaceClass isCurlySingle [QUOTE] s).

(** Line 112: U+200B to U+200D and U+FEFF are deleted, then U+00A0
    becomes a space. *)
Definition stripInvisible (s : jsstring) : jsstring :=
  replaceClass isNbsp [SPACE] (replaceClass isZeroWidth [] s).

(** Line 113, global removal of [/^`+|`+$/]: the leading run of backticks,
    then the run of backticks that reaches the end of the text. *)
Definition stripBackticks (s : jsstring) : jsstring :=
  dropWhileEnd isBacktick (dropWhile isBacktick s).

Definition sanitizeMakeCode (input : jsstring) : jsstring :=
  if negb (truthy input) then []
  else
    let text := input in
    let text :=
      if startsWith fence text
      then stripClosingFence (stripOpeningFence text)
      else text in
    let text := unescapeLiterals text in
    let text := normalizeNewlines text in
    let text := straightenQuotes text in
    let text := stripInvisible text in
    let text := stripBackticks text in
    trim text.

Record parts := { feedback : list jsstring; body : jsstring }.

Definition FEEDBACK_PREFIX : jsstring := js "FEEDBACK:".

(** The loop of [separateFeedback] over the lines, giving the feedback
    entries and the body lines, each in encounter order. *)
Fixpoint classifyLines (lines : list jsstring)
  : list jsstring * list jsstring :=
  match lines with
  | [] => ([], [])
  | line :: rest =>
      let (fb, bodyLines) := classifyLines rest in
      let trimmed := trim line in
      if startsWith_i FEEDBACK_PREFIX trimmed
      then (trim (dropWhile isWhiteSpace (skipn 9 trimmed)) :: fb, bodyLines)
      else (fb, line :: bodyLines)
  end.

Definition separateFeedback (raw : jsstring) : parts :=
  if negb (truthy raw) then {| feedback := []; body := [] |}
  else
    let lines := splitLines (normalizeNewlines raw) in
    let (fb, bodyLines) := classifyLines lines in
    {| feedback := fb; body := trim (joinLines bodyLines) |}.

(** The lazy group [([\s\S]*?)] followed by the closing fence: the text up
    to the first fence, if there is one. *)
Fixpoint untilFence (s : jsstring) : option jsstring :=
  if startsWith fence s then Some []
  else match s with
       | [] => None
       | c :: s' => option_map (cons c) (untilFence s')
       end.

(** An attempt to match [/```[a-z]*\n([\s\S]*?)```/i] at the start of [s]. *)
Definition fencedBlockAt (s : jsstring) : option jsstring :=
  if startsWith fence s
  then match dropWhile isAsciiLetter (skipn 3 s) with
       | c :: inner => if c =? LF then untilFence inner else None
       | [] => None
       end
  else None.

(** [String(raw).match(/```[a-z]*\n([\s\S]*?)```/i)]: the capture of the
    leftmost match. *)
Fixpoint fencedBlock (s : jsstring) : option jsstring :=
  match fencedBlockAt s with
  | Some inner => Some inner
  | None => match s with
            | [] => None
            | _ :: s' => fencedBlock s'
            end
  end.

Definition extractCode (raw : jsstring) : jsstring :=
  if negb (truthy raw) then []
  else
    let code := match fencedBlock raw with
                | Some inner => inner
                | None => raw
                end in
    sanitizeMakeCode code.

Definition STUB_ARCADE : jsstring :=
  joinLines
    [ js "controller.A.onEvent(ControllerButtonEvent.Pressed, function () {";
      js "    game.splash(" ++ [DQUOTE] ++ js "Start!" ++ [DQUOTE] ++ js ")";
      js "})";
      js "game.onUpdate(function () {";
      js "})" ].

Definition STUB_MAKER : jsstring :=
  joinLines [ js "loops.forever(function () {"; js "})" ].

Definition STUB_MICROBIT : jsstring :=
  joinLines
    [ js "basic.onStart(function () {";
      js "    basic.showString(" ++ [DQUOTE] ++ js "Hi" ++ [DQUOTE] ++ js ")";
      js "})" ].

Definition stubForTarget (target : jsstring) : jsstring :=
  if streq target (js "arcade") then STUB_ARCADE
  else if streq target (js "maker") then STUB_MAKER
  else STUB_MICROBIT.

Definition FALLBACK_NOTE : jsstring :=
  js "Model returned no code; provided fallback stub.".

Record result := { code : jsstring; notes : list jsstring }.

(** The tail of [generateManaged] (lines 309-322): what is returned for
    the raw provider text; [notes] is the [feedback] field of the result. *)
Definition normalizeResponse (target raw : jsstring) : result :=
  let parts := separateFeedback raw in
  let code := extractCode (body parts) in
  if negb (truthy code)
  then {| code := stubForTarget target;
          notes := feedback parts ++ [FALLBACK_NOTE] |}
  else {| code := code; notes := feedback parts |}.

End Normalizer.

Import Normalizer.


(* ================================================================== *)
(** ** Principal state ([db.mjs]) *)
(* ================================================================== *)

Module Db.

Local Open Scope Z_scope.

(** A row of [classrooms].  The [INTEGER] columns hold integers. *)
Record classroom := {
  c_id : jsstring;
  c_name : jsstring;
  c_join_code : jsstring;
  c_teacher_token : jsstring;
  c_max_students : Z;
  c_request_limit : Z;
  c_active : Z;
  c_created_at : jsstring
}.

(** A row of [students]. *)
Record student := {
  s_id : jsstring;
  s_classroom_id : jsstring;
  s_display_name : jsstring;
  s_token : jsstring;
  s_requests_used : Z;
  s_active : Z;
  s_joined_at : jsstring
}.

(** The database: both tables, rows in rowid order. *)
Record db := {
  classrooms : list classroom;
  students : list student
}.

(** Truthiness of an integer column: [!n] holds exactly for 0. *)
Definition truthyZ (n : Z) : bool := negb (n =? 0).

Definition set_requests_used (n : Z) (s : student) : student :=
  {| s_id := s_id s; s_classroom_id := s_classroom_id s;
     s_display_name := s_display_name s; s_token := s_token s;
     s_requests_used := n; s_active := s_active s;
     s_joined_at := s_joined_at s |}.

Definition set_active (n : Z) (s : student) : student :=
  {| s_id := s_id s; s_classroom_id := s_classroom_id s;
     s_display_name := s_display_name s; s_token := s_token s;
     s_requests_used := s_requests_used s; s_active := n;
     s_joined_at := s_joined_at s |}.

(** [UPDATE students SET ... WHERE ...]: every row that satisfies the
    condition [cond] is rewritten by [upd]; the second component is
    [.changes], the number of rows the statement touched. *)
Definition updateStudents (cond : student -> bool) (upd : student -> student)
  (d : db) : db * Z :=
  ({| classrooms := classrooms d;
      students := map (fun s => if cond s then upd s else s) (students d) |},
   Z.of_nat (List.length (filter cond (students d)))).

Section Operations.

(** [hashToken]: SHA-256 of the raw token in hexadecimal, from
    [node:crypto]; the operations below only rely on it being a function. *)
Variable hashToken : jsstring -> jsstring.

(** [SELECT * FROM classrooms WHERE id = ?], first row or [null]. *)
Definition getClassroom (d : db) (id : jsstring) : option classroom :=
  find (fun c => streq (c_id c) id) (classrooms d).

(** [SELECT * FROM students WHERE token = ?] on the hashed token. *)
Definition getStudentByToken (d : db) (rawToken : jsstring) : option student :=
  let hashed := hashToken rawToken in
  find (fun s => streq (s_token s) hashed) (students d).

(** [UPDATE students SET requests_used = requests_used + 1 WHERE id = ?]. *)
Definition incrementStudentUsage (d : db) (studentId : jsstring) : db :=
  fst (updateStudents
         (fun s => streq (s_id s) studentId)
         (fun s => set_requests_used (s_requests_used s + 1) s) d).

(** [UPDATE students SET active = 0 WHERE id = ? AND classroom_id = ?],
    returning [changes > 0] next to the new database. *)
Definition deactivateStudent (d : db) (studentId classroomId : jsstring)
  : db * bool :=
  let (d', changes) :=
    updateStudents
      (fun s => streq (s_id s) studentId && streq (s_classroom_id s) classroomId)
      (set_active 0) d in
  (d', changes >? 0).

End Operations.

End Db.

Import Db.

(* ================================================================== *)
(** ** Request handling ([server.mjs]) *)
(* ================================================================== *)

Module Server.

Local Open Scope Z_scope.

(** Process configuration, read once at start-up. *)
Record config := {
  (** [process.env.SERVER_APP_TOKEN], when set. *)
  env_SERVER_APP_TOKEN : option jsstring;
  (** [PROVIDER], already trimmed and lower-cased. *)
  PROVIDER : jsstring;
  (** [apiKeyFor(PROVIDER)]. *)
  apiKey : jsstring;
  REQUEST_TIMEOUT_MS : Z
}.

(** [e || d] for an optional string. *)
Definition orDefault (e : option jsstring) (d : jsstring) : jsstring :=
  match e with
  | Some s => if truthy s then s else d
  | None => d
  end.

(** Line 17: [process.env.SERVER_APP_TOKEN || ""]. *)
Definition SERVER_APP_TOKEN (cfg : config) : jsstring :=
  orDefault (env_SERVER_APP_TOKEN cfg) [].

(** The texts of the error responses; a constructor with arguments stands
    for the template literal of the source with these values filled in. *)
Inductive message :=
| Text (s : jsstring)
| LimitReached (request_limit : Z)
| TimedOut (ms : Z)
| MissingApiKey (provider : jsstring)
| UnsupportedProvider (provider : jsstring)
| ProviderError (provider : jsstring) (status : Z).

(** A thrown value: its [name] is either [AbortError] or not, and it may
    carry a message. *)
Inductive error :=
| AbortError
| Error (msg : option message).

Inductive response_body :=
| ErrorBody (msg : message)
| ResultBody (r : result).

(** What the handler does to the outside, in order. *)
Inductive event :=
| EvSelectStudent (hashed : jsstring)
| EvSelectClassroom (id : jsstring)
| EvUpdateUsage (studentId : jsstring)
| EvReadBody
| EvFetch (provider : jsstring)
| EvRespond (status : Z) (body : response_body).

Record world := { w_db : db; w_log : list event }.

(** How a piece of the handler ends: it goes on with a value, the handler
    returns, or an exception is thrown. *)
Inductive completion (A : Type) :=
| Normal (a : A)
| Return
| Throw (e : error).
Arguments Normal {A} a.
Arguments Return {A}.
Arguments Throw {A} e.

Definition M (A : Type) := world -> completion A * world.

Definition ret {A} (a : A) : M A := fun w => (Normal a, w).
Definition return_ {A} : M A := fun w => (Return, w).
Definition throw {A} (e : error) : M A := fun w => (Throw e, w).

Definition bind {A B} (m : M A) (k : A -> M B) : M B :=
  fun w =>
    match m w with
    | (Normal a, w') => k a w'
    | (Return, w') => (Return, w')
    | (Throw e, w') => (Throw e, w')
    end.

Definition tryCatch {A} (m : M A) (handler : error -> M A) : M A :=
  fun w =>
    match m w with
    | (Throw e, w') => handler e w'
    | r => r
    end.

Declare Scope handler_scope.
Delimit Scope handler_scope with handler.
Notation "x <- m ;; k" := (bind m (fun x => k))
  (at level 61, m at next level, right associativity) : handler_scope.
Notation "m ;; k" := (bind m (fun _ => k))
  (at level 61, right associativity) : handler_scope.
Local Open Scope handler_scope.

Definition emit (e : event) : M unit :=
  fun w => (Normal tt, {| w_db := w_db w; w_log := w_log w ++ [e] |}).

Definition respondJson (status : Z) (body : response_body) : M unit :=
  emit (EvRespond status body).

(** The three parts of the regular expression [/^Bearer\s+(.+)$/i] after
    the prefix: [\s+] has taken the first [j] characters of [r]; the group
    must take all the rest, which has to be non-empty and free of line
    terminators; otherwise [\s+] gives one character back. *)
Fixpoint bearerBacktrack (r : jsstring) (j : nat) : option jsstring :=
  match j with
  | O => None
  | S j' =>
      let rest := skipn j r in
      if truthy rest && forallb (fun c => negb (isLineTerminator c)) rest
      then Some rest
      else bearerBacktrack r j'
  end.

(** [String(headerValue).match(/^Bearer\s+(.+)$/i)], giving the group. *)
Definition bearerMatch (h : jsstring) : option jsstring :=
  if startsWith_i (js "Bearer") h
  then let r := skipn 6 h in
       bearerBacktrack r (List.length (takeWhile isWhiteSpace r))
  else None.

(** [headerValue] is [req.headers.authorization]: absent or a string. *)
Definition extractBearerToken (headerValue : option jsstring) : jsstring :=
  match headerValue with
  | None => []
  | Some h =>
      if negb (truthy h) then []
      else match bearerMatch h with
           | Some tok => tok
           | None => []
           end
  end.

(** What [validatePayload] observes of the parsed JSON value: each of the
    three properties when [typeof] says it is a string. *)
Record payload := {
  target : option jsstring;
  request : option jsstring;
  currentCode : option jsstring
}.

Record validated := {
  v_target : jsstring;
  v_request : jsstring;
  v_currentCode : jsstring
}.

Definition REQUEST_REQUIRED : jsstring := js "'request' is required".

Definition validatePayload (p : payload) : message + validated :=
  let target := match target p with Some s => trim s | None => [] end in
  let request := match request p with Some s => trim s | None => [] end in
  let currentCode := match currentCode p with Some s => s | None => [] end in
  if negb (truthy request) then inl (Text REQUEST_REQUIRED)
  else
    let safeTarget :=
      if existsb (streq target) [js "microbit"; js "arcade"; js "maker"]
      then target else js "microbit" in
    inr {| v_target := safeTarget; v_request := request;
           v_currentCode := currentCode |}.

(** How reading the request body ends: a parsed value, or a rejection
    (payload too large, invalid JSON, stream error). *)
Inductive body_outcome :=
| BodyParsed (p : payload)
| BodyRejected (e : error).

(** How the upstream call ends: the raw text the provider function
    returns, a non-success status, the abort of [withTimeout], or another
    failure of [fetch]. *)
Inductive provider_outcome :=
| ProviderText (raw : jsstring)
| ProviderStatus (status : Z)
| ProviderAborted
| ProviderFailed (e : error).

Record request_in := {
  authorization : option jsstring;
  bodyRead : body_outcome
}.

Definition readJson (req : request_in) : M payload :=
  emit EvReadBody ;;
  match bodyRead req with
  | BodyParsed p => ret p
  | BodyRejected e => throw e
  end.

Definition isKnownProvider (provider : jsstring) : bool :=
  existsb (streq provider) [js "openai"; js "gemini"; js "openrouter"].

(** [callOpenAI], [callGemini] and [callOpenRouter]: one network call,
    whose end is given by [upstream]. *)
Definition callProvider (provider : jsstring) (upstream : provider_outcome)
  : M jsstring :=
  emit (EvFetch provider) ;;
  match upstream with
  | ProviderText raw => ret raw
  | ProviderStatus status => throw (Error (Some (ProviderError provider status)))
  | ProviderAborted => throw AbortError
  | ProviderFailed e => throw e
  end.

Definition generateManaged (cfg : config) (upstream : provider_outcome)
  (v : validated) : M result :=
  let provider := PROVIDER cfg in
  let key := apiKey cfg in
  if negb (truthy key) then throw (Error (Some (MissingApiKey provider)))
  else
    raw <- (if isKnownProvider provider then callProvider provider upstream
            else throw (Error (Some (UnsupportedProvider provider)))) ;;
    ret (normalizeResponse (v_target v) raw).

(** The branch of the authorization chain that lets a request through. *)
Inductive principal :=
| StaticApp
| Student (id : jsstring)
| OpenMode.

Definition UNAUTHORIZED : jsstring := js "Unauthorized".
Definition DEACTIVATED : jsstring :=
  js "Your access has been deactivated by the teacher".
Definition PAUSED : jsstring := js "Classroom is currently paused".
Definition INTERNAL : jsstring := js "Internal server error".

Section Handler.

Variable hashToken : jsstring -> jsstring.

Definition selectStudent (rawToken : jsstring) : M (option student) :=
  fun w =>
    (Normal (getStudentByToken hashToken (w_db w) rawToken),
     {| w_db := w_db w;
        w_log := w_log w ++ [EvSelectStudent (hashToken rawToken)] |}).

Definition selectClassroom (id : jsstring) : M (option classroom) :=
  fun w =>
    (Normal (getClassroom (w_db w) id),
     {| w_db := w_db w; w_log := w_log w ++ [EvSelectClassroom id] |}).

Definition updateUsage (studentId : jsstring) : M unit :=
  fun w =>
    (Normal tt,
     {| w_db := incrementStudentUsage (w_db w) studentId;
        w_log := w_log w ++ [EvUpdateUsage studentId] |}).

(** Lines 555-583 of the [/vibbit/generate] handler.  The value names the
    branch taken when the request goes on to the body. *)
Definition authorize (cfg : config) (bearerToken : jsstring) : M principal :=
  if truthy (SERVER_APP_TOKEN cfg) && streq bearerToken (SERVER_APP_TOKEN cfg)
  then ret StaticApp
  else if truthy bearerToken then
    student <- selectStudent bearerToken ;;
    match student with
    | None => respondJson 401 (ErrorBody (Text UNAUTHORIZED)) ;; return_
    | Some student =>
        if negb (truthyZ (s_active student))
        then respondJson 403 (ErrorBody (Text DEACTIVATED)) ;; return_
        else
          classroom <- selectClassroom (s_classroom_id student) ;;
          match classroom with
          | None => respondJson 403 (ErrorBody (Text PAUSED)) ;; return_
          | Some classroom =>
              if negb (truthyZ (c_active classroom))
              then respondJson 403 (ErrorBody (Text PAUSED)) ;; return_
              else if s_requests_used student >=? c_request_limit classroom
              then respondJson 429
                     (ErrorBody (LimitReached (c_request_limit classroom))) ;;
                   return_
              else updateUsage (s_id student) ;; ret (Student (s_id student))
          end
    end
  else if truthy (SERVER_APP_TOKEN cfg)
  then respondJson 401 (ErrorBody (Text UNAUTHORIZED)) ;; return_
  else ret OpenMode.

(** The message of the [catch] clause, lines 596-598. *)
Definition errorMessage (cfg : config) (e : error) : message :=
  match e with
  | AbortError => TimedOut (REQUEST_TIMEOUT_MS cfg)
  | Error (Some m) => m
  | Error None => Text INTERNAL
  end.

(** The [/vibbit/generate] branch of the request handler, lines 550-602. *)
Definition handleGenerate (cfg : config) (req : request_in)
  (upstream : provider_outcome) : M unit :=
  tryCatch
    (let bearerToken := extractBearerToken (authorization req) in
     _ <- authorize cfg bearerToken ;;
     payload <- readJson req ;;
     match validatePayload payload with
     | inl err => respondJson 400 (ErrorBody err) ;; return_
     | inr value =>
         result <- generateManaged cfg upstream value ;;
         respondJson 200 (ResultBody result)
     end)
    (fun e => respondJson 500 (ErrorBody (errorMessage cfg e))).

End Handler.

End Server.

Import Server.

(* ================================================================== *)
(** ** Predicates used in the statements *)
(* ================================================================== *)

Module Props.

Local Open Scope N_scope.

(** [pat] occurs in [s] as a contiguous piece. *)
Fixpoint occursb (pat s : jsstring) : bool :=
  startsWith pat s
  || match s with
     | [] => false
     | _ :: s' => occursb pat s'
     end.

Definition firstIs (f : char -> bool) (s : jsstring) : bool :=
  match s with
  | [] => false
  | c :: _ => f c
  end.

Fixpoint lastIs (f : char -> bool) (s : jsstring) : bool :=
  match s with
  | [] => false
  | [c] => f c
  | _ :: s' => lastIs f s'
  end.

(** Already-sanitized code: no fence, no backtick at either end, none of
    the literal escape texts (backslash-r-backslash-n, backslash-n,
    backslash-t), no curly quote, no carriage return, no zero-width
    character, byte-order mark or non-breaking space, and no white space
    at either end. *)
Definition sanitized (s : jsstring) : bool :=
  negb (occursb fence s)
  && negb (firstIs isBacktick s) && negb (lastIs isBacktick s)
  && negb (occursb [BACKSLASH; 114; BACKSLASH; 110] s)
  && negb (occursb [BACKSLASH; 110] s)
  && negb (occursb [BACKSLASH; 116] s)
  && forallb (fun c => negb (isCurlySingle c || isCurlyDouble c)) s
  && forallb (fun c => negb (c =? CR)) s
  && forallb (fun c => negb (isZeroWidth c || isNbsp c)) s
  && negb (firstIs isWhiteSpace s) && negb (lastIs isWhiteSpace s).

(** The header value has the shape of the case-insensitive pattern
    [Bearer <rest>]: the word, at least one white-space character, and a
    non-empty rest without line terminators, up to the end. *)
Definition BearerShape (h : jsstring) : Prop :=
  exists word ws rest,
    h = word ++ ws ++ rest
    /\ Forall2 (fun p c => eqChar_i p c = true) (js "Bearer") word
    /\ ws <> [] /\ Forall (fun c => isWhiteSpace c = true) ws
    /\ rest <> [] /\ Forall (fun c => isLineTerminator c = false) rest.

(** The credential resolves to a student who may generate now: the
    student and the owning classroom exist and are active, and the quota
    is not used up. *)
Definition admissible (hashToken : jsstring -> jsstring) (d : db)
  (tok : jsstring) : Prop :=
  exists s c,
    getStudentByToken hashToken d tok = Some s
    /\ s_active s <> 0%Z
    /\ getClassroom d (s_classroom_id s) = Some c
    /\ c_active c <> 0%Z
    /\ (s_requests_used s < c_request_limit c)%Z.

(** The [WHERE] clause of [deactivateStudent]. *)
Definition rowOf (studentId classroomId : jsstring) (s : student) : bool :=
  streq (s_id s) studentId && streq (s_classroom_id s) classroomId.

(** Some row of that student in that classroom exists. *)
Definition hasRow (d : db) (studentId classroomId : jsstring) : bool :=
  existsb (rowOf studentId classroomId) (students d).

(** Some active row of that student in that classroom exists. *)
Definition hasActiveRow (d : db) (studentId classroomId : jsstring) : bool :=
  existsb (fun s => rowOf studentId classroomId s && truthyZ (s_active s))
    (students d).

(** The handler went on to read the request body. *)
Definition reachedBody (log : list event) : Prop := In EvReadBody log.

(** Events after admission that touch no table: the upstream call and the
    response. *)
Definition quiet (e : event) : Prop :=
  match e with
  | EvFetch _ | EvRespond _ _ => True
  | _ => False
  end.

(** Some usage counter was incremented. *)
Definition incremented (log : list event) : Prop :=
  exists id, In (EvUpdateUsage id) log.

End Props.

Import Props.

(* ================================================================== *)
(** ** Sample data *)
(* ================================================================== *)

Module Samples.

Local Open Scope Z_scope.

(** A stand-in for the digest in examples: the token, reversed. *)
Definition sampleHash (raw : jsstring) : jsstring := rev raw.

Definition mkStudent (id classroomId rawToken : string) (used active : Z)
  : student :=
  {| s_id := js id; s_classroom_id := js classroomId;
     s_display_name := js "Ada"; s_token := sampleHash (js rawToken);
     s_requests_used := used; s_active := active;
     s_joined_at := js "2024-01-01 09:00:00" |}.

Definition mkClassroom (id : string) (limit active : Z) : classroom :=
  {| c_id := js id; c_name := js "Year 7"; c_join_code := js "ABC234";
     c_teacher_token := sampleHash (js "teacher"); c_max_students := 40;
     c_request_limit := limit; c_active := active;
     c_created_at := js "2024-01-01 08:00:00" |}.

(** One open classroom with quota 3 and one paused classroom; students
    below the quota, at the quota, deactivated, in the paused classroom,
    and in a classroom that has no row. *)
Definition sampleDb : db :=
  {| classrooms := [mkClassroom "c1" 3 1; mkClassroom "c2" 3 0];
     students :=
       [ mkStudent "s1" "c1" "tok-one" 2 1;
         mkStudent "s2" "c1" "tok-two" 3 1;
         mkStudent "s3" "c1" "tok-three" 0 0;
         mkStudent "s4" "c2" "tok-four" 0 1;
         mkStudent "s5" "c9" "tok-five" 0 1;
         mkStudent "s6" "c1" "app-secret" 3 0 ] |}.

Definition openConfig : config :=
  {| env_SERVER_APP_TOKEN := None; PROVIDER := js "openai";
     apiKey := js "sk-test"; REQUEST_TIMEOUT_MS := 60000 |}.

Definition blankConfig : config :=
  {| env_SERVER_APP_TOKEN := Some []; PROVIDER := js "openai";
     apiKey := js "sk-test"; REQUEST_TIMEOUT_MS := 60000 |}.

Definition secretConfig : config :=
  {| env_SERVER_APP_TOKEN := Some (js "app-secret"); PROVIDER := js "openai";
     apiKey := js "sk-test"; REQUEST_TIMEOUT_MS := 60000 |}.

Definition samplePayload : payload :=
  {| target := Some (js "arcade"); request := Some (js "make a game");
     currentCode := None |}.

Definition requestWith (header : option jsstring) : request_in :=
  {| authorization := header; bodyRead := BodyParsed samplePayload |}.

Definition bearer (rawToken : string) : option jsstring :=
  Some (js "Bearer " ++ js rawToken).

Definition start (d : db) : world := {| w_db := d; w_log := [] |}.

End Samples.

Import Samples.

(* ================================================================== *)
(** ** Classroom roster ([db.mjs], the remaining operations) *)
(* ================================================================== *)

Module Roster.

Local Open Scope Z_scope.

(** How a statement that can violate a constraint ends. *)
Inductive sql (A : Type) :=
| Done (a : A)
| SqliteError.
Arguments Done {A} a.
Arguments SqliteError {A}.

(** Line 50: the alphabet of join codes. *)
Definition JOIN_CODE_CHARS : jsstring := js "ABCDEFGHJKLMNPQRSTUVWXYZ23456789".

(** [generateJoinCode], lines 49-57; [bytes] is [randomBytes(6)]. *)
Definition generateJoinCode (bytes : list N) : jsstring :=
  map (fun b =>
         nth (N.to_nat (b mod N.of_nat (List.length JOIN_CODE_CHARS)))
           JOIN_CODE_CHARS 0%N)
      (firstn 6 bytes).

(** What [createClassroom] draws from outside: the two [nanoid] values,
    the random bytes and the clock of [datetime('now')]. *)
Record classroom_seed := {
  seed_id : jsstring;
  seed_bytes : list N;
  seed_teacher_token : jsstring;
  seed_now : jsstring
}.

Record created := {
  classroomId : jsstring;
  joinCode : jsstring;
  teacherToken : jsstring
}.

(** What [joinClassroom] draws from outside. *)
Record student_seed := {
  seed_student_id : jsstring;
  seed_student_token : jsstring;
  seed_joined : jsstring
}.

Record joined := {
  studentToken : jsstring;
  j_classroomId : jsstring;
  classroomName : jsstring
}.

Definition INVALID_JOIN_CODE : jsstring := js "Invalid or inactive join code".
Definition CLASSROOM_FULL : jsstring := js "Classroom is full".

(** The [fields] argument of [updateClassroom]: each allowed key, when it
    is not [undefined]. *)
Record classroom_fields := {
  f_name : option jsstring;
  f_request_limit : option Z;
  f_max_students : option Z;
  f_active : option Z
}.

Definition orElse {A} (o : option A) (d : A) : A :=
  match o with Some a => a | None => d end.

(** The [SET] list that [updateClassroom] builds, applied to a row. *)
Definition applyFields (f : classroom_fields) (c : classroom) : classroom :=
  {| c_id := c_id c;
     c_name := orElse (f_name f) (c_name c);
     c_join_code := c_join_code c;
     c_teacher_token := c_teacher_token c;
     c_max_students := orElse (f_max_students f) (c_max_students c);
     c_request_limit := orElse (f_request_limit f) (c_request_limit c);
     c_active := orElse (f_active f) (c_active c);
     c_created_at := c_created_at c |}.

(** [sets.length === 0]. *)
Definition noFields (f : classroom_fields) : bool :=
  match f_name f, f_request_limit f, f_max_students f, f_active f with
  | None, None, None, None => true
  | _, _, _, _ => false
  end.

(** [SELECT COUNT( * ) FROM students WHERE classroom_id = ? AND active = 1]. *)
Definition countActiveStudents (d : db) (classroomId : jsstring) : Z :=
  Z.of_nat
    (List.length
       (filter (fun s => streq (s_classroom_id s) classroomId
                         && (s_active s =? 1))
          (students d))).

(** [updateClassroom], lines 87-101. *)
Definition updateClassroom (d : db) (id : jsstring) (f : classroom_fields)
  : db * bool :=
  if noFields f then (d, false)
  else
    ({| classrooms :=
          map (fun c => if streq (c_id c) id then applyFields f c else c)
            (classrooms d);
        students := students d |},
     Z.of_nat
       (List.length (filter (fun c => streq (c_id c) id) (classrooms d)))
     >? 0).

(** [resetStudentUsage], lines 152-155. *)
Definition resetStudentUsage (d : db) (classroomId : jsstring) : db :=
  fst (updateStudents
         (fun s => streq (s_classroom_id s) classroomId)
         (set_requests_used 0) d).

Section Operations.

Variable hashToken : jsstring -> jsstring.

(** [createClassroom], lines 61-74.  The insert fails when the primary key
    or the unique join code is taken. *)
Definition createClassroom (d : db) (name : jsstring)
  (requestLimit maxStudents : option Z) (seed : classroom_seed)
  : sql (db * created) :=
  let id := seed_id seed in
  let joinCode := generateJoinCode (seed_bytes seed) in
  let rawTeacherToken := seed_teacher_token seed in
  let hashed := hashToken rawTeacherToken in
  if existsb (fun c => streq (c_id c) id || streq (c_join_code c) joinCode)
       (classrooms d)
  then SqliteError
  else
    Done
      ({| classrooms :=
            classrooms d
            ++ [{| c_id := id; c_name := name; c_join_code := joinCode;
                   c_teacher_token := hashed;
                   c_max_students := orElse maxStudents 40;
                   c_request_limit := orElse requestLimit 50;
                   c_active := 1; c_created_at := seed_now seed |}];
          students := students d |},
       {| classroomId := id; joinCode := joinCode;
          teacherToken := rawTeacherToken |}).

(** [getClassroomByTeacherToken], lines 81-85. *)
Definition getClassroomByTeacherToken (d : db) (rawToken : jsstring)
  : option classroom :=
  let hashed := hashToken rawToken in
  find (fun c => streq (c_teacher_token c) hashed) (classrooms d).

(** [listClassroomsByTeacher], lines 103-107. *)
Definition listClassroomsByTeacher (d : db) (rawToken : jsstring)
  : list classroom :=
  let hashed := hashToken rawToken in
  filter (fun c => streq (c_teacher_token c) hashed) (classrooms d).

(** [joinClassroom], lines 111-129: an error text, or the new database
    with the result.  The insert fails when the primary key or the unique
    token is taken. *)
Definition joinClassroom (d : db) (joinCode displayName : jsstring)
  (seed : student_seed) : sql (db * (jsstring + joined)) :=
  match find (fun c => streq (c_join_code c) joinCode && (c_active c =? 1))
          (classrooms d) with
  | None => Done (d, inl INVALID_JOIN_CODE)
  | Some classroom =>
      let studentCount := countActiveStudents d (c_id classroom) in
      if studentCount >=? c_max_students classroom
      then Done (d, inl CLASSROOM_FULL)
      else
        let id := seed_student_id seed in
        let rawToken := seed_student_token seed in
        let hashed := hashToken rawToken in
        if existsb (fun s => streq (s_id s) id || streq (s_token s) hashed)
             (students d)
        then SqliteError
        else
          Done
            ({| classrooms := classrooms d;
                students :=
                  students d
                  ++ [{| s_id := id; s_classroom_id := c_id classroom;
                         s_display_name := displayName; s_token := hashed;
                         s_requests_used := 0; s_active := 1;
                         s_joined_at := seed_joined seed |}] |},
             inr {| studentToken := rawToken;
                    j_classroomId := c_id classroom;
                    classroomName := c_name classroom |})
  end.

End Operations.

End Roster.

Import Roster.

(* ================================================================== *)
(** ** Routing and the teacher routes ([server.mjs], lines 354-382 and
       527-533) *)
(* ================================================================== *)

Module Routes.

Local Open Scope N_scope.

Definition SLASH : char := 47.
Definition COLON : char := 58.

(** [s.split(sep)] for a one-character separator: always at least one
    piece. *)
Fixpoint splitOn (sep : char) (s : jsstring) : list jsstring :=
  match s with
  | [] => [[]]
  | c :: s' =>
      if c =? sep then [] :: splitOn sep s'
      else match splitOn sep s' with
           | [] => [[c]]
           | piece :: pieces => (c :: piece) :: pieces
           end
  end.

Record route := { r_method : jsstring; r_path : jsstring }.

(** The [params] object: own properties in insertion order. *)
Definition params := list (jsstring * jsstring).

(** [params[key] = value]. *)
Fixpoint setParam (key value : jsstring) (ps : params) : params :=
  match ps with
  | [] => [(key, value)]
  | (k, v) :: ps' =>
      if streq k key then (k, value) :: ps'
      else (k, v) :: setParam key value ps'
  end.

(** The loop of [matchRoute] over the two lists of parts, which have the
    same length. *)
Fixpoint matchParts (patternParts pathParts : list jsstring) (ps : params)
  : option params :=
  match patternParts, pathParts with
  | pat :: patternParts', part :: pathParts' =>
      if startsWith [COLON] pat
      then matchParts patternParts' pathParts' (setParam (skipn 1 pat) part ps)
      else if negb (streq pat part) then None
      else matchParts patternParts' pathParts' ps
  | _, _ => Some ps
  end.

(** [matchRoute], lines 354-368. *)
Definition matchRoute (method pathname : jsstring) (pattern : route)
  : option params :=
  if negb (streq method (r_method pattern)) then None
  else
    let patternParts := splitOn SLASH (r_path pattern) in
    let pathParts := splitOn SLASH pathname in
    if negb (Nat.eqb (List.length patternParts) (List.length pathParts))
    then None
    else matchParts patternParts pathParts [].

(** Line 538: the pattern of the route that removes a student. *)
Definition DELETE_STUDENT : route :=
  {| r_method := js "DELETE"; r_path := js "/classroom/students/:studentId" |}.

Definition MISSING_TEACHER_TOKEN : jsstring := js "Missing teacher token".
Definition INVALID_TEACHER_TOKEN : jsstring := js "Invalid teacher token".

(** The bodies the teacher routes below respond with. *)
Inductive roster_body :=
| RosterError (msg : jsstring)
| RosterOk.

Section TeacherRoutes.

Variable hashToken : jsstring -> jsstring.

(** [requireTeacherAuth], lines 370-382: the response it has sent, or the
    classroom of the presented teacher token. *)
Definition requireTeacherAuth (d : db) (authHeader : option jsstring)
  : (Z * roster_body) + classroom :=
  let raw := extractBearerToken authHeader in
  if negb (truthy raw) then inl (401%Z, RosterError MISSING_TEACHER_TOKEN)
  else
    match getClassroomByTeacherToken hashToken d raw with
    | None => inl (401%Z, RosterError INVALID_TEACHER_TOKEN)
    | Some classroom => inr classroom
    end.

(** The route [POST /classroom/mine/reset], lines 527-533: the response
    and the database afterwards. *)
Definition handleReset (d : db) (authHeader : option jsstring)
  : (Z * roster_body) * db :=
  match requireTeacherAuth d authHeader with
  | inl response => (response, d)
  | inr classroom => ((200%Z, RosterOk), resetStudentUsage d (c_id classroom))
  end.

End TeacherRoutes.

End Routes.

Import Routes.

(* ================================================================== *)
(** ** Reading the request body ([server.mjs], lines 67-93) *)
(* ================================================================== *)

Module Body.

Local Open Scope N_scope.

(** How the request stream ends after its chunks. *)
Inductive stream_end :=
| StreamEnd
| StreamError (e : error).

Definition PAYLOAD_TOO_LARGE : jsstring := js "Payload too large".
Definition INVALID_JSON : jsstring := js "Invalid JSON".

(** The empty object that stands for an empty body. *)
Definition emptyPayload : payload :=
  {| target := None; request := None; currentCode := None |}.

(** The [data] handler over the chunks in arrival order: [size] is the
    running total, [kept] the chunks pushed so far; [None] when a chunk
    takes the total past [maxBytes] and the promise is rejected. *)
Fixpoint receive (maxBytes size : N) (kept chunks : list (list N))
  : option (list (list N)) :=
  match chunks with
  | [] => Some kept
  | chunk :: rest =>
      let size := size + N.of_nat (List.length chunk) in
      if maxBytes <? size then None
      else receive maxBytes size (kept ++ [chunk]) rest
  end.

Section Reader.

(** [Buffer.toString("utf8")] and [JSON.parse] (with what
    [validatePayload] observes of the value; [None] when it throws). *)
Variable decode : list N -> jsstring.
Variable parse : jsstring -> option payload.

(** [readJson]: how the promise settles for a stream of chunks. *)
Definition readJsonStream (maxBytes : N) (chunks : list (list N))
  (fin : stream_end) : body_outcome :=
  match receive maxBytes 0 [] chunks with
  | None => BodyRejected (Error (Some (Text PAYLOAD_TOO_LARGE)))
  | Some kept =>
      match fin with
      | StreamError e => BodyRejected e
      | StreamEnd =>
          let text := decode (List.concat kept) in
          if truthy text
          then match parse text with
               | Some p => BodyParsed p
               | None => BodyRejected (Error (Some (Text INVALID_JSON)))
               end
          else BodyParsed emptyPayload
      end
  end.

End Reader.

(** The default of [maxBytes]: [1024 * 1024]. *)
Definition DEFAULT_MAX_BYTES : N := 1024 * 1024.

End Body.

Import Body.

(* ================================================================== *)
(** ** Further predicates used in the statements *)
(* ================================================================== *)

Module Invariants.

Local Open Scope Z_scope.

Definition isRespond (e : event) : bool :=
  match e with
  | EvRespond _ _ => true
  | _ => false
  end.

Definition isFetch (e : event) : bool :=
  match e with
  | EvFetch _ => true
  | _ => false
  end.

(** A line that [separateFeedback] keeps out of the body or that adds
    nothing to it: a feedback line or a line of white space only. *)
Definition feedbackOrBlank (line : jsstring) : bool :=
  startsWith_i FEEDBACK_PREFIX (trim line) || forallb isWhiteSpace line.

(** No line of the text is a feedback line. *)
Definition noFeedbackLine (lines : list jsstring) : bool :=
  forallb (fun line => negb (startsWith_i FEEDBACK_PREFIX (trim line))) lines.

(** Characters the sanitizer never leaves in its result. *)
Definition unwanted (c : char) : bool :=
  (c =? CR)%N || isCurlySingle c || isCurlyDouble c || isZeroWidth c
  || isNbsp c.

(** The first query of [joinClassroom]: the active classroom with this
    join code. *)
Definition classroomByJoinCode (d : db) (code : jsstring) : option classroom :=
  find (fun c => streq (c_join_code c) code && (c_active c =? 1))
    (classrooms d).

(** The row [joinClassroom] inserts for a seed into a classroom. *)
Definition joinedRow (hashToken : jsstring -> jsstring) (c : classroom)
  (displayName : jsstring) (seed : student_seed) : student :=
  {| s_id := seed_student_id seed; s_classroom_id := c_id c;
     s_display_name := displayName;
     s_token := hashToken (seed_student_token seed);
     s_requests_used := 0; s_active := 1; s_joined_at := seed_joined seed |}.

(** The row [createClassroom] inserts. *)
Definition createdRow (hashToken : jsstring -> jsstring) (name : jsstring)
  (requestLimit maxStudents : option Z) (seed : classroom_seed) : classroom :=
  {| c_id := seed_id seed; c_name := name;
     c_join_code := generateJoinCode (seed_bytes seed);
     c_teacher_token := hashToken (seed_teacher_token seed);
     c_max_students := orElse maxStudents 40;
     c_request_limit := orElse requestLimit 50;
     c_active := 1; c_created_at := seed_now seed |}.

(** A character a join code may hold: one of the alphabet, so an upper-case
    letter or a digit, and none of the look-alikes 0, O, 1 and I. *)
Definition joinCodeChar (c : char) : bool :=
  (existsb (N.eqb c) JOIN_CODE_CHARS
   && (between 65 90 c || between 50 57 c)
   && negb (c =? 48) && negb (c =? 79) && negb (c =? 49) && negb (c =? 73))%N.

(** Every student row points to a classroom row (the foreign key). *)
Definition referencesHold (d : db) : Prop :=
  forall s, In s (students d) ->
    exists c, In c (classrooms d) /\ c_id c = s_classroom_id s.

(** Two student rows that differ at most in [requests_used]. *)
Definition sameButUsage (s s' : student) : Prop :=
  s_id s' = s_id s /\ s_classroom_id s' = s_classroom_id s
  /\ s_display_name s' = s_display_name s /\ s_token s' = s_token s
  /\ s_active s' = s_active s /\ s_joined_at s' = s_joined_at s.

(** No student whose classroom has a row is a whole request past that
    classroom's limit.  The bound is strict on purpose: it is what the
    test [requests_used >= request_limit] keeps whatever number the limit
    is; for a whole-number limit it says [requests_used <= request_limit]. *)
Definition withinQuota (d : db) : Prop :=
  forall s c,
    In s (students d) -> getClassroom d (s_classroom_id s) = Some c ->
    s_requests_used s < c_request_limit c + 1.

End Invariants.

Import Invariants.

(* ================================================================== *)
(** ** Worked examples *)
(* ================================================================== *)

Section WorkedExamples.

Local Open Scope N_scope.

Example bearer_plain :
  extractBearerToken (bearer "tok-one") = js "tok-one".
Proof. reflexivity. Qed.

Example bearer_case_and_blanks :
  extractBearerToken (Some (js "bEARER   a b")) = js "a b".
Proof. reflexivity. Qed.

Example bearer_word_only : extractBearerToken (Some (js "Bearer")) = [].
Proof. reflexivity. Qed.

Example bearer_gives_back_a_blank :
  extractBearerToken (Some (js "Bearer  ")) = [SPACE].
Proof. reflexivity. Qed.

Example bearer_line_feed_in_rest :
  extractBearerToken (Some (js "Bearer a" ++ [LF] ++ js "b")) = [].
Proof. reflexivity. Qed.

Example sanitize_unescapes_and_straightens :
  sanitizeMakeCode (js "x = " ++ [8220] ++ js "a" ++ [8221; BACKSLASH; 110]
                    ++ js "y" ++ [BACKSLASH; 116; 8203] ++ js "z" ++ [CR; LF])
  = js "x = " ++ [DQUOTE] ++ js "a" ++ [DQUOTE; LF] ++ js "y" ++ [TAB]
    ++ js "z".
Proof. reflexivity. Qed.

Example extract_takes_first_fenced_block :
  extractCode (js "Here:" ++ [LF] ++ fence ++ js "ts" ++ [LF] ++ js "a()"
               ++ [LF] ++ fence ++ [LF] ++ js "bye")
  = js "a()".
Proof. reflexivity. Qed.

Example extract_unclosed_fence :
  extractCode (fence ++ js "js" ++ [LF] ++ js "a()") = js "a()".
Proof. reflexivity. Qed.

Example feedback_any_case :
  separateFeedback (js "  feedback:  one " ++ [CR; LF] ++ js "x" ++ [CR]
                    ++ js "Feedback:two")
  = {| feedback := [js "one"; js "two"]; body := js "x" |}.
Proof. reflexivity. Qed.

Example empty_upstream_text_maker :
  normalizeResponse (js "maker") []
  = {| code := STUB_MAKER; notes := [FALLBACK_NOTE] |}.
Proof. reflexivity. Qed.

Example validate_unknown_target :
  validatePayload {| target := Some (js "robot"); request := Some (js " go ");
                     currentCode := None |}
  = inr {| v_target := js "microbit"; v_request := js "go";
           v_currentCode := [] |}.
Proof. reflexivity. Qed.

Example blank_request_after_admission :
  handleGenerate sampleHash openConfig
    {| authorization := bearer "tok-one";
       bodyRead := BodyParsed {| target := None; request := Some (js "  ");
                                 currentCode := None |} |}
    (ProviderText []) (start sampleDb)
  = (Return,
     {| w_db := incrementStudentUsage sampleDb (js "s1");
        w_log := [EvSelectStudent (sampleHash (js "tok-one"));
                  EvSelectClassroom (js "c1"); EvUpdateUsage (js "s1");
                  EvReadBody;
                  EvRespond 400 (ErrorBody (Text REQUEST_REQUIRED))] |}).
Proof. reflexivity. Qed.

End WorkedExamples.

(* ================================================================== *)
(** ** Facts about the string functions *)
(* ================================================================== *)

Section StringFacts.

Local Open Scope N_scope.

Lemma startsWith_app (p r : jsstring) : startsWith p (p ++ r) = true.
Proof.
  induction p as [|x p IH]; simpl; [reflexivity|].
  now rewrite N.eqb_refl, IH.
Qed.

Lemma startsWith_inv (p s : jsstring) :
  startsWith p s = true -> exists r, s = p ++ r.
Proof.
  revert s; induction p as [|x p IH]; intros s H; simpl in *.
  - now exists s.
  - destruct s as [|y s]; [discriminate|].
    apply andb_true_iff in H as [Hxy Hp].
    apply N.eqb_eq in Hxy; subst y.
    destruct (IH _ Hp) as [r ->]. now exists r.
Qed.

Lemma occursb_spec (pat s : jsstring) :
  occursb pat s = true <-> exists a b, s = a ++ pat ++ b.
Proof.
  split.
  - induction s as [|c s IH]; simpl; intros H.
    + rewrite orb_false_r in H. apply startsWith_inv in H as [r Hr].
      now exists [], r.
    + apply orb_true_iff in H as [H|H].
      * apply startsWith_inv in H as [r Hr]. now exists [], r.
      * destruct (IH H) as (a & b & ->). now exists (c :: a), b.
  - intros (a & b & ->). induction a as [|c a IH]; simpl.
    + destruct (pat ++ b) eqn:E; simpl;
        rewrite <- E, startsWith_app; reflexivity.
    + rewrite IH. apply orb_true_r.
Qed.

Lemma occursb_false_head (pat s : jsstring) :
  occursb pat s = false -> startsWith pat s = false.
Proof.
  destruct s; simpl; intros H; now apply orb_false_iff in H as [H _].
Qed.

Lemma occursb_false_tail (pat : jsstring) (c : char) (s : jsstring) :
  occursb pat (c :: s) = false -> occursb pat s = false.
Proof.
  simpl; intros H; now apply orb_false_iff in H as [_ H].
Qed.

Lemma occursb_absent_char (p0 : char) (pat s : jsstring) :
  forallb (fun c => negb (c =? p0)) s = true ->
  occursb (p0 :: pat) s = false.
Proof.
  induction s as [|c s IH]; simpl; intros H; [reflexivity|].
  apply andb_true_iff in H as [Hc Hs].
  rewrite (IH Hs), orb_false_r.
  apply negb_true_iff in Hc. rewrite N.eqb_sym in Hc. now rewrite Hc.
Qed.

Lemma replaceAll_absent (pat rep s : jsstring) :
  occursb pat s = false -> replaceAll pat rep s = s.
Proof.
  unfold replaceAll.
  induction s as [|c s IH]; intros H; [reflexivity|].
  cbn [replaceAll_from].
  rewrite (occursb_false_head _ _ H).
  now rewrite (IH (occursb_false_tail _ _ _ H)).
Qed.

Lemma replaceClass_absent (f : char -> bool) (rep s : jsstring) :
  forallb (fun c => negb (f c)) s = true -> replaceClass f rep s = s.
Proof.
  unfold replaceClass.
  induction s as [|c s IH]; simpl; intros H; [reflexivity|].
  apply andb_true_iff in H as [Hc Hs].
  apply negb_true_iff in Hc. now rewrite Hc, (IH Hs).
Qed.

Lemma dropWhile_first (f : char -> bool) (s : jsstring) :
  firstIs f s = false -> dropWhile f s = s.
Proof.
  destruct s as [|c s]; simpl; intros H; [reflexivity|now rewrite H].
Qed.

Lemma forallb_lastIs (f : char -> bool) (s : jsstring) :
  s <> [] -> forallb f s = true -> lastIs f s = true.
Proof.
  induction s as [|c s IH]; intros Hne H; [congruence|].
  simpl in H. apply andb_true_iff in H as [Hc Hs].
  destruct s as [|c' s]; [exact Hc|].
  change (lastIs f (c' :: s) = true). apply IH; [discriminate|exact Hs].
Qed.

Lemma dropWhileEnd_last (f : char -> bool) (s : jsstring) :
  lastIs f s = false -> dropWhileEnd f s = s.
Proof.
  induction s as [|c s IH]; intros H; [reflexivity|].
  cbn [dropWhileEnd].
  destruct (forallb f (c :: s)) eqn:E.
  - rewrite (forallb_lastIs f (c :: s)) in H;
      [discriminate|discriminate|exact E].
  - f_equal. destruct s as [|c' s]; [reflexivity|]. apply IH. exact H.
Qed.

Lemma trim_fixed (s : jsstring) :
  firstIs isWhiteSpace s = false -> lastIs isWhiteSpace s = false ->
  trim s = s.
Proof.
  intros Hf Hl. unfold trim.
  now rewrite (dropWhile_first _ _ Hf), (dropWhileEnd_last _ _ Hl).
Qed.

Lemma forallb_weaken (f g : char -> bool) (s : jsstring) :
  forallb f s = true ->
  (forall c, f c = true -> g c = true) ->
  forallb g s = true.
Proof.
  intros H Hfg. rewrite forallb_forall in *. auto.
Qed.

End StringFacts.

(* ================================================================== *)
(** ** The response normalizer *)
(* ================================================================== *)

Section NormalizerFacts.

Local Open Scope N_scope.

Lemma fencedBlock_absent (s : jsstring) :
  occursb fence s = false -> fencedBlock s = None.
Proof.
  induction s as [|c s IH]; intros H.
  - reflexivity.
  - cbn [fencedBlock]. unfold fencedBlockAt.
    rewrite (occursb_false_head _ _ H).
    apply IH. exact (occursb_false_tail _ _ _ H).
Qed.

Lemma stubForTarget_cases (target : jsstring) :
  In (stubForTarget target) [STUB_ARCADE; STUB_MAKER; STUB_MICROBIT].
Proof.
  unfold stubForTarget.
  destruct (streq target (js "arcade")); [now left|].
  destruct (streq target (js "maker")); [right; now left|].
  right; right; now left.
Qed.

Lemma stubForTarget_truthy (target : jsstring) :
  truthy (stubForTarget target) = true.
Proof.
  destruct (stubForTarget_cases target) as [<-|[<-|[<-|[]]]]; reflexivity.
Qed.

Lemma truthy_false (s : jsstring) : truthy s = false <-> s = [].
Proof. destruct s; simpl; split; congruence. Qed.

Lemma sanitizeMakeCode_fixed (s : jsstring) :
  sanitized s = true -> sanitizeMakeCode s = s.
Proof.
  unfold sanitized. intros H.
  apply andb_true_iff in H as [H Hws_last].
  apply andb_true_iff in H as [H Hws_first].
  apply andb_true_iff in H as [H Hinvisible].
  apply andb_true_iff in H as [H Hcr].
  apply andb_true_iff in H as [H Hquotes].
  apply andb_true_iff in H as [H Htab].
  apply andb_true_iff in H as [H Hlf].
  apply andb_true_iff in H as [H Hcrlf].
  apply andb_true_iff in H as [H Htick_last].
  apply andb_true_iff in H as [Hfence Htick_first].
  apply negb_true_iff in Hws_last, Hws_first, Htab, Hlf, Hcrlf,
    Htick_last, Htick_first, Hfence.
  unfold sanitizeMakeCode.
  destruct (truthy s) eqn:Hs; [|now apply truthy_false in Hs].
  simpl negb. cbv iota.
  rewrite (occursb_false_head _ _ Hfence).
  unfold unescapeLiterals, normalizeNewlines, straightenQuotes,
    stripInvisible, stripBackticks.
  rewrite (replaceAll_absent _ [LF] _ Hcrlf).
  rewrite (replaceAll_absent _ [LF] _ Hlf).
  rewrite (replaceAll_absent _ [TAB] _ Htab).
  rewrite (replaceAll_absent [CR; LF] [LF] s)
    by (apply occursb_absent_char; exact Hcr).
  rewrite (replaceClass_absent (N.eqb CR)).
  2:{ apply (forallb_weaken _ _ _ Hcr).
      intros c Hc; cbv beta in Hc |- *; now rewrite N.eqb_sym. }
  rewrite (replaceClass_absent isCurlySingle).
  2:{ apply (forallb_weaken _ _ _ Hquotes).
      intros c Hc; cbv beta in Hc. apply negb_true_iff, orb_false_iff in Hc.
      apply negb_true_iff; tauto. }
  rewrite (replaceClass_absent isCurlyDouble).
  2:{ apply (forallb_weaken _ _ _ Hquotes).
      intros c Hc; cbv beta in Hc. apply negb_true_iff, orb_false_iff in Hc.
      apply negb_true_iff; tauto. }
  rewrite (replaceClass_absent isZeroWidth).
  2:{ apply (forallb_weaken _ _ _ Hinvisible).
      intros c Hc; cbv beta in Hc. apply negb_true_iff, orb_false_iff in Hc.
      apply negb_true_iff; tauto. }
  rewrite (replaceClass_absent isNbsp).
  2:{ apply (forallb_weaken _ _ _ Hinvisible).
      intros c Hc; cbv beta in Hc. apply negb_true_iff, orb_false_iff in Hc.
      apply negb_true_iff; tauto. }
  rewrite (dropWhile_first _ _ Htick_first).
  rewrite (dropWhileEnd_last _ _ Htick_last).
  now apply trim_fixed.
Qed.

(** C8: for the raw text made of the line [FEEDBACK: note] followed by a
    fenced block holding the single line [code_line], the normalizer gives
    the feedback list with the one entry [note] and the code [code_line],
    whatever the target is. *)
Theorem normalize_feedback_and_fence (target : jsstring) :
  let raw := js "FEEDBACK: note" ++ [LF] ++ fence ++ [LF]
             ++ js "code_line" ++ [LF] ++ fence in
  separateFeedback raw
    = {| feedback := [js "note"];
         body := fence ++ [LF] ++ js "code_line" ++ [LF] ++ fence |}
  /\ extractCode (body (separateFeedback raw)) = js "code_line"
  /\ normalizeResponse target raw
     = {| code := js "code_line"; notes := [js "note"] |}.
Proof.
  intros raw.
  assert (Hsep : separateFeedback raw
    = {| feedback := [js "note"];
         body := fence ++ [LF] ++ js "code_line" ++ [LF] ++ fence |})
    by (vm_compute; reflexivity).
  assert (Hcode : extractCode (body (separateFeedback raw)) = js "code_line")
    by (vm_compute; reflexivity).
  split; [exact Hsep|split; [exact Hcode|]].
  unfold normalizeResponse. rewrite Hcode, Hsep. reflexivity.
Qed.



(** C9: extraction leaves already-sanitized code unchanged. *)
Theorem extractCode_sanitized (s : jsstring) :
  sanitized s = true -> extractCode s = s.
Proof.
  intros H. unfold extractCode.
  destruct (truthy s) eqn:Hs; simpl negb; cbv iota.
  - rewrite fencedBlock_absent.
    + now apply sanitizeMakeCode_fixed.
    + unfold sanitized in H.
      repeat (apply andb_true_iff in H as [H _]).
      now apply negb_true_iff in H.
  - symmetry. now apply truthy_false.
Qed.

(** A two-line program with an inner backtick and inner blanks. *)
Lemma extractCode_sanitized_witness :
  let s := js "basic.showString(`a b`)" ++ [LF] ++ js "  x = 'c'" in
  sanitized s = true /\ extractCode s = s.
Proof.
  intros s. split; [reflexivity|].
  apply (extractCode_sanitized s). reflexivity.
Defined.

End NormalizerFacts.

(* ================================================================== *)
(** ** Principal state *)
(* ================================================================== *)

Section DbFacts.

Lemma streq_eq (a b : jsstring) : streq a b = true <-> a = b.
Proof.
  revert b; induction a as [|x a IH]; intros [|y b]; simpl;
    try (split; congruence).
  rewrite andb_true_iff, N.eqb_eq, IH. split.
  - intros [-> ->]; reflexivity.
  - intros E; inversion E; auto.
Qed.

Lemma streq_refl (a : jsstring) : streq a a = true.
Proof. now apply streq_eq. Qed.

Lemma streq_neq (a b : jsstring) : a <> b -> streq a b = false.
Proof.
  intros H. destruct (streq a b) eqn:E; [|reflexivity].
  now apply streq_eq in E.
Qed.

Lemma truthyZ_true (n : Z) : truthyZ n = true <-> n <> 0%Z.
Proof.
  unfold truthyZ. rewrite negb_true_iff, Z.eqb_neq. reflexivity.
Qed.

Lemma truthyZ_false (n : Z) : truthyZ n = false <-> n = 0%Z.
Proof.
  unfold truthyZ. rewrite negb_false_iff, Z.eqb_eq. reflexivity.
Qed.

Variable hashToken : jsstring -> jsstring.

(** A lookup by token after an update that leaves the tokens alone finds
    the updated form of the row it found before. *)
Lemma find_token_update (h : jsstring) (cond : student -> bool)
  (upd : student -> student) (rows : list student) :
  (forall s, s_token (upd s) = s_token s) ->
  find (fun s => streq (s_token s) h)
       (map (fun s => if cond s then upd s else s) rows)
  = option_map (fun s => if cond s then upd s else s)
      (find (fun s => streq (s_token s) h) rows).
Proof.
  intros Htok. induction rows as [|r rows IH]; [reflexivity|].
  simpl. destruct (cond r) eqn:Ec; rewrite ?Htok;
    destruct (streq (s_token r) h); simpl; rewrite ?Ec; auto.
Qed.

Lemma getStudentByToken_increment (d : db) (tok : jsstring) (s : student) :
  getStudentByToken hashToken d tok = Some s ->
  getStudentByToken hashToken (incrementStudentUsage d (s_id s)) tok
  = Some (set_requests_used (s_requests_used s + 1) s).
Proof.
  unfold getStudentByToken, incrementStudentUsage, updateStudents. simpl.
  intros H. rewrite find_token_update by reflexivity.
  rewrite H. simpl. now rewrite streq_refl.
Qed.

End DbFacts.

(* ================================================================== *)
(** ** The bearer pattern *)
(* ================================================================== *)

Section BearerFacts.

Local Open Scope N_scope.

Lemma startsWith_i_split (p s : jsstring) :
  startsWith_i p s = true ->
  Forall2 (fun x c => eqChar_i x c = true) p (firstn (List.length p) s)
  /\ s = firstn (List.length p) s ++ skipn (List.length p) s.
Proof.
  revert s; induction p as [|x p IH]; intros s H.
  - split; [constructor|reflexivity].
  - destruct s as [|c s]; [discriminate|].
    simpl in H. apply andb_true_iff in H as [Hc Hp].
    destruct (IH _ Hp) as [HF HE]. split.
    + simpl. now constructor.
    + simpl. now rewrite <- HE.
Qed.

Lemma startsWith_i_app (p word r : jsstring) :
  Forall2 (fun x c => eqChar_i x c = true) p word ->
  startsWith_i p (word ++ r) = true /\ skipn (List.length p) (word ++ r) = r.
Proof.
  induction 1 as [|x c p word Hc _ IH]; [now split|].
  destruct IH as [IH1 IH2]. simpl. now rewrite Hc, IH1.
Qed.

Lemma firstn_takeWhile (f : char -> bool) (r : jsstring) (j : nat) :
  (j <= List.length (takeWhile f r))%nat ->
  Forall (fun c => f c = true) (firstn j r).
Proof.
  revert j; induction r as [|c r IH]; intros j Hj.
  - rewrite firstn_nil. constructor.
  - destruct j as [|j]; [constructor|].
    simpl in Hj. destruct (f c) eqn:E; simpl in Hj; [|lia].
    simpl. constructor; [exact E|]. apply IH. lia.
Qed.

Lemma takeWhile_app_length (f : char -> bool) (ws rest : jsstring) :
  Forall (fun c => f c = true) ws ->
  (List.length ws <= List.length (takeWhile f (ws ++ rest)))%nat.
Proof.
  induction 1 as [|c ws Hc _ IH]; simpl; [lia|].
  rewrite Hc. simpl. lia.
Qed.

Lemma bearerBacktrack_sound (r : jsstring) (j : nat) (tok : jsstring) :
  bearerBacktrack r j = Some tok ->
  exists i, (1 <= i <= j)%nat /\ tok = skipn i r /\ tok <> []
            /\ Forall (fun c => isLineTerminator c = false) tok.
Proof.
  induction j as [|j IH]; [discriminate|].
  cbn [bearerBacktrack]; cbv zeta.
  remember (skipn (S j) r) as rest eqn:Hrest.
  destruct (truthy rest && forallb (fun c => negb (isLineTerminator c)) rest)
    eqn:E.
  - intros [= <-]. apply andb_true_iff in E as [Ht Hl].
    exists (S j). split; [lia|]. split; [exact Hrest|]. split.
    + intros Hn. now rewrite Hn in Ht.
    + apply Forall_forall. intros c Hc.
      rewrite forallb_forall in Hl. now apply negb_true_iff, Hl.
  - intros H. destruct (IH H) as (i & Hi & Hmore). exists i. split; [lia|auto].
Qed.

Lemma bearerBacktrack_complete (r : jsstring) (n j : nat) :
  (1 <= n <= j)%nat ->
  skipn n r <> [] ->
  Forall (fun c => isLineTerminator c = false) (skipn n r) ->
  bearerBacktrack r j <> None.
Proof.
  intros Hn Hne Hlt. induction j as [|j IH]; [lia|].
  cbn [bearerBacktrack]; cbv zeta.
  destruct (truthy (skipn (S j) r)
            && forallb (fun c => negb (isLineTerminator c)) (skipn (S j) r))
    eqn:E; [discriminate|].
  destruct (Nat.eq_dec n (S j)) as [->|Hneq].
  - exfalso. apply andb_false_iff in E as [E|E].
    + apply truthy_false in E. contradiction.
    + assert (forallb (fun c => negb (isLineTerminator c)) (skipn (S j) r)
              = true); [|congruence].
      apply forallb_forall. intros c Hc.
      rewrite Forall_forall in Hlt. now rewrite (Hlt c Hc).
  - apply IH. lia.
Qed.

(** The hand-compiled matcher accepts exactly the headers of the shape. *)
Lemma bearerMatch_shape (h : jsstring) :
  bearerMatch h <> None <-> BearerShape h.
Proof.
  unfold bearerMatch, BearerShape. split.
  - destruct (startsWith_i (js "Bearer") h) eqn:Hp; [|congruence].
    destruct (startsWith_i_split _ _ Hp) as [HF HE].
    change (List.length (js "Bearer")) with 6%nat in HF, HE.
    destruct (bearerBacktrack (skipn 6 h)
                (List.length (takeWhile isWhiteSpace (skipn 6 h)))) as [tok|]
      eqn:Hb; [|congruence].
    intros _. apply bearerBacktrack_sound in Hb
      as (i & Hi & Htok & Hne & Hlt).
    exists (firstn 6 h), (firstn i (skipn 6 h)), tok.
    repeat split; auto.
    + rewrite Htok, firstn_skipn. exact HE.
    + intros Hnil. apply Hne. rewrite Htok.
      destruct (skipn 6 h) as [|c r']; [now rewrite skipn_nil|].
      destruct i; [lia|discriminate Hnil].
    + apply firstn_takeWhile. lia.
  - intros (word & ws & rest & -> & HF & Hws & HwsF & Hrest & HrestF).
    destruct (startsWith_i_app _ _ (ws ++ rest) HF) as [Hp Hskip].
    change (List.length (js "Bearer")) with 6%nat in Hskip.
    rewrite Hp, Hskip.
    apply (bearerBacktrack_complete (ws ++ rest) (List.length ws)).
    + split; [destruct ws; [congruence|simpl; lia]|].
      now apply takeWhile_app_length.
    + now rewrite skipn_app, skipn_all, Nat.sub_diag.
    + now rewrite skipn_app, skipn_all, Nat.sub_diag.
Qed.

Lemma extractBearerToken_no_shape (h : jsstring) :
  ~ BearerShape h -> extractBearerToken (Some h) = [].
Proof.
  intros Hn. unfold extractBearerToken.
  destruct (truthy h); simpl; [|reflexivity].
  destruct (bearerMatch h) eqn:E; [|reflexivity].
  exfalso. apply Hn, bearerMatch_shape. congruence.
Qed.

Lemma extractBearerToken_shape (h : jsstring) :
  BearerShape h -> extractBearerToken (Some h) <> [].
Proof.
  intros Hs. pose proof Hs as Hm. apply bearerMatch_shape in Hm.
  unfold extractBearerToken.
  destruct Hs as (word & ws & rest & -> & HF & _).
  inversion HF; subst. simpl truthy. simpl negb. cbv iota.
  unfold bearerMatch in *.
  destruct (startsWith_i (js "Bearer") ((y :: l') ++ ws ++ rest));
    [|congruence].
  destruct (bearerBacktrack _ _) as [tok|] eqn:Hb; [|congruence].
  apply bearerBacktrack_sound in Hb as (i & _ & _ & Hne & _). exact Hne.
Qed.

End BearerFacts.

(* ================================================================== *)
(** ** The authorization chain and the generate handler *)
(* ================================================================== *)

Section HandlerFacts.

Local Open Scope Z_scope.

Variable hashToken : jsstring -> jsstring.

Ltac run_handler :=
  unfold handleGenerate, authorize, generateManaged, callProvider, readJson,
    tryCatch, bind, selectStudent, selectClassroom, updateUsage, respondJson,
    emit, return_, ret, throw;
  cbn [w_db w_log fst snd].

Ltac tidy_log := cbn [w_db w_log fst snd]; rewrite <- ?app_assoc.

Lemma static_miss (cfg : config) (tok : jsstring) :
  tok <> SERVER_APP_TOKEN cfg ->
  truthy (SERVER_APP_TOKEN cfg) && streq tok (SERVER_APP_TOKEN cfg) = false.
Proof.
  intros H. rewrite (streq_neq _ _ H). apply andb_false_r.
Qed.

Lemma truthy_true (s : jsstring) : truthy s = true <-> s <> [].
Proof. destruct s; simpl; split; congruence. Qed.

(** The authorization chain for a credential that is not the static
    secret, with its monadic steps run. *)
Lemma authorize_student_mode (cfg : config) (tok : jsstring) (w : world) :
  tok <> [] -> tok <> SERVER_APP_TOKEN cfg ->
  authorize hashToken cfg tok w =
  let sel := EvSelectStudent (hashToken tok) in
  let deny evs status msg :=
    (Return, {| w_db := w_db w;
                w_log := w_log w ++ evs ++ [EvRespond status (ErrorBody msg)] |}) in
  match getStudentByToken hashToken (w_db w) tok with
  | None => deny [sel] 401 (Text UNAUTHORIZED)
  | Some s =>
      if negb (truthyZ (s_active s)) then deny [sel] 403 (Text DEACTIVATED)
      else
        let selc := EvSelectClassroom (s_classroom_id s) in
        match getClassroom (w_db w) (s_classroom_id s) with
        | None => deny [sel; selc] 403 (Text PAUSED)
        | Some c =>
            if negb (truthyZ (c_active c))
            then deny [sel; selc] 403 (Text PAUSED)
            else if s_requests_used s >=? c_request_limit c
            then deny [sel; selc] 429 (LimitReached (c_request_limit c))
            else (Normal (Student (s_id s)),
                  {| w_db := incrementStudentUsage (w_db w) (s_id s);
                     w_log := w_log w ++ [sel; selc; EvUpdateUsage (s_id s)] |})
        end
  end.
Proof.
  intros Hne Hmiss. unfold authorize.
  rewrite (static_miss _ _ Hmiss).
  apply truthy_true in Hne. rewrite Hne.
  run_handler.
  destruct (getStudentByToken hashToken (w_db w) tok) as [s|];
    [|tidy_log; reflexivity].
  destruct (negb (truthyZ (s_active s))); [tidy_log; reflexivity|].
  cbn [w_db w_log].
  destruct (getClassroom (w_db w) (s_classroom_id s)) as [c|];
    [|tidy_log; reflexivity].
  destruct (negb (truthyZ (c_active c))); [tidy_log; reflexivity|].
  destruct (s_requests_used s >=? c_request_limit c);
    tidy_log; reflexivity.
Qed.

(** A rejection by the chain ends the handler at once. *)
Lemma handle_rejected (cfg : config) (req : request_in)
  (upstream : provider_outcome) (w w' : world) :
  authorize hashToken cfg (extractBearerToken (authorization req)) w
  = (Return, w') ->
  handleGenerate hashToken cfg req upstream w = (Return, w').
Proof.
  intros H. unfold handleGenerate, tryCatch, bind. now rewrite H.
Qed.

(** After an admission the handler reads the body and from then on only
    calls upstream and responds: the database stays as the chain left it,
    whatever the body and the upstream call turn out to be. *)
Lemma handle_passed (cfg : config) (req : request_in)
  (upstream : provider_outcome) (w w' : world) (p : principal) :
  authorize hashToken cfg (extractBearerToken (authorization req)) w
  = (Normal p, w') ->
  exists k post,
    handleGenerate hashToken cfg req upstream w
    = (k, {| w_db := w_db w'; w_log := w_log w' ++ EvReadBody :: post |})
    /\ Forall quiet post.
Proof.
  intros H. unfold handleGenerate, tryCatch, bind. rewrite H.
  run_handler.
  destruct (bodyRead req) as [pl|e].
  - destruct (validatePayload pl) as [err|v].
    + do 2 eexists. tidy_log. split; [reflexivity|repeat constructor].
    + destruct (negb (truthy (apiKey cfg))).
      * do 2 eexists. tidy_log. split; [reflexivity|repeat constructor].
      * destruct (isKnownProvider (PROVIDER cfg)).
        -- cbn [w_db w_log].
           destruct upstream; do 2 eexists; tidy_log;
             (split; [reflexivity|repeat constructor]).
        -- do 2 eexists. tidy_log. split; [reflexivity|repeat constructor].
  - do 2 eexists. tidy_log. split; [reflexivity|repeat constructor].
Qed.

(** The chain for the static secret: no step at all. *)
Lemma authorize_static (cfg : config) (tok : jsstring) (w : world) :
  SERVER_APP_TOKEN cfg <> [] -> tok = SERVER_APP_TOKEN cfg ->
  authorize hashToken cfg tok w = (Normal StaticApp, w).
Proof.
  intros Hs ->. unfold authorize.
  apply truthy_true in Hs. now rewrite Hs, streq_refl.
Qed.

(** The chain without a credential. *)
Lemma authorize_no_credential (cfg : config) (w : world) :
  authorize hashToken cfg [] w
  = if truthy (SERVER_APP_TOKEN cfg)
    then (Return,
          {| w_db := w_db w;
             w_log := w_log w
                      ++ [EvRespond 401 (ErrorBody (Text UNAUTHORIZED))] |})
    else (Normal OpenMode, w).
Proof.
  unfold authorize.
  destruct (SERVER_APP_TOKEN cfg) as [|c t]; reflexivity.
Qed.

End HandlerFacts.

(* ================================================================== *)
(** ** Properties of the authorization engine *)
(* ================================================================== *)

Section Quota.

Local Open Scope Z_scope.

Variable hashToken : jsstring -> jsstring.

(** C1: a request whose credential is not the static secret and resolves
    to an active student of an active classroom.  When [requests_used] has
    reached [request_limit], the handler answers 429 with the limit and
    returns; no row changes.  When [requests_used] is one below
    [request_limit], the request is let through (the handler goes on to read
    the body), the database is the old one with that student's counter
    incremented, and the counter then equals [request_limit]. *)
Theorem quota_boundary (cfg : config) (req : request_in)
  (upstream : provider_outcome) (w : world) (s : student) (c : classroom) :
  let tok := extractBearerToken (authorization req) in
  tok <> [] -> tok <> SERVER_APP_TOKEN cfg ->
  getStudentByToken hashToken (w_db w) tok = Some s -> s_active s <> 0 ->
  getClassroom (w_db w) (s_classroom_id s) = Some c -> c_active c <> 0 ->
  (s_requests_used s >= c_request_limit c ->
   handleGenerate hashToken cfg req upstream w
   = (Return,
      {| w_db := w_db w;
         w_log := w_log w
                  ++ [EvSelectStudent (hashToken tok);
                      EvSelectClassroom (s_classroom_id s);
                      EvRespond 429
                        (ErrorBody (LimitReached (c_request_limit c)))] |}))
  /\ (s_requests_used s = c_request_limit c - 1 ->
      (exists k post,
          handleGenerate hashToken cfg req upstream w
          = (k,
             {| w_db := incrementStudentUsage (w_db w) (s_id s);
                w_log := w_log w
                         ++ [EvSelectStudent (hashToken tok);
                             EvSelectClassroom (s_classroom_id s);
                             EvUpdateUsage (s_id s); EvReadBody]
                         ++ post |})
          /\ Forall quiet post)
      /\ getStudentByToken hashToken
           (incrementStudentUsage (w_db w) (s_id s)) tok
         = Some (set_requests_used (c_request_limit c) s)).
Proof.
  intros tok Hne Hmiss Hs Hsa Hc Hca.
  pose proof (authorize_student_mode hashToken cfg tok w Hne Hmiss) as Hauth.
  cbv zeta in Hauth. rewrite Hs, Hc in Hauth.
  apply truthyZ_true in Hsa, Hca. rewrite Hsa, Hca in Hauth.
  cbn [negb] in Hauth.
  split.
  - intros Hfull.
    assert (E : (s_requests_used s >=? c_request_limit c) = true)
      by (apply Z.geb_le; lia).
    rewrite E in Hauth. now apply handle_rejected.
  - intros Hlast.
    assert (E : (s_requests_used s >=? c_request_limit c) = false).
    { destruct (s_requests_used s >=? c_request_limit c) eqn:G;
        [apply Z.geb_le in G; lia|reflexivity]. }
    rewrite E in Hauth. split.
    + destruct (handle_passed hashToken cfg req upstream w _ _ Hauth)
        as (k & post & Hrun & Hquiet).
      exists k, post. split; [|exact Hquiet].
      rewrite Hrun. cbn [w_db w_log]. rewrite <- app_assoc. reflexivity.
    + rewrite (getStudentByToken_increment hashToken _ _ _ Hs).
      do 2 f_equal. lia.
Qed.

End Quota.

(** At the quota (student s2, 3 of 3) the request is rejected with 429;
    one below it (student s1, 2 of 3) the counter becomes 3. *)
Lemma quota_boundary_witness :
  handleGenerate sampleHash openConfig (requestWith (bearer "tok-two"))
    (ProviderText []) (start sampleDb)
  = (Return,
     {| w_db := sampleDb;
        w_log := [EvSelectStudent (sampleHash (js "tok-two"));
                  EvSelectClassroom (js "c1");
                  EvRespond 429 (ErrorBody (LimitReached 3))] |})
  /\ getStudentByToken sampleHash
       (incrementStudentUsage sampleDb (js "s1")) (js "tok-one")
     = Some (mkStudent "s1" "c1" "tok-one" 3 1).
Proof.
  split.
  - refine (proj1 (quota_boundary sampleHash openConfig
                     (requestWith (bearer "tok-two")) (ProviderText [])
                     (start sampleDb) (mkStudent "s2" "c1" "tok-two" 3 1)
                     (mkClassroom "c1" 3 1) _ _ _ _ _ _) _);
      try reflexivity; try discriminate.
  - refine (proj2 (proj2 (quota_boundary sampleHash openConfig
                     (requestWith (bearer "tok-one")) (ProviderText [])
                     (start sampleDb) (mkStudent "s1" "c1" "tok-one" 2 1)
                     (mkClassroom "c1" 3 1) _ _ _ _ _ _) _));
      try reflexivity; try discriminate.
Defined.

Section IncrementPolicy.

Local Open Scope Z_scope.

Variable hashToken : jsstring -> jsstring.

Lemma not_incremented_selects (evs : list event) (status : Z)
  (body : response_body) :
  Forall (fun e => forall id, e <> EvUpdateUsage id) evs ->
  ~ incremented (evs ++ [EvRespond status body]).
Proof.
  intros Hevs [id Hin]. apply in_app_or in Hin as [Hin|[Hin|[]]].
  - rewrite Forall_forall in Hevs. now apply (Hevs _ Hin id).
  - discriminate.
Qed.

Lemma quiet_not_incremented (post : list event) :
  Forall quiet post -> ~ incremented post.
Proof.
  intros Hq [id Hin]. rewrite Forall_forall in Hq.
  exact (Hq _ Hin).
Qed.

Lemma quiet_not_reachedBody (post : list event) :
  Forall quiet post -> ~ In EvReadBody post.
Proof.
  intros Hq Hin. rewrite Forall_forall in Hq. exact (Hq _ Hin).
Qed.

(** The outcome of the chain in student-token mode, in two cases: an
    admissible credential is admitted with exactly one increment after the
    two lookups; any other is rejected with a response and no change. *)
Lemma authorize_student_cases (cfg : config) (tok : jsstring) (d : db) :
  tok <> [] -> tok <> SERVER_APP_TOKEN cfg ->
  (admissible hashToken d tok
   /\ exists s,
       getStudentByToken hashToken d tok = Some s
       /\ authorize hashToken cfg tok (start d)
          = (Normal (Student (s_id s)),
             {| w_db := incrementStudentUsage d (s_id s);
                w_log := [EvSelectStudent (hashToken tok);
                          EvSelectClassroom (s_classroom_id s);
                          EvUpdateUsage (s_id s)] |}))
  \/ (~ admissible hashToken d tok
      /\ exists evs status msg,
          authorize hashToken cfg tok (start d)
          = (Return,
             {| w_db := d;
                w_log := evs ++ [EvRespond status (ErrorBody msg)] |})
          /\ Forall (fun e => forall id, e <> EvUpdateUsage id) evs
          /\ Forall (fun e => e <> EvReadBody) evs
          /\ Forall (fun e => forall p, e <> EvFetch p) evs
          /\ (status = 401 \/ status = 403 \/ status = 429)).
Proof.
  intros Hne Hmiss.
  rewrite (authorize_student_mode hashToken cfg tok (start d) Hne Hmiss).
  cbv zeta. cbn [start w_db w_log app].
  unfold admissible.
  destruct (getStudentByToken hashToken d tok) as [s|] eqn:Hs.
  2:{ right. split; [intros (s & c & [=] & _)|].
      exists [EvSelectStudent (hashToken tok)], 401, (Text UNAUTHORIZED).
      split; [reflexivity|].
      repeat split; try (repeat constructor; discriminate); auto. }
  destruct (truthyZ (s_active s)) eqn:Hsa; cbn [negb].
  2:{ right. apply truthyZ_false in Hsa.
      split; [intros (s' & c & [= <-] & Hact & _); contradiction|].
      exists [EvSelectStudent (hashToken tok)], 403, (Text DEACTIVATED).
      split; [reflexivity|].
      repeat split; try (repeat constructor; discriminate); auto. }
  destruct (getClassroom d (s_classroom_id s)) as [c|] eqn:Hc.
  2:{ right. split; [intros (s' & c & [= <-] & _ & Hc' & _); congruence|].
      exists [EvSelectStudent (hashToken tok);
              EvSelectClassroom (s_classroom_id s)], 403, (Text PAUSED).
      split; [reflexivity|].
      repeat split; try (repeat constructor; discriminate); auto. }
  destruct (truthyZ (c_active c)) eqn:Hca; cbn [negb].
  2:{ right. apply truthyZ_false in Hca.
      split; [intros (s' & c' & [= <-] & _ & Hc' & Hact & _);
              rewrite Hc in Hc'; injection Hc' as <-; contradiction|].
      exists [EvSelectStudent (hashToken tok);
              EvSelectClassroom (s_classroom_id s)], 403, (Text PAUSED).
      split; [reflexivity|].
      repeat split; try (repeat constructor; discriminate); auto. }
  destruct (s_requests_used s >=? c_request_limit c) eqn:Hq.
  - right. apply Z.geb_le in Hq.
    split; [intros (s' & c' & [= <-] & _ & Hc' & _ & Hlt);
            rewrite Hc in Hc'; injection Hc' as <-; lia|].
    exists [EvSelectStudent (hashToken tok);
            EvSelectClassroom (s_classroom_id s)], 429,
      (LimitReached (c_request_limit c)).
    split; [reflexivity|].
    repeat split; try (repeat constructor; discriminate); auto.
  - left. apply truthyZ_true in Hsa, Hca.
    assert (s_requests_used s < c_request_limit c).
    { destruct (Z.ltb_spec (s_requests_used s) (c_request_limit c)) as [L|L];
        [exact L|]. apply Z.geb_le in L. congruence. }
    split; [exists s, c; auto|]. exists s. split; reflexivity.
Qed.

(** C2: in student-token mode (a credential is presented and it is not
    the static secret), for every way the body read and the upstream call
    can end: a usage counter is incremented exactly when the chain admits
    the request, which is exactly when the credential is admissible; on
    admission the final database is the initial one with that student's
    counter incremented once, so nothing after the chain undoes it: the
    student the credential resolves to in the final database has
    [requests_used] one higher than before; on rejection the handler
    returns with the database unchanged; and every upstream call in the
    log comes after the increment. *)
Theorem usage_increment_policy (cfg : config) (req : request_in)
  (upstream : provider_outcome) (d : db) :
  let tok := extractBearerToken (authorization req) in
  let auth := authorize hashToken cfg tok (start d) in
  let out := handleGenerate hashToken cfg req upstream (start d) in
  tok <> [] -> tok <> SERVER_APP_TOKEN cfg ->
  (incremented (w_log (snd out)) <-> exists p, fst auth = Normal p)
  /\ ((exists p, fst auth = Normal p) <-> admissible hashToken d tok)
  /\ ((exists p, fst auth = Normal p) ->
      reachedBody (w_log (snd out))
      /\ exists s, getStudentByToken hashToken d tok = Some s
                   /\ w_db (snd out) = incrementStudentUsage d (s_id s)
                   /\ getStudentByToken hashToken (w_db (snd out)) tok
                      = Some (set_requests_used (s_requests_used s + 1) s))
  /\ ((forall p, fst auth <> Normal p) ->
      fst out = Return /\ w_db (snd out) = d
      /\ ~ reachedBody (w_log (snd out)))
  /\ (forall pre p post,
        w_log (snd out) = pre ++ EvFetch p :: post ->
        incremented pre /\ ~ incremented post).
Proof.
  intros tok auth out Hne Hmiss.
  destruct (authorize_student_cases cfg tok d Hne Hmiss)
    as [(Hadm & s & Hs & Hauth)|(Hnadm & evs & status & msg & Hauth & Hevs)].
  - (* admitted *)
    destruct (handle_passed hashToken cfg req upstream _ _ _ Hauth)
      as (k & post & Hrun & Hquiet).
    cbn [w_db w_log] in Hrun.
    subst auth out. fold tok. rewrite Hauth, Hrun. cbn [fst snd w_db w_log].
    assert (Hinc : incremented
                     ([EvSelectStudent (hashToken tok);
                       EvSelectClassroom (s_classroom_id s);
                       EvUpdateUsage (s_id s)] ++ EvReadBody :: post))
      by (exists (s_id s); simpl; auto).
    split; [split; [eauto|intros _; exact Hinc]|].
    split; [split; [intros _; exact Hadm|eauto]|].
    split.
    { intros _. split; [unfold reachedBody; simpl; auto|].
      exists s. split; [exact Hs|]. split; [reflexivity|].
      now apply getStudentByToken_increment. }
    split; [intros Hno; exfalso; eapply Hno; reflexivity|].
    intros pre p post' Hlog.
    destruct pre as [|e1 pre]; [discriminate Hlog|].
    destruct pre as [|e2 pre]; [discriminate Hlog|].
    destruct pre as [|e3 pre]; [discriminate Hlog|].
    destruct pre as [|e4 pre]; [discriminate Hlog|].
    injection Hlog as <- <- <- <- Hpost.
    split; [exists (s_id s); simpl; auto|].
    apply quiet_not_incremented.
    rewrite Hpost in Hquiet. apply Forall_app in Hquiet as [_ Hq].
    now inversion Hq.
  - (* rejected *)
    destruct Hevs as (Hnoupd & Hnoread & Hnofetch & _).
    pose proof (handle_rejected hashToken cfg req upstream _ _ Hauth) as Hrun.
    subst auth out. fold tok. rewrite Hauth, Hrun. cbn [fst snd w_db w_log].
    assert (Hninc : ~ incremented (evs ++ [EvRespond status (ErrorBody msg)]))
      by now apply not_incremented_selects.
    split; [split; [intros H; contradiction|intros [p [=]]]|].
    split; [split; [intros [p [=]]|intros H; contradiction]|].
    split; [intros [p [=]]|].
    split.
    + intros _. repeat split. unfold reachedBody. intros Hin.
      apply in_app_or in Hin as [Hin|[Hin|[]]]; [|discriminate].
      rewrite Forall_forall in Hnoread. now apply (Hnoread _ Hin).
    + intros pre p post Hlog. exfalso.
      assert (Hin : In (EvFetch p) (evs ++ [EvRespond status (ErrorBody msg)]))
        by (rewrite Hlog; apply in_or_app; right; left; reflexivity).
      apply in_app_or in Hin as [Hin|[Hin|[]]]; [|discriminate].
      rewrite Forall_forall in Hnofetch. now apply (Hnofetch _ Hin p).
Qed.

End IncrementPolicy.

(** Student s1 (2 of 3) is admitted and charged although the upstream call
    then times out: in the final database the counter of s1 is 3. *)
Lemma usage_increment_policy_witness :
  getStudentByToken sampleHash
    (w_db (snd (handleGenerate sampleHash secretConfig
                  (requestWith (bearer "tok-one")) ProviderAborted
                  (start sampleDb))))
    (js "tok-one")
  = Some (mkStudent "s1" "c1" "tok-one" 3 1).
Proof.
  destruct (usage_increment_policy sampleHash secretConfig
              (requestWith (bearer "tok-one")) ProviderAborted sampleDb)
    as (_ & _ & Hadm & _); try discriminate.
  destruct Hadm as (_ & s & Hs & _ & Hcount); [eexists; reflexivity|].
  injection Hs as <-. exact Hcount.
Defined.

Section AdmissionModes.

Local Open Scope Z_scope.

Variable hashToken : jsstring -> jsstring.

(** C3: a request without a credential is admitted, in open mode, exactly
    when no static secret is configured, and is answered 401 otherwise.  A
    request with a non-empty credential is never let through by the
    open-mode branch; when the credential is neither the static secret nor
    admissible as a student, the handler answers 401, 403 or 429 and
    returns without reading the body or changing the database. *)
Theorem open_mode_rule (cfg : config) (req : request_in)
  (upstream : provider_outcome) (d : db) :
  let tok := extractBearerToken (authorization req) in
  let auth := authorize hashToken cfg tok (start d) in
  let out := handleGenerate hashToken cfg req upstream (start d) in
  (tok = [] ->
   (fst auth = Normal OpenMode <-> SERVER_APP_TOKEN cfg = [])
   /\ (reachedBody (w_log (snd out)) <-> SERVER_APP_TOKEN cfg = [])
   /\ (SERVER_APP_TOKEN cfg <> [] ->
       out = (Return,
              {| w_db := d;
                 w_log := [EvRespond 401 (ErrorBody (Text UNAUTHORIZED))] |})))
  /\ (tok <> [] ->
      fst auth <> Normal OpenMode
      /\ (tok <> SERVER_APP_TOKEN cfg -> ~ admissible hashToken d tok ->
          fst out = Return
          /\ w_db (snd out) = d
          /\ ~ reachedBody (w_log (snd out))
          /\ exists evs status msg,
              w_log (snd out) = evs ++ [EvRespond status (ErrorBody msg)]
              /\ (status = 401 \/ status = 403 \/ status = 429))).
Proof.
  intros tok auth out. split.
  - intros Htok. subst auth out. fold tok. 
    pose proof (authorize_no_credential hashToken cfg (start d)) as Hauth.
    rewrite <- Htok in Hauth. fold tok in Hauth.
    destruct (SERVER_APP_TOKEN cfg) as [|c0 t] eqn:Hsec; cbn [truthy] in Hauth.
    + destruct (handle_passed hashToken cfg req upstream _ _ _ Hauth)
        as (k & post & Hrun & _).
      rewrite Hauth, Hrun. cbn [fst snd w_log start].
      split; [split; reflexivity|].
      split; [|intros Hn; congruence].
      split; [reflexivity|]. intros _. unfold reachedBody. simpl. auto.
    + pose proof (handle_rejected hashToken cfg req upstream _ _ Hauth)
        as Hrun.
      rewrite Hauth, Hrun. cbn [fst snd w_log w_db start app].
      split; [split; discriminate|].
      split; [|reflexivity].
      split; [|discriminate].
      unfold reachedBody. simpl. intros [H|[]]. discriminate.
  - intros Hne. split.
    + subst auth.
      destruct (streq tok (SERVER_APP_TOKEN cfg)) eqn:Heq.
      * apply streq_eq in Heq.
        rewrite (authorize_static hashToken cfg tok (start d));
          [discriminate|congruence|exact Heq].
      * assert (Hmiss : tok <> SERVER_APP_TOKEN cfg)
          by (intros E; apply streq_eq in E; congruence).
        destruct (authorize_student_cases hashToken cfg tok d Hne Hmiss)
          as [(_ & s & _ & Hauth)|(_ & evs & status & msg & Hauth & _)];
          rewrite Hauth; discriminate.
    + intros Hmiss Hnadm.
      destruct (authorize_student_cases hashToken cfg tok d Hne Hmiss)
        as [(Hadm & _)|(_ & evs & status & msg & Hauth & _ & Hnoread & _ & Hst)];
        [contradiction|].
      pose proof (handle_rejected hashToken cfg req upstream _ _ Hauth)
        as Hrun.
      subst out. rewrite Hrun. cbn [fst snd w_db w_log].
      split; [reflexivity|]. split; [reflexivity|]. split.
      * unfold reachedBody. intros Hin.
        apply in_app_or in Hin as [Hin|[Hin|[]]]; [|discriminate].
        rewrite Forall_forall in Hnoread. now apply (Hnoread _ Hin).
      * exists evs, status, msg. split; [reflexivity|exact Hst].
Qed.

(** C4: with a static secret configured and presented, the chain lets the
    request through at its first test: it emits no event, so no student
    and no classroom is looked up; the handler goes on to read the body;
    and the final database is the initial one, whatever rows it holds. *)
Theorem static_secret_passes (cfg : config) (req : request_in)
  (upstream : provider_outcome) (d : db) :
  let tok := extractBearerToken (authorization req) in
  SERVER_APP_TOKEN cfg <> [] -> tok = SERVER_APP_TOKEN cfg ->
  authorize hashToken cfg tok (start d) = (Normal StaticApp, start d)
  /\ exists k post,
      handleGenerate hashToken cfg req upstream (start d)
      = (k, {| w_db := d; w_log := EvReadBody :: post |})
      /\ Forall quiet post.
Proof.
  intros tok Hsec Htok.
  pose proof (authorize_static hashToken cfg tok (start d) Hsec Htok) as Hauth.
  split; [exact Hauth|].
  destruct (handle_passed hashToken cfg req upstream _ _ _ Hauth)
    as (k & post & Hrun & Hq).
  exists k, post. split; [exact Hrun|exact Hq].
Qed.

(** C5: a credential that is not the static secret and hashes to an
    existing student.  If the student is inactive the handler answers 403
    after the student lookup alone; if the student is active and the
    classroom is missing or inactive it answers 403 after the classroom
    lookup.  Either way it returns with the database unchanged, whatever
    [requests_used] and [request_limit] are. *)
Theorem revoked_access_forbidden (cfg : config) (req : request_in)
  (upstream : provider_outcome) (w : world) (s : student) :
  let tok := extractBearerToken (authorization req) in
  tok <> [] -> tok <> SERVER_APP_TOKEN cfg ->
  getStudentByToken hashToken (w_db w) tok = Some s ->
  (s_active s = 0 ->
   handleGenerate hashToken cfg req upstream w
   = (Return,
      {| w_db := w_db w;
         w_log := w_log w
                  ++ [EvSelectStudent (hashToken tok);
                      EvRespond 403 (ErrorBody (Text DEACTIVATED))] |}))
  /\ (s_active s <> 0 ->
      getClassroom (w_db w) (s_classroom_id s) = None
      \/ (exists c, getClassroom (w_db w) (s_classroom_id s) = Some c
                    /\ c_active c = 0) ->
      handleGenerate hashToken cfg req upstream w
      = (Return,
         {| w_db := w_db w;
            w_log := w_log w
                     ++ [EvSelectStudent (hashToken tok);
                         EvSelectClassroom (s_classroom_id s);
                         EvRespond 403 (ErrorBody (Text PAUSED))] |})).
Proof.
  intros tok Hne Hmiss Hs.
  pose proof (authorize_student_mode hashToken cfg tok w Hne Hmiss) as Hauth.
  cbv zeta in Hauth. rewrite Hs in Hauth.
  split.
  - intros Hina. apply truthyZ_false in Hina. rewrite Hina in Hauth.
    now apply handle_rejected.
  - intros Hact Hcls. apply truthyZ_true in Hact. rewrite Hact in Hauth.
    cbn [negb] in Hauth.
    destruct Hcls as [Hnone|(c & Hc & Hina)].
    + rewrite Hnone in Hauth. now apply handle_rejected.
    + rewrite Hc in Hauth. apply truthyZ_false in Hina.
      rewrite Hina in Hauth. now apply handle_rejected.
Qed.

(** C10: a header value that does not have the shape of the
    case-insensitive pattern [Bearer <rest>] gives no credential, and the
    handler does with it exactly what it does without the header: with no
    static secret the chain lets the request through in open mode without
    any lookup, with one it answers 401.  With the static secret set to the
    empty string the handler does for every request what it does with the
    variable unset. *)
Theorem malformed_header_is_no_credential (cfg : config) (req : request_in)
  (upstream : provider_outcome) (w : world) (h : jsstring) :
  authorization req = Some h -> ~ BearerShape h ->
  extractBearerToken (authorization req) = []
  /\ handleGenerate hashToken cfg req upstream w
     = handleGenerate hashToken cfg
         {| authorization := None; bodyRead := bodyRead req |} upstream w
  /\ (SERVER_APP_TOKEN cfg = [] ->
      authorize hashToken cfg (extractBearerToken (authorization req)) w
      = (Normal OpenMode, w)
      /\ exists k post,
          handleGenerate hashToken cfg req upstream w
          = (k, {| w_db := w_db w; w_log := w_log w ++ EvReadBody :: post |})
          /\ Forall quiet post)
  /\ (SERVER_APP_TOKEN cfg <> [] ->
      handleGenerate hashToken cfg req upstream w
      = (Return,
         {| w_db := w_db w;
            w_log := w_log w
                     ++ [EvRespond 401 (ErrorBody (Text UNAUTHORIZED))] |}))
  /\ (env_SERVER_APP_TOKEN cfg = Some [] ->
      SERVER_APP_TOKEN cfg = []
      /\ forall req' upstream' w',
          handleGenerate hashToken cfg req' upstream' w'
          = handleGenerate hashToken
              {| env_SERVER_APP_TOKEN := None; PROVIDER := PROVIDER cfg;
                 apiKey := apiKey cfg;
                 REQUEST_TIMEOUT_MS := REQUEST_TIMEOUT_MS cfg |}
              req' upstream' w').
Proof.
  intros Hh Hshape.
  assert (Htok : extractBearerToken (authorization req) = [])
    by (rewrite Hh; now apply extractBearerToken_no_shape).
  pose proof (authorize_no_credential hashToken cfg w) as Hauth.
  rewrite <- Htok in Hauth.
  split; [exact Htok|]. split.
  { unfold handleGenerate. rewrite Htok. reflexivity. }
  split; [|split].
  - intros Hsec. rewrite Hsec in Hauth. cbn [truthy] in Hauth.
    split; [exact Hauth|].
    destruct (handle_passed hashToken cfg req upstream _ _ _ Hauth)
      as (k & post & Hrun & Hq).
    exists k, post. split; [exact Hrun|exact Hq].
  - intros Hsec. apply truthy_true in Hsec. rewrite Hsec in Hauth.
    now apply handle_rejected.
  - intros Henv. split; [unfold SERVER_APP_TOKEN; now rewrite Henv|].
    intros req' upstream' w'.
    unfold handleGenerate, authorize, SERVER_APP_TOKEN.
    rewrite Henv. reflexivity.
Qed.

End AdmissionModes.

(** No credential under a configured secret is answered 401, and an
    unknown credential without any secret configured is turned away too. *)
Lemma open_mode_rule_witness :
  handleGenerate sampleHash secretConfig (requestWith None) (ProviderText [])
    (start sampleDb)
  = (Return,
     {| w_db := sampleDb;
        w_log := [EvRespond 401 (ErrorBody (Text UNAUTHORIZED))] |})
  /\ fst (handleGenerate sampleHash openConfig (requestWith (bearer "nope"))
            (ProviderText []) (start sampleDb))
     = Return.
Proof.
  split.
  - refine (proj2 (proj2 (proj1 (open_mode_rule sampleHash secretConfig
                     (requestWith None) (ProviderText []) sampleDb) _)) _);
      [reflexivity|discriminate].
  - refine (proj1 (proj2 (proj2 (open_mode_rule sampleHash openConfig
                     (requestWith (bearer "nope")) (ProviderText [])
                     sampleDb) _) _ _));
      try discriminate.
    intros (s & c & Hs & _). discriminate Hs.
Defined.

(** The secret also is the token of student s6, who is deactivated and at
    the quota: the request is admitted all the same and no row changes. *)
Lemma static_secret_passes_witness :
  authorize sampleHash secretConfig (js "app-secret") (start sampleDb)
  = (Normal StaticApp, start sampleDb)
  /\ exists k post,
      handleGenerate sampleHash secretConfig
        (requestWith (bearer "app-secret")) (ProviderText []) (start sampleDb)
      = (k, {| w_db := sampleDb; w_log := EvReadBody :: post |})
      /\ Forall quiet post.
Proof.
  apply (static_secret_passes sampleHash secretConfig
           (requestWith (bearer "app-secret")) (ProviderText []) sampleDb);
    [discriminate|reflexivity].
Defined.

(** Student s3 is deactivated; student s4 has quota left in the paused
    classroom c2. *)
Lemma revoked_access_forbidden_witness :
  handleGenerate sampleHash openConfig (requestWith (bearer "tok-three"))
    (ProviderText []) (start sampleDb)
  = (Return,
     {| w_db := sampleDb;
        w_log := [EvSelectStudent (sampleHash (js "tok-three"));
                  EvRespond 403 (ErrorBody (Text DEACTIVATED))] |})
  /\ handleGenerate sampleHash openConfig (requestWith (bearer "tok-four"))
       (ProviderText []) (start sampleDb)
     = (Return,
        {| w_db := sampleDb;
           w_log := [EvSelectStudent (sampleHash (js "tok-four"));
                     EvSelectClassroom (js "c2");
                     EvRespond 403 (ErrorBody (Text PAUSED))] |}).
Proof.
  split.
  - refine (proj1 (revoked_access_forbidden sampleHash openConfig
                     (requestWith (bearer "tok-three")) (ProviderText [])
                     (start sampleDb) (mkStudent "s3" "c1" "tok-three" 0 0)
                     _ _ _) _);
      try reflexivity; discriminate.
  - refine (proj2 (revoked_access_forbidden sampleHash openConfig
                     (requestWith (bearer "tok-four")) (ProviderText [])
                     (start sampleDb) (mkStudent "s4" "c2" "tok-four" 0 1)
                     _ _ _) _ _);
      try reflexivity; try discriminate.
    right. exists (mkClassroom "c2" 3 0). split; reflexivity.
Defined.

(** A [Basic] header under a configured secret is answered 401 without
    any lookup. *)
Lemma malformed_header_is_no_credential_witness :
  handleGenerate sampleHash secretConfig
    (requestWith (Some (js "Basic dG9rLW9uZQ=="))) (ProviderText [])
    (start sampleDb)
  = (Return,
     {| w_db := sampleDb;
        w_log := [EvRespond 401 (ErrorBody (Text UNAUTHORIZED))] |}).
Proof.
  refine (proj1 (proj2 (proj2 (proj2
            (malformed_header_is_no_credential sampleHash secretConfig
               (requestWith (Some (js "Basic dG9rLW9uZQ==")))
               (ProviderText []) (start sampleDb) (js "Basic dG9rLW9uZQ==")
               eq_refl _)))) _).
  - intros Hshape. apply bearerMatch_shape in Hshape. apply Hshape.
    reflexivity.
  - discriminate.
Defined.

(* ================================================================== *)
(** ** Deactivating a student *)
(* ================================================================== *)

Section Deactivate.

Local Open Scope Z_scope.

Lemma changes_positive (cond : student -> bool) (rows : list student) :
  (Z.of_nat (List.length (filter cond rows)) >? 0) = existsb cond rows.
Proof.
  induction rows as [|r rows IH]; [reflexivity|].
  simpl. destruct (cond r); [|exact IH].
  simpl orb. cbn [List.length]. apply Z.gtb_lt. lia.
Qed.

(** C6, as the code has it: [deactivateStudent] returns true exactly when
    the table holds a row of that student in that classroom, active or
    not; afterwards no such row is active, the rows of other students are
    as before, and so are the classrooms. *)
Theorem deactivateStudent_result (d : db) (studentId classroomId : jsstring) :
  snd (deactivateStudent d studentId classroomId)
  = hasRow d studentId classroomId
  /\ hasActiveRow (fst (deactivateStudent d studentId classroomId))
       studentId classroomId = false
  /\ students (fst (deactivateStudent d studentId classroomId))
     = map (fun s => if rowOf studentId classroomId s
                     then set_active 0 s else s) (students d)
  /\ classrooms (fst (deactivateStudent d studentId classroomId))
     = classrooms d.
Proof.
  unfold deactivateStudent, updateStudents, hasRow, hasActiveRow.
  cbn [fst snd students classrooms].
  split; [apply changes_positive|].
  split; [|split; reflexivity].
  fold (rowOf studentId classroomId).
  induction (students d) as [|r rows IH]; [reflexivity|].
  cbn [map existsb]. rewrite IH, orb_false_r.
  destruct (rowOf studentId classroomId r) eqn:E.
  - unfold rowOf in *. rewrite E. unfold set_active.
    cbn [s_id s_classroom_id s_active]. rewrite E. reflexivity.
  - unfold rowOf in *. rewrite !E. reflexivity.
Qed.

End Deactivate.

(** C6, as stated, fails: student s3 is already inactive, so classroom c1
    holds no active row of s3, and yet the call returns true. *)
Lemma deactivateStudent_inactive_row_true :
  hasActiveRow sampleDb (js "s3") (js "c1") = false
  /\ snd (deactivateStudent sampleDb (js "s3") (js "c1")) = true.
Proof. split; reflexivity. Qed.

(* ================================================================== *)
(** ** More on the response normalizer *)
(* ================================================================== *)

Section NormalizerInvariants.

Local Open Scope N_scope.

Lemma forallb_replaceClass (p f : char -> bool) (rep s : jsstring) :
  (forall c, In c s -> f c = false -> p c = true) ->
  forallb p rep = true ->
  forallb p (replaceClass f rep s) = true.
Proof.
  intros Hs Hrep. unfold replaceClass.
  induction s as [|c s IH]; [reflexivity|].
  cbn [flat_map]. rewrite forallb_app. apply andb_true_iff. split.
  - destruct (f c) eqn:E; [exact Hrep|].
    simpl. rewrite (Hs c (or_introl eq_refl) E). reflexivity.
  - apply IH. intros c' Hin. apply Hs. now right.
Qed.

Lemma forallb_replaceClass_keep (p f : char -> bool) (rep s : jsstring) :
  forallb p s = true -> forallb p rep = true ->
  forallb p (replaceClass f rep s) = true.
Proof.
  intros Hs Hrep. apply forallb_replaceClass; [|exact Hrep].
  intros c Hin _. rewrite forallb_forall in Hs. now apply Hs.
Qed.

Lemma forallb_replaceClass_clear (f : char -> bool) (rep s : jsstring) :
  forallb (fun c => negb (f c)) rep = true ->
  forallb (fun c => negb (f c)) (replaceClass f rep s) = true.
Proof.
  intros Hrep. apply forallb_replaceClass; [|exact Hrep].
  intros c _ Hc. now rewrite Hc.
Qed.

Lemma forallb_dropWhile (p f : char -> bool) (s : jsstring) :
  forallb p s = true -> forallb p (dropWhile f s) = true.
Proof.
  induction s as [|c s IH]; [reflexivity|].
  intros H. cbn [dropWhile]. destruct (f c); [|exact H].
  simpl in H. apply andb_true_iff in H as [_ H]. now apply IH.
Qed.

Lemma forallb_dropWhileEnd (p f : char -> bool) (s : jsstring) :
  forallb p s = true -> forallb p (dropWhileEnd f s) = true.
Proof.
  induction s as [|c s IH]; [reflexivity|].
  intros H. cbn [dropWhileEnd]. destruct (forallb f (c :: s)); [reflexivity|].
  simpl in H. apply andb_true_iff in H as [Hc H].
  simpl. now rewrite Hc, IH.
Qed.

Lemma forallb_trim (p : char -> bool) (s : jsstring) :
  forallb p s = true -> forallb p (trim s) = true.
Proof.
  intros H. unfold trim. now apply forallb_dropWhileEnd, forallb_dropWhile.
Qed.

Lemma forallb_skipn (p : char -> bool) (n : nat) (s : jsstring) :
  forallb p s = true -> forallb p (skipn n s) = true.
Proof.
  revert s; induction n as [|n IH]; intros s H; [exact H|].
  destruct s as [|c s]; [reflexivity|].
  simpl in H. apply andb_true_iff in H as [_ H]. now apply IH.
Qed.

Lemma firstIs_dropWhile (f : char -> bool) (s : jsstring) :
  firstIs f (dropWhile f s) = false.
Proof.
  induction s as [|c s IH]; [reflexivity|].
  cbn [dropWhile]. destruct (f c) eqn:E; [exact IH|]. exact E.
Qed.

Lemma firstIs_dropWhileEnd (f : char -> bool) (s : jsstring) :
  firstIs f s = false -> firstIs f (dropWhileEnd f s) = false.
Proof.
  destruct s as [|c s]; [reflexivity|].
  intros H. cbn [dropWhileEnd].
  destruct (forallb f (c :: s)); [reflexivity|exact H].
Qed.

Lemma lastIs_dropWhileEnd (f : char -> bool) (s : jsstring) :
  lastIs f (dropWhileEnd f s) = false.
Proof.
  induction s as [|c s IH]; [reflexivity|].
  cbn [dropWhileEnd]. destruct (forallb f (c :: s)) eqn:E; [reflexivity|].
  destruct (dropWhileEnd f s) as [|c' t] eqn:D.
  - (* the rest is a run of [f]: then [c] itself is not in it *)
    simpl. destruct (f c) eqn:Fc; [|reflexivity].
    exfalso. simpl in E. rewrite Fc in E. simpl in E.
    clear IH Fc. revert D E. clear. induction s as [|x s IH]; [discriminate|].
    cbn [dropWhileEnd]. destruct (forallb f (x :: s)); [discriminate|].
    discriminate.
  - exact IH.
Qed.

Lemma trim_is_trimmed (s : jsstring) :
  firstIs isWhiteSpace (trim s) = false
  /\ lastIs isWhiteSpace (trim s) = false.
Proof.
  unfold trim. split.
  - apply firstIs_dropWhileEnd, firstIs_dropWhile.
  - apply lastIs_dropWhileEnd.
Qed.

Lemma sanitizeMakeCode_clean (s : jsstring) :
  forallb (fun c => negb (unwanted c)) (sanitizeMakeCode s) = true.
Proof.
  unfold sanitizeMakeCode.
  destruct (negb (truthy s)); [reflexivity|]. cbv zeta.
  set (t := unescapeLiterals _).
  apply forallb_trim. unfold stripBackticks.
  apply forallb_dropWhileEnd, forallb_dropWhile.
  assert (Hcr : forallb (fun c => negb (N.eqb CR c)) (normalizeNewlines t)
                = true)
    by (unfold normalizeNewlines; now apply forallb_replaceClass_clear).
  assert (Hq1 : forallb (fun c => negb (isCurlySingle c))
                  (replaceClass isCurlySingle [QUOTE] (normalizeNewlines t))
                = true)
    by now apply forallb_replaceClass_clear.
  assert (Hq2 : forallb (fun c => negb (isCurlyDouble c))
                  (straightenQuotes (normalizeNewlines t)) = true)
    by (unfold straightenQuotes; now apply forallb_replaceClass_clear).
  assert (Hz : forallb (fun c => negb (isZeroWidth c))
                 (replaceClass isZeroWidth []
                    (straightenQuotes (normalizeNewlines t))) = true)
    by now apply forallb_replaceClass_clear.
  assert (Hn : forallb (fun c => negb (isNbsp c))
                 (stripInvisible (straightenQuotes (normalizeNewlines t)))
               = true)
    by (unfold stripInvisible; now apply forallb_replaceClass_clear).
  assert (Hcr' : forallb (fun c => negb (N.eqb CR c))
                   (stripInvisible (straightenQuotes (normalizeNewlines t)))
                 = true).
  { unfold stripInvisible, straightenQuotes.
    do 4 (apply forallb_replaceClass_keep; [|reflexivity]). exact Hcr. }
  assert (Hq1' : forallb (fun c => negb (isCurlySingle c))
                   (stripInvisible (straightenQuotes (normalizeNewlines t)))
                 = true).
  { unfold stripInvisible, straightenQuotes.
    do 3 (apply forallb_replaceClass_keep; [|reflexivity]). exact Hq1. }
  assert (Hq2' : forallb (fun c => negb (isCurlyDouble c))
                   (stripInvisible (straightenQuotes (normalizeNewlines t)))
                 = true).
  { unfold stripInvisible.
    do 2 (apply forallb_replaceClass_keep; [|reflexivity]). exact Hq2. }
  assert (Hz' : forallb (fun c => negb (isZeroWidth c))
                  (stripInvisible (straightenQuotes (normalizeNewlines t)))
                = true).
  { unfold stripInvisible.
    apply forallb_replaceClass_keep; [|reflexivity]. exact Hz. }
  apply forallb_forall. intros c Hin.
  rewrite forallb_forall in Hcr', Hq1', Hq2', Hz', Hn.
  specialize (Hcr' c Hin). specialize (Hq1' c Hin). specialize (Hq2' c Hin).
  specialize (Hz' c Hin). specialize (Hn c Hin).
  unfold unwanted. rewrite (N.eqb_sym c CR).
  apply negb_true_iff in Hcr', Hq1', Hq2', Hz', Hn.
  now rewrite Hcr', Hq1', Hq2', Hz', Hn.
Qed.

Lemma sanitizeMakeCode_trimmed (s : jsstring) :
  firstIs isWhiteSpace (sanitizeMakeCode s) = false
  /\ lastIs isWhiteSpace (sanitizeMakeCode s) = false.
Proof.
  unfold sanitizeMakeCode.
  destruct (negb (truthy s)); [split; reflexivity|]. apply trim_is_trimmed.
Qed.

(** X1: whatever the upstream text is, the code of the result holds no
    carriage return, no curly quote, no zero-width character or byte-order
    mark and no non-breaking space, and no white space at either end. *)
Theorem result_code_is_clean (target raw : jsstring) :
  let out := code (normalizeResponse target raw) in
  forallb (fun c => negb (unwanted c)) out = true
  /\ firstIs isWhiteSpace out = false
  /\ lastIs isWhiteSpace out = false.
Proof.
  cbv zeta. unfold normalizeResponse.
  destruct (negb (truthy (extractCode (body (separateFeedback raw))))).
  - cbn [code].
    destruct (stubForTarget_cases target) as [<-|[<-|[<-|[]]]];
      repeat split; reflexivity.
  - cbn [code]. unfold extractCode.
    destruct (negb (truthy (body (separateFeedback raw))));
      [repeat split; reflexivity|].
    cbv zeta. split; [apply sanitizeMakeCode_clean|].
    apply sanitizeMakeCode_trimmed.
Qed.

End NormalizerInvariants.

Section FeedbackFacts.

Local Open Scope N_scope.

Lemma splitLines_nonempty (s : jsstring) : splitLines s <> [].
Proof.
  destruct s as [|c s]; [discriminate|].
  cbn [splitLines]. destruct (c =? LF); [discriminate|].
  destruct (splitLines s); discriminate.
Qed.

(** Joining the lines of a text gives the text back. *)
Lemma joinLines_splitLines (s : jsstring) : joinLines (splitLines s) = s.
Proof.
  induction s as [|c s IH]; [reflexivity|].
  cbn [splitLines]. destruct (c =? LF) eqn:E.
  - apply N.eqb_eq in E. subst c.
    destruct (splitLines s) as [|l ls] eqn:D;
      [now apply splitLines_nonempty in D|].
    cbn [joinLines app]. cbn [joinLines] in IH. now rewrite IH.
  - destruct (splitLines s) as [|l ls] eqn:D;
      [now apply splitLines_nonempty in D|].
    destruct ls as [|l' ls]; cbn [joinLines app] in *; now rewrite IH.
Qed.

Lemma splitLines_forallb (p : char -> bool) (s : jsstring) :
  forallb p s = true ->
  Forall (fun l => forallb p l = true) (splitLines s).
Proof.
  induction s as [|c s IH]; intros H; [repeat constructor|].
  simpl in H. apply andb_true_iff in H as [Hc Hs].
  specialize (IH Hs). cbn [splitLines].
  destruct (c =? LF); [constructor; [reflexivity|exact IH]|].
  destruct (splitLines s) as [|l ls]; [repeat constructor; simpl; now rewrite Hc|].
  inversion IH; subst. constructor; [simpl; now rewrite Hc|assumption].
Qed.

Lemma splitLines_no_LF (s : jsstring) :
  Forall (fun l => forallb (fun c => negb (c =? LF)) l = true) (splitLines s).
Proof.
  induction s as [|c s IH]; [repeat constructor|].
  cbn [splitLines]. destruct (c =? LF) eqn:E;
    [constructor; [reflexivity|exact IH]|].
  destruct (splitLines s) as [|l ls];
    [repeat constructor; simpl; now rewrite E|].
  inversion IH; subst. constructor; [simpl; now rewrite E|assumption].
Qed.

Lemma normalizeNewlines_no_CR (s : jsstring) :
  forallb (fun c => negb (c =? CR)) (normalizeNewlines s) = true.
Proof.
  unfold normalizeNewlines.
  apply forallb_replaceClass; [|reflexivity].
  intros c _ Hc. now rewrite N.eqb_sym, Hc.
Qed.

Lemma classifyLines_entries (p : char -> bool) (lines : list jsstring) :
  Forall (fun l => forallb p l = true) lines ->
  Forall (fun e => forallb p e = true
                   /\ firstIs isWhiteSpace e = false
                   /\ lastIs isWhiteSpace e = false)
    (fst (classifyLines lines)).
Proof.
  induction 1 as [|line rest Hline _ IH]; [constructor|].
  cbn [classifyLines]. destruct (classifyLines rest) as [fb bodyLines].
  cbn [fst] in IH.
  destruct (startsWith_i FEEDBACK_PREFIX (trim line)); cbn [fst];
    [|exact IH].
  constructor; [|exact IH]. split.
  - now apply forallb_trim, forallb_dropWhile, forallb_skipn, forallb_trim.
  - apply trim_is_trimmed.
Qed.

Lemma classifyLines_none (lines : list jsstring) :
  noFeedbackLine lines = true -> classifyLines lines = ([], lines).
Proof.
  unfold noFeedbackLine.
  induction lines as [|line rest IH]; [reflexivity|].
  cbn [forallb]. intros H. apply andb_true_iff in H as [Hl Hr].
  cbn [classifyLines]. rewrite (IH Hr).
  apply negb_true_iff in Hl. now rewrite Hl.
Qed.

Lemma classifyLines_blank_body (lines : list jsstring) :
  forallb feedbackOrBlank lines = true ->
  Forall (fun l => forallb isWhiteSpace l = true) (snd (classifyLines lines)).
Proof.
  induction lines as [|line rest IH]; [constructor|].
  cbn [forallb]. intros H. apply andb_true_iff in H as [Hl Hr].
  specialize (IH Hr). cbn [classifyLines].
  destruct (classifyLines rest) as [fb bodyLines]. cbn [snd] in IH.
  unfold feedbackOrBlank in Hl.
  destruct (startsWith_i FEEDBACK_PREFIX (trim line)); cbn [snd];
    [exact IH|].
  constructor; [exact Hl|exact IH].
Qed.

Lemma joinLines_blank (ls : list jsstring) :
  Forall (fun l => forallb isWhiteSpace l = true) ls ->
  forallb isWhiteSpace (joinLines ls) = true.
Proof.
  induction 1 as [|l ls Hl _ IH]; [reflexivity|].
  destruct ls as [|l' ls]; [exact Hl|].
  cbn [joinLines]. rewrite forallb_app, Hl. exact IH.
Qed.

Lemma dropWhile_all (f : char -> bool) (s : jsstring) :
  forallb f s = true -> dropWhile f s = [].
Proof.
  induction s as [|c s IH]; [reflexivity|].
  simpl. intros H. apply andb_true_iff in H as [Hc Hs]. now rewrite Hc, IH.
Qed.

Lemma trim_blank (s : jsstring) :
  forallb isWhiteSpace s = true -> trim s = [].
Proof.
  intros H. unfold trim. now rewrite dropWhile_all.
Qed.

(** X2: every note of a result (the feedback entries and the fallback note) is
    one line, with no line feed or carriage return in it, and has no white
    space at either end. *)
Theorem notes_are_trimmed_lines (target raw : jsstring) :
  Forall (fun e => forallb (fun c => negb (c =? LF) && negb (c =? CR)) e = true
                   /\ firstIs isWhiteSpace e = false
                   /\ lastIs isWhiteSpace e = false)
    (notes (normalizeResponse target raw)).
Proof.
  assert (Hfb : Forall
            (fun e => forallb (fun c => negb (c =? LF) && negb (c =? CR)) e
                      = true
                      /\ firstIs isWhiteSpace e = false
                      /\ lastIs isWhiteSpace e = false)
            (feedback (separateFeedback raw))).
  { unfold separateFeedback.
    destruct (negb (truthy raw)); [constructor|].
    pose proof (classifyLines_entries
                  (fun c => negb (c =? LF) && negb (c =? CR))
                  (splitLines (normalizeNewlines raw))) as H.
    destruct (classifyLines (splitLines (normalizeNewlines raw)))
      as [fb bodyLines].
    cbn [feedback fst] in *. apply H.
    pose proof (splitLines_no_LF (normalizeNewlines raw)) as HLF.
    pose proof (splitLines_forallb _ _ (normalizeNewlines_no_CR raw)) as HCR.
    rewrite Forall_forall in *. intros l Hl.
    specialize (HLF l Hl). specialize (HCR l Hl).
    rewrite forallb_forall in *. intros c Hc.
    now rewrite (HLF c Hc), (HCR c Hc). }
  unfold normalizeResponse.
  destruct (negb (truthy (extractCode (body (separateFeedback raw)))));
    cbn [notes]; [|exact Hfb].
  apply Forall_app. split; [exact Hfb|].
  constructor; [|constructor]. repeat split; reflexivity.
Qed.

(** X3: upstream text without a feedback line goes through the separation
    with its line ends normalised and the surrounding white space
    trimmed: no feedback is reported and nothing else of the text is
    lost. *)
Theorem separateFeedback_without_feedback (raw : jsstring) :
  noFeedbackLine (splitLines (normalizeNewlines raw)) = true ->
  separateFeedback raw
  = {| feedback := []; body := trim (normalizeNewlines raw) |}.
Proof.
  intros H. unfold separateFeedback.
  destruct raw as [|c raw]; [reflexivity|].
  cbn [truthy negb]. rewrite (classifyLines_none _ H).
  now rewrite joinLines_splitLines.
Qed.

(** X4: upstream text made of feedback lines and blank lines only gives the
    stub of the target, and the feedback it carried is kept in front of
    the fallback note. *)
Theorem feedback_only_text_falls_back (target raw : jsstring) :
  forallb feedbackOrBlank (splitLines (normalizeNewlines raw)) = true ->
  body (separateFeedback raw) = []
  /\ normalizeResponse target raw
     = {| code := stubForTarget target;
          notes := feedback (separateFeedback raw) ++ [FALLBACK_NOTE] |}.
Proof.
  intros H.
  assert (Hb : body (separateFeedback raw) = []).
  { unfold separateFeedback.
    destruct (negb (truthy raw)); [reflexivity|].
    pose proof (classifyLines_blank_body _ H) as Hblank.
    destruct (classifyLines (splitLines (normalizeNewlines raw)))
      as [fb bodyLines].
    cbn [body snd] in *. now apply trim_blank, joinLines_blank. }
  split; [exact Hb|].
  unfold normalizeResponse. rewrite Hb. reflexivity.
Qed.

Lemma fencedBlock_skip_prefix (prefix rest : jsstring) :
  forallb (fun c => negb (isBacktick c)) prefix = true ->
  fencedBlock (prefix ++ rest) = fencedBlock rest.
Proof.
  induction prefix as [|c prefix IH]; [reflexivity|].
  cbn [forallb]. intros H. apply andb_true_iff in H as [Hc Hp].
  cbn [app fencedBlock]. unfold fencedBlockAt at 1.
  assert (E : startsWith fence (c :: prefix ++ rest) = false).
  { unfold fence. cbn [startsWith]. unfold isBacktick in Hc.
    apply negb_true_iff in Hc. rewrite N.eqb_sym in Hc. now rewrite Hc. }
  rewrite E. now apply IH.
Qed.

Lemma untilFence_inner (inner rest : jsstring) :
  forallb (fun c => negb (isBacktick c)) inner = true ->
  untilFence (inner ++ fence ++ rest) = Some inner.
Proof.
  induction inner as [|c inner IH].
  - intros _. reflexivity.
  - cbn [forallb]. intros H. apply andb_true_iff in H as [Hc Hi].
    cbn [app untilFence].
    assert (E : startsWith fence (c :: inner ++ fence ++ rest) = false).
    { unfold fence at 1. cbn [startsWith]. unfold isBacktick in Hc.
      apply negb_true_iff in Hc. rewrite N.eqb_sym in Hc. now rewrite Hc. }
    rewrite E, (IH Hi). reflexivity.
Qed.

Lemma dropWhile_letters (tag rest : jsstring) :
  forallb isAsciiLetter tag = true ->
  dropWhile isAsciiLetter (tag ++ LF :: rest) = LF :: rest.
Proof.
  induction tag as [|c tag IH]; [reflexivity|].
  cbn [forallb]. intros H. apply andb_true_iff in H as [Hc Ht].
  cbn [app dropWhile]. rewrite Hc. now apply IH.
Qed.

(** X5: when the text holds a fenced block, with an optional language tag of
    letters, extraction works on the inside of the block alone: the prose
    before the fence and everything after the closing fence is dropped.
    (No backtick occurs in the prose before the block or inside it.) *)
Theorem extractCode_uses_fenced_block (before tag inner after : jsstring) :
  forallb (fun c => negb (isBacktick c)) before = true ->
  forallb isAsciiLetter tag = true ->
  forallb (fun c => negb (isBacktick c)) inner = true ->
  extractCode (before ++ fence ++ tag ++ [LF] ++ inner ++ fence ++ after)
  = sanitizeMakeCode inner.
Proof.
  intros Hb Ht Hi. unfold extractCode.
  assert (Hm : fencedBlock
                 (before ++ fence ++ tag ++ [LF] ++ inner ++ fence ++ after)
               = Some inner).
  { rewrite (fencedBlock_skip_prefix _ _ Hb).
    assert (Hat : fencedBlockAt
                    (fence ++ tag ++ [LF] ++ inner ++ fence ++ after)
                  = Some inner).
    { unfold fencedBlockAt. rewrite startsWith_app.
      change (skipn 3 (fence ++ tag ++ [LF] ++ inner ++ fence ++ after))
        with (tag ++ LF :: inner ++ fence ++ after).
      rewrite (dropWhile_letters _ _ Ht), N.eqb_refl.
      now apply untilFence_inner. }
    destruct (fence ++ tag ++ [LF] ++ inner ++ fence ++ after) eqn:D;
      cbn [fencedBlock]; now rewrite Hat. }
  rewrite Hm.
  destruct (before ++ fence ++ tag ++ [LF] ++ inner ++ fence ++ after) eqn:D;
    [|reflexivity].
  apply (f_equal (@List.length char)) in D. rewrite !length_app in D.
  simpl in D. lia.
Qed.

End FeedbackFacts.

(** A two-line program without feedback, with Windows line ends. *)
Lemma separateFeedback_without_feedback_witness :
  separateFeedback (js "  a()" ++ [CR; LF] ++ js "b()" ++ [CR; LF])
  = {| feedback := []; body := js "a()" ++ [LF] ++ js "b()" |}.
Proof.
  exact (separateFeedback_without_feedback
           (js "  a()" ++ [CR; LF] ++ js "b()" ++ [CR; LF]) eq_refl).
Defined.

(** Two feedback lines around a blank line, for the maker target. *)
Lemma feedback_only_text_falls_back_witness :
  normalizeResponse (js "maker")
    (js "FEEDBACK: cannot do that" ++ [LF] ++ js "  " ++ [LF]
     ++ js "feedback: try a loop")
  = {| code := STUB_MAKER;
       notes := [js "cannot do that"; js "try a loop"; FALLBACK_NOTE] |}.
Proof.
  exact (proj2 (feedback_only_text_falls_back (js "maker")
                  (js "FEEDBACK: cannot do that" ++ [LF] ++ js "  " ++ [LF]
                   ++ js "feedback: try a loop") eq_refl)).
Defined.

(** Prose, a block tagged [ts], and a closing remark. *)
Lemma extractCode_uses_fenced_block_witness :
  extractCode (js "Here you go:" ++ [LF] ++ fence ++ js "ts" ++ [LF]
               ++ js "basic.clearScreen()" ++ [LF] ++ fence
               ++ js " Enjoy!")
  = js "basic.clearScreen()".
Proof.
  exact (extractCode_uses_fenced_block
           (js "Here you go:" ++ [LF]) (js "ts")
           (js "basic.clearScreen()" ++ [LF]) (js " Enjoy!")
           eq_refl eq_refl eq_refl).
Defined.

(* ================================================================== *)
(** ** More on the generate handler *)
(* ================================================================== *)

Section HandlerCases.

Local Open Scope Z_scope.

Variable hashToken : jsstring -> jsstring.

(** Every way the authorization chain can end. *)
Lemma authorize_outcome (cfg : config) (tok : jsstring) (d : db) :
  authorize hashToken cfg tok (start d) = (Normal StaticApp, start d)
  \/ authorize hashToken cfg tok (start d) = (Normal OpenMode, start d)
  \/ (exists s c,
        getStudentByToken hashToken d tok = Some s
        /\ getClassroom d (s_classroom_id s) = Some c
        /\ s_requests_used s < c_request_limit c
        /\ authorize hashToken cfg tok (start d)
           = (Normal (Student (s_id s)),
              {| w_db := incrementStudentUsage d (s_id s);
                 w_log := [EvSelectStudent (hashToken tok);
                           EvSelectClassroom (s_classroom_id s);
                           EvUpdateUsage (s_id s)] |}))
  \/ (exists evs status msg,
        authorize hashToken cfg tok (start d)
        = (Return,
           {| w_db := d;
              w_log := evs ++ [EvRespond status (ErrorBody msg)] |})
        /\ forallb (fun e => negb (isRespond e) && negb (isFetch e)) evs = true
        /\ In status [401; 403; 429]).
Proof.
  destruct (truthy (SERVER_APP_TOKEN cfg)
            && streq tok (SERVER_APP_TOKEN cfg)) eqn:Estatic.
  { left. unfold authorize. now rewrite Estatic. }
  right.
  destruct tok as [|t0 tok'] eqn:Etok.
  { rewrite (authorize_no_credential hashToken cfg (start d)).
    destruct (truthy (SERVER_APP_TOKEN cfg)); [|now left].
    right; right. exists [], 401, (Text UNAUTHORIZED).
    repeat split; simpl; auto. }
  rewrite <- Etok in *.
  assert (Hne : tok <> []) by (rewrite Etok; discriminate).
  assert (Hmiss : tok <> SERVER_APP_TOKEN cfg).
  { intros E. rewrite <- E in Estatic.
    rewrite streq_refl, andb_true_r in Estatic.
    apply truthy_false in Estatic. contradiction. }
  right.
  rewrite (authorize_student_mode hashToken cfg tok (start d) Hne Hmiss).
  cbv zeta. cbn [start w_db w_log].
  destruct (getStudentByToken hashToken d tok) as [s|] eqn:Hs.
  2:{ right. exists [EvSelectStudent (hashToken tok)], 401, (Text UNAUTHORIZED).
      repeat split; simpl; auto. }
  destruct (negb (truthyZ (s_active s))).
  { right. exists [EvSelectStudent (hashToken tok)], 403, (Text DEACTIVATED).
    repeat split; simpl; auto. }
  destruct (getClassroom d (s_classroom_id s)) as [c|] eqn:Hc.
  2:{ right. exists [EvSelectStudent (hashToken tok);
                     EvSelectClassroom (s_classroom_id s)], 403, (Text PAUSED).
      repeat split; simpl; auto. }
  destruct (negb (truthyZ (c_active c))).
  { right. exists [EvSelectStudent (hashToken tok);
                   EvSelectClassroom (s_classroom_id s)], 403, (Text PAUSED).
    repeat split; simpl; auto. }
  destruct (s_requests_used s >=? c_request_limit c) eqn:Hq.
  { right. exists [EvSelectStudent (hashToken tok);
                   EvSelectClassroom (s_classroom_id s)], 429,
      (LimitReached (c_request_limit c)).
    repeat split; simpl; auto. }
  left. exists s, c. repeat split; auto.
  destruct (Z.ltb_spec (s_requests_used s) (c_request_limit c)) as [L|L];
    [exact L|]. apply Z.geb_le in L. congruence.
Qed.

(** The handler after an admission, with its monadic steps run. *)
Lemma handle_passed_exact (cfg : config) (req : request_in)
  (upstream : provider_outcome) (w w' : world) (p : principal) :
  authorize hashToken cfg (extractBearerToken (authorization req)) w
  = (Normal p, w') ->
  handleGenerate hashToken cfg req upstream w =
  let finish k evs :=
    (k, {| w_db := w_db w'; w_log := w_log w' ++ EvReadBody :: evs |}) in
  let fail e := finish (Normal tt)
                  [EvRespond 500 (ErrorBody (errorMessage cfg e))] in
  match bodyRead req with
  | BodyRejected e => fail e
  | BodyParsed pl =>
      match validatePayload pl with
      | inl err => finish Return [EvRespond 400 (ErrorBody err)]
      | inr v =>
          if negb (truthy (apiKey cfg))
          then fail (Error (Some (MissingApiKey (PROVIDER cfg))))
          else if isKnownProvider (PROVIDER cfg)
          then
            let called k r :=
              finish k [EvFetch (PROVIDER cfg); EvRespond (fst r) (snd r)] in
            match upstream with
            | ProviderText raw =>
                called (Normal tt)
                  (200, ResultBody (normalizeResponse (v_target v) raw))
            | ProviderStatus status =>
                called (Normal tt)
                  (500, ErrorBody (ProviderError (PROVIDER cfg) status))
            | ProviderAborted =>
                called (Normal tt)
                  (500, ErrorBody (TimedOut (REQUEST_TIMEOUT_MS cfg)))
            | ProviderFailed e =>
                called (Normal tt) (500, ErrorBody (errorMessage cfg e))
            end
          else fail (Error (Some (UnsupportedProvider (PROVIDER cfg))))
      end
  end.
Proof.
  intros H. unfold handleGenerate, tryCatch, bind. rewrite H.
  unfold generateManaged, callProvider, readJson, bind, respondJson, emit,
    return_, ret, throw.
  cbn [w_db w_log fst snd]. cbv zeta.
  destruct (bodyRead req) as [pl|e];
    [|cbn [w_db w_log fst snd]; rewrite <- ?app_assoc; reflexivity].
  destruct (validatePayload pl) as [err|v];
    [cbn [w_db w_log fst snd]; rewrite <- ?app_assoc; reflexivity|].
  destruct (negb (truthy (apiKey cfg)));
    [cbn [w_db w_log fst snd]; rewrite <- ?app_assoc; reflexivity|].
  destruct (isKnownProvider (PROVIDER cfg));
    [|cbn [w_db w_log fst snd]; rewrite <- ?app_assoc; reflexivity].
  destruct upstream; cbn [w_db w_log fst snd errorMessage];
    rewrite <- ?app_assoc; reflexivity.
Qed.

End HandlerCases.

Section HandlerInvariants.

Local Open Scope Z_scope.

Variable hashToken : jsstring -> jsstring.

Ltac tail_cases cfg req upstream :=
  cbv zeta;
  destruct (bodyRead req) as [?pl|?e] eqn:?Hbody;
  [ destruct (validatePayload pl) as [?err|?v] eqn:?Hval;
    [ | destruct (negb (truthy (apiKey cfg))) eqn:?Hkey;
        [ | destruct (isKnownProvider (PROVIDER cfg)) eqn:?Hprov;
            [ destruct upstream eqn:?Hup | ] ] ]
  | ];
  cbn [fst snd w_db w_log start app].

Ltac handler_cases cfg req upstream d :=
  destruct (authorize_outcome hashToken cfg
              (extractBearerToken (authorization req)) d)
    as [?Ha|[?Ha|[(?s & ?c & ?Hs & ?Hc & ?Hq & ?Ha)
                 |(?evs & ?status & ?msg & ?Ha & ?Hevs & ?Hst)]]];
  [ rewrite (handle_passed_exact hashToken cfg req upstream _ _ _ Ha);
    tail_cases cfg req upstream
  | rewrite (handle_passed_exact hashToken cfg req upstream _ _ _ Ha);
    tail_cases cfg req upstream
  | rewrite (handle_passed_exact hashToken cfg req upstream _ _ _ Ha);
    tail_cases cfg req upstream
  | rewrite (handle_rejected hashToken cfg req upstream _ _ Ha);
    cbn [fst snd w_db w_log start app] ].

Lemma filter_none (f : event -> bool) (evs : list event) :
  forallb (fun e => negb (f e)) evs = true -> filter f evs = [].
Proof.
  induction evs as [|e evs IH]; [reflexivity|].
  cbn [forallb filter]. intros H. apply andb_true_iff in H as [He Hr].
  apply negb_true_iff in He. now rewrite He, IH.
Qed.

Lemma quiet_prefix (evs : list event) :
  forallb (fun e => negb (isRespond e) && negb (isFetch e)) evs = true ->
  forallb (fun e => negb (isRespond e)) evs = true
  /\ forallb (fun e => negb (isFetch e)) evs = true.
Proof.
  intros H. split; apply forallb_forall; intros e He;
    rewrite forallb_forall in H; specialize (H e He);
    apply andb_true_iff in H; tauto.
Qed.

(** X6: the handler of the generate route calls [respondJson] exactly once
    for every request, as the last thing it does, with one of the statuses
    200, 400, 401, 403, 429 and 500.  This counts the calls the handler
    makes: whether the response reaches the client is not stated (after an
    oversize body [readJson] has destroyed the request stream before the
    catch clause responds). *)
Theorem one_response_per_request (cfg : config) (req : request_in)
  (upstream : provider_outcome) (d : db) :
  let log := w_log (snd (handleGenerate hashToken cfg req upstream (start d))) in
  List.length (filter isRespond log) = 1%nat
  /\ exists status body,
      last log EvReadBody = EvRespond status body
      /\ In status [200; 400; 401; 403; 429; 500].
Proof.
  cbv zeta. handler_cases cfg req upstream d;
    try (split; [reflexivity|]; do 2 eexists; split; [reflexivity|];
         simpl; tauto).
  destruct (quiet_prefix _ Hevs) as [Hr _].
  rewrite filter_app, (filter_none _ _ Hr), last_last. split; [reflexivity|].
  do 2 eexists. split; [reflexivity|]. simpl in *. tauto.
Qed.

(** X7: the upstream provider is called at most once per request, and only
    when the authorization chain let the request through, the body parsed
    into a valid payload, an API key is configured and the provider is one
    of the three known ones; the call goes to the configured provider. *)
Theorem upstream_call_guard (cfg : config) (req : request_in)
  (upstream : provider_outcome) (d : db) (p : jsstring) :
  let log := w_log (snd (handleGenerate hashToken cfg req upstream (start d))) in
  In (EvFetch p) log ->
  (exists principal,
      fst (authorize hashToken cfg (extractBearerToken (authorization req))
             (start d))
      = Normal principal)
  /\ p = PROVIDER cfg
  /\ apiKey cfg <> []
  /\ isKnownProvider (PROVIDER cfg) = true
  /\ (exists pl v, bodyRead req = BodyParsed pl /\ validatePayload pl = inr v)
  /\ List.length (filter isFetch log) = 1%nat.
Proof.
  cbv zeta. handler_cases cfg req upstream d; intros Hin;
    try (simpl in Hin; repeat destruct Hin as [Hin|Hin];
         first [discriminate Hin | contradiction
               | injection Hin as <-;
                 apply negb_false_iff, truthy_true in Hkey;
                 rewrite Ha; cbn [fst];
                 repeat split; eauto]).
  destruct (quiet_prefix _ Hevs) as [_ Hf]. exfalso.
  apply in_app_or in Hin as [Hin|[Hin|[]]]; [|discriminate].
  rewrite forallb_forall in Hf. specialize (Hf _ Hin). discriminate.
Qed.

Lemma validatePayload_target (pl : payload) (v : validated) :
  validatePayload pl = inr v ->
  In (v_target v) [js "microbit"; js "arcade"; js "maker"].
Proof.
  unfold validatePayload.
  destruct (negb (truthy _)); [discriminate|]. cbv zeta.
  set (t := match target pl with Some s => trim s | None => [] end).
  intros [= <-]. cbn [v_target].
  destruct (streq t (js "microbit")) eqn:E1;
    [apply streq_eq in E1; rewrite E1; simpl; auto|].
  destruct (streq t (js "arcade")) eqn:E2;
    [apply streq_eq in E2; rewrite E2; simpl; auto|].
  destruct (streq t (js "maker")) eqn:E3;
    [apply streq_eq in E3; rewrite E3; simpl; auto|].
  simpl; auto.
Qed.

Lemma normalizeResponse_code (target raw : jsstring) :
  code (normalizeResponse target raw) <> [].
Proof.
  unfold normalizeResponse.
  destruct (truthy (extractCode (body (separateFeedback raw)))) eqn:E;
    cbn [negb code]; intros Hc.
  - now rewrite Hc in E.
  - pose proof (stubForTarget_truthy target) as Ht. now rewrite Hc in Ht.
Qed.

(** X8: a 200 response is sent only when the upstream call returned text for
    a valid payload; its body is the normalised form of that text for the
    validated target, which is one of the three targets, and its code is
    not empty. *)
Theorem success_response (cfg : config) (req : request_in)
  (upstream : provider_outcome) (d : db) (body : response_body) :
  let log := w_log (snd (handleGenerate hashToken cfg req upstream (start d))) in
  In (EvRespond 200 body) log ->
  exists raw pl v,
    upstream = ProviderText raw
    /\ bodyRead req = BodyParsed pl /\ validatePayload pl = inr v
    /\ In (v_target v) [js "microbit"; js "arcade"; js "maker"]
    /\ body = ResultBody (normalizeResponse (v_target v) raw)
    /\ code (normalizeResponse (v_target v) raw) <> []
    /\ In (EvFetch (PROVIDER cfg)) log.
Proof.
  cbv zeta. handler_cases cfg req upstream d; intros Hin;
    try (simpl in Hin; repeat destruct Hin as [Hin|Hin];
         first [discriminate Hin | contradiction
               | injection Hin as <-;
                 do 3 eexists; repeat split; eauto;
                 [ eapply validatePayload_target; eauto
                 | apply normalizeResponse_code
                 | simpl; tauto ] ]).
  destruct (quiet_prefix _ Hevs) as [Hr _].
  apply in_app_or in Hin as [Hin|[Hin|[]]].
  - rewrite forallb_forall in Hr. specialize (Hr _ Hin). discriminate.
  - injection Hin as Hst' _. subst status.
    simpl in Hst. repeat destruct Hst as [Hst|Hst]; try discriminate.
    contradiction.
Qed.

(** X9: once the upstream call is made, a timeout is reported as a 500 with
    the timed-out message and the configured budget, and a non-success
    status of the provider as a 500 carrying that status. *)
Theorem upstream_failures (cfg : config) (req : request_in)
  (upstream : provider_outcome) (d : db) (p : jsstring) :
  let log := w_log (snd (handleGenerate hashToken cfg req upstream (start d))) in
  In (EvFetch p) log ->
  (upstream = ProviderAborted ->
   last log EvReadBody
   = EvRespond 500 (ErrorBody (TimedOut (REQUEST_TIMEOUT_MS cfg))))
  /\ (forall status, upstream = ProviderStatus status ->
      last log EvReadBody
      = EvRespond 500 (ErrorBody (ProviderError (PROVIDER cfg) status))).
Proof.
  cbv zeta. handler_cases cfg req upstream d; intros Hin;
    try (simpl in Hin; repeat destruct Hin as [Hin|Hin];
         first [discriminate Hin | contradiction
               | split; [intros [=]|intros ? [=]]; subst; reflexivity
               | split; [intros _|intros ? [=]]; subst; reflexivity
               | split; [intros [=]|intros ? [= <-]]; reflexivity ]).
  destruct (quiet_prefix _ Hevs) as [_ Hf]. exfalso.
  apply in_app_or in Hin as [Hin|[Hin|[]]]; [|discriminate].
  rewrite forallb_forall in Hf. specialize (Hf _ Hin). discriminate.
Qed.

End HandlerInvariants.

Section HandlerFrame.

Local Open Scope Z_scope.

Variable hashToken : jsstring -> jsstring.

Lemma sameButUsage_refl (s : student) : sameButUsage s s.
Proof. unfold sameButUsage. tauto. Qed.

Lemma increment_rows (rows : list student) (id : jsstring) :
  Forall2 (fun s s' => sameButUsage s s'
                       /\ s_requests_used s <= s_requests_used s'
                          <= s_requests_used s + 1)
    rows
    (map (fun s => if streq (s_id s) id
                   then set_requests_used (s_requests_used s + 1) s else s)
       rows).
Proof.
  induction rows as [|r rows IH]; [constructor|].
  cbn [map]. constructor; [|exact IH].
  destruct (streq (s_id r) id).
  - unfold sameButUsage, set_requests_used. cbn. repeat split; lia.
  - split; [apply sameButUsage_refl|lia].
Qed.

Lemma same_rows (rows : list student) :
  Forall2 (fun s s' => sameButUsage s s'
                       /\ s_requests_used s <= s_requests_used s'
                          <= s_requests_used s + 1)
    rows rows.
Proof.
  induction rows as [|r rows IH]; constructor; [|exact IH].
  split; [apply sameButUsage_refl|lia].
Qed.

(** All the chain can do to the database, from any starting log. *)
Lemma authorize_db (cfg : config) (tok : jsstring) (d : db) :
  w_db (snd (authorize hashToken cfg tok (start d))) = d
  \/ exists s c,
      getStudentByToken hashToken d tok = Some s
      /\ getClassroom d (s_classroom_id s) = Some c
      /\ s_requests_used s < c_request_limit c
      /\ w_db (snd (authorize hashToken cfg tok (start d)))
         = incrementStudentUsage d (s_id s).
Proof.
  destruct (authorize_outcome hashToken cfg tok d)
    as [Ha|[Ha|[(s & c & Hs & Hc & Hq & Ha)|(evs & st & msg & Ha & _)]]];
    rewrite Ha; cbn [snd w_db start]; auto.
  right. exists s, c. auto.
Qed.

(** The handler leaves the database as the chain left it. *)
Lemma handle_db (cfg : config) (req : request_in)
  (upstream : provider_outcome) (d : db) :
  w_db (snd (handleGenerate hashToken cfg req upstream (start d)))
  = w_db (snd (authorize hashToken cfg
                 (extractBearerToken (authorization req)) (start d))).
Proof.
  destruct (authorize hashToken cfg (extractBearerToken (authorization req))
              (start d)) as [[p| |e] w'] eqn:Ha.
  - destruct (handle_passed hashToken cfg req upstream _ _ _ Ha)
      as (k & post & Hrun & _).
    now rewrite Hrun.
  - now rewrite (handle_rejected hashToken cfg req upstream _ _ Ha).
  - exfalso.
    destruct (authorize_outcome hashToken cfg
                (extractBearerToken (authorization req)) d)
      as [H|[H|[(s & c & _ & _ & _ & H)|(evs & st & msg & H & _)]]];
      rewrite H in Ha; discriminate.
Qed.

(** X10: the generate handler never touches the classrooms and changes no
    column of a student other than [requests_used], which it never lowers
    and raises by at most one. *)
Theorem generate_only_raises_usage (cfg : config) (req : request_in)
  (upstream : provider_outcome) (d : db) :
  let d' := w_db (snd (handleGenerate hashToken cfg req upstream (start d))) in
  classrooms d' = classrooms d
  /\ Forall2 (fun s s' => sameButUsage s s'
                          /\ s_requests_used s <= s_requests_used s'
                             <= s_requests_used s + 1)
       (students d) (students d').
Proof.
  cbv zeta. rewrite handle_db.
  destruct (authorize_db cfg (extractBearerToken (authorization req)) d)
    as [->|(s & c & _ & _ & _ & ->)].
  - split; [reflexivity|apply same_rows].
  - split; [reflexivity|]. apply increment_rows.
Qed.

Lemma NoDup_map_In_inj {A B} (f : A -> B) (l : list A) (x y : A) :
  NoDup (map f l) -> In x l -> In y l -> f x = f y -> x = y.
Proof.
  induction l as [|a l IH]; [intros _ []|].
  cbn [map]. intros Hnd Hx Hy Hxy. inversion Hnd as [|? ? Hnotin Hnd']; subst.
  destruct Hx as [<-|Hx], Hy as [<-|Hy]; auto.
  - exfalso. apply Hnotin. rewrite Hxy. now apply in_map.
  - exfalso. apply Hnotin. rewrite <- Hxy. now apply in_map.
Qed.

(** X11: with student ids unique, as the primary key makes them, the generate
    handler never takes a counter a whole request past the limit of the
    student's classroom: if [requests_used < request_limit + 1] holds for
    every student before a request, it holds after it. *)
Theorem generate_keeps_quota (cfg : config) (req : request_in)
  (upstream : provider_outcome) (d : db) :
  NoDup (map s_id (students d)) -> withinQuota d ->
  withinQuota (w_db (snd (handleGenerate hashToken cfg req upstream (start d)))).
Proof.
  intros Hnd Hq. rewrite handle_db.
  destruct (authorize_db cfg (extractBearerToken (authorization req)) d)
    as [->|(s & c & Hs & Hc & Hlt & ->)]; [exact Hq|].
  intros s' c' Hin Hc'.
  unfold incrementStudentUsage, updateStudents in Hin, Hc'.
  cbn [fst students] in Hin. apply in_map_iff in Hin as (x & Hx & Hin).
  assert (Hcls : getClassroom d (s_classroom_id x) = Some c').
  { revert Hc'. unfold getClassroom. cbn [fst classrooms].
    destruct (streq (s_id x) (s_id s)); subst s'; auto. }
  destruct (streq (s_id x) (s_id s)) eqn:E.
  - apply streq_eq in E.
    assert (Hins : In s (students d)).
    { unfold getStudentByToken in Hs. now apply find_some in Hs as [Hs _]. }
    assert (x = s) by (eapply NoDup_map_In_inj; eauto). subst x s'.
    rewrite Hc in Hcls. injection Hcls as <-.
    cbn [set_requests_used s_requests_used]. lia.
  - subst s'. now apply (Hq x c').
Qed.

(** X12: a student is charged even when the server has no API key: for an
    admissible credential and an empty key the student the credential
    resolves to has [requests_used] one higher in the final database, no
    upstream call is made, and a request with a valid payload is answered
    with the missing-key error. *)
Theorem charged_without_api_key (cfg : config) (req : request_in)
  (upstream : provider_outcome) (d : db) :
  let tok := extractBearerToken (authorization req) in
  let out := handleGenerate hashToken cfg req upstream (start d) in
  tok <> [] -> tok <> SERVER_APP_TOKEN cfg ->
  admissible hashToken d tok -> apiKey cfg = [] ->
  (exists s, getStudentByToken hashToken d tok = Some s
             /\ w_db (snd out) = incrementStudentUsage d (s_id s)
             /\ getStudentByToken hashToken (w_db (snd out)) tok
                = Some (set_requests_used (s_requests_used s + 1) s))
  /\ (forall p, ~ In (EvFetch p) (w_log (snd out)))
  /\ (forall pl v,
        bodyRead req = BodyParsed pl -> validatePayload pl = inr v ->
        last (w_log (snd out)) EvReadBody
        = EvRespond 500 (ErrorBody (MissingApiKey (PROVIDER cfg)))).
Proof.
  intros tok out Hne Hmiss Hadm Hkey.
  destruct (authorize_student_cases hashToken cfg tok d Hne Hmiss)
    as [(_ & s & Hs & Ha)|(Hn & _)]; [|contradiction].
  subst out.
  rewrite (handle_passed_exact hashToken cfg req upstream _ _ _ Ha).
  cbv zeta. rewrite Hkey. cbn [truthy negb].
  destruct (bodyRead req) as [pl|e] eqn:Hbody;
    [destruct (validatePayload pl) as [err|v] eqn:Hval|];
    cbn [fst snd w_db w_log app];
    (split; [exists s; split; [exact Hs|]; split; [reflexivity|];
             now apply getStudentByToken_increment|]);
    (split; [intros p Hin; simpl in Hin;
             repeat destruct Hin as [Hin|Hin]; try discriminate; contradiction|]);
    intros pl' v' Hpl Hval'; try discriminate; try congruence.
  reflexivity.
Qed.

End HandlerFrame.

Section BearerRoundTrip.

Local Open Scope N_scope.

Lemma takeWhile_blank_then (tok : jsstring) :
  firstIs isWhiteSpace tok = false ->
  takeWhile isWhiteSpace (SPACE :: tok) = [SPACE].
Proof.
  intros H. cbn [takeWhile]. change (isWhiteSpace SPACE) with true.
  cbv iota. f_equal. destruct tok as [|c tok]; [reflexivity|].
  simpl in H. cbn [takeWhile]. now rewrite H.
Qed.

(** X13: a client that sends the word Bearer, one space and its token gets
    exactly that token extracted: for every non-empty token that does not
    start with white space and holds no line terminator. *)
Theorem extractBearerToken_round_trip (tok : jsstring) :
  tok <> [] -> firstIs isWhiteSpace tok = false ->
  forallb (fun c => negb (isLineTerminator c)) tok = true ->
  extractBearerToken (Some (js "Bearer " ++ tok)) = tok.
Proof.
  intros Hne Hfirst Hlt.
  unfold extractBearerToken. cbn [truthy negb app js]. 
  change (js "Bearer " ++ tok) with
    ([66; 101; 97; 114; 101; 114] ++ SPACE :: tok).
  unfold bearerMatch.
  assert (Hp : startsWith_i (js "Bearer")
                 ([66; 101; 97; 114; 101; 114] ++ SPACE :: tok) = true)
    by reflexivity.
  rewrite Hp.
  change (skipn 6 ([66; 101; 97; 114; 101; 114] ++ SPACE :: tok))
    with (SPACE :: tok).
  rewrite (takeWhile_blank_then _ Hfirst).
  cbn [List.length bearerBacktrack skipn]. cbv zeta.
  apply truthy_true in Hne. now rewrite Hne, Hlt.
Qed.

(** X14: no header yields a credential with a line terminator in it; so a
    static secret that holds one is never matched, whatever is sent. *)
Theorem secret_with_line_break_never_matches
  (hashToken : jsstring -> jsstring) (cfg : config)
  (header : option jsstring) (d : db) :
  forallb (fun c => negb (isLineTerminator c)) (extractBearerToken header)
  = true
  /\ (existsb isLineTerminator (SERVER_APP_TOKEN cfg) = true ->
      fst (authorize hashToken cfg (extractBearerToken header) (start d))
      <> Normal StaticApp).
Proof.
  assert (Hclean : forallb (fun c => negb (isLineTerminator c))
                     (extractBearerToken header) = true).
  { unfold extractBearerToken.
    destruct header as [h|]; [|reflexivity].
    destruct (negb (truthy h)); [reflexivity|].
    unfold bearerMatch.
    destruct (startsWith_i (js "Bearer") h); [|reflexivity].
    destruct (bearerBacktrack _ _) as [tok|] eqn:Hb; [|reflexivity].
    apply bearerBacktrack_sound in Hb as (i & _ & _ & _ & Hlt).
    apply forallb_forall. intros c Hc. rewrite Forall_forall in Hlt.
    now rewrite (Hlt c Hc). }
  split; [exact Hclean|].
  intros Hsec.
  assert (Hmiss : extractBearerToken header <> SERVER_APP_TOKEN cfg).
  { intros E. rewrite E in Hclean.
    apply existsb_exists in Hsec as (c & Hc & Hlt).
    rewrite forallb_forall in Hclean. specialize (Hclean c Hc).
    now rewrite Hlt in Hclean. }
  intros Hstatic. apply Hmiss.
  destruct (streq (extractBearerToken header) (SERVER_APP_TOKEN cfg)) eqn:E;
    [now apply streq_eq in E|].
  exfalso.
  destruct (extractBearerToken header) as [|t0 tok'] eqn:Etok.
  - rewrite (authorize_no_credential hashToken cfg (start d)) in Hstatic.
    destruct (truthy (SERVER_APP_TOKEN cfg)); discriminate.
  - destruct (authorize_student_cases hashToken cfg (t0 :: tok') d)
      as [(_ & s & _ & Ha)|(_ & evs & st & msg & Ha & _)];
      try discriminate; try exact Hmiss;
      rewrite Ha in Hstatic; discriminate.
Qed.

End BearerRoundTrip.

(* ================================================================== *)
(** ** Payload validation *)
(* ================================================================== *)

Section PayloadFacts.

Local Open Scope N_scope.

Lemma dropWhileEnd_nil_inv (f : char -> bool) (s : jsstring) :
  dropWhileEnd f s = [] -> forallb f s = true.
Proof.
  destruct s as [|c s]; [reflexivity|].
  cbn [dropWhileEnd]. destruct (forallb f (c :: s)); [reflexivity|discriminate].
Qed.

Lemma forallb_dropWhile_inv (f : char -> bool) (s : jsstring) :
  forallb f (dropWhile f s) = true -> forallb f s = true.
Proof.
  induction s as [|c s IH]; [reflexivity|].
  cbn [dropWhile]. destruct (f c) eqn:E; [|auto].
  intros H. simpl. now rewrite E, IH.
Qed.

Lemma trim_nil_inv (s : jsstring) :
  trim s = [] -> forallb isWhiteSpace s = true.
Proof.
  unfold trim. intros H.
  now apply forallb_dropWhile_inv, dropWhileEnd_nil_inv.
Qed.

(** X15: [validatePayload] refuses exactly the payloads whose request is
    missing, not a string or blank, always with the same message.  What it
    accepts has a target among the three (an unknown one becomes
    microbit), the request trimmed and not empty, and the current code
    as it came (empty when missing). *)
Theorem validatePayload_contract (pl : payload) :
  match validatePayload pl with
  | inl err =>
      err = Text REQUEST_REQUIRED
      /\ (request pl = None
          \/ exists s, request pl = Some s /\ forallb isWhiteSpace s = true)
  | inr v =>
      In (v_target v) [js "microbit"; js "arcade"; js "maker"]
      /\ (forall t, target pl = Some t ->
          In (trim t) [js "microbit"; js "arcade"; js "maker"] ->
          v_target v = trim t)
      /\ (exists s, request pl = Some s /\ v_request v = trim s)
      /\ v_request v <> []
      /\ firstIs isWhiteSpace (v_request v) = false
      /\ lastIs isWhiteSpace (v_request v) = false
      /\ v_currentCode v
         = match currentCode pl with Some s => s | None => [] end
  end.
Proof.
  destruct (validatePayload pl) as [err|v] eqn:Hv.
  - unfold validatePayload in Hv.
    destruct (request pl) as [s|] eqn:Hr.
    + destruct (truthy (trim s)) eqn:Ht; cbn [negb] in Hv; [discriminate|].
      injection Hv as <-. split; [reflexivity|]. right. exists s.
      split; [reflexivity|]. now apply trim_nil_inv, truthy_false.
    + cbn [truthy negb] in Hv. injection Hv as <-. auto.
  - split; [now apply (validatePayload_target pl)|].
    unfold validatePayload in Hv.
    destruct (request pl) as [s|] eqn:Hr; [|discriminate].
    destruct (truthy (trim s)) eqn:Ht; cbn [negb] in Hv; [|discriminate].
    cbv zeta in Hv.
    set (t0 := match target pl with Some s0 => trim s0 | None => [] end) in Hv.
    assert (Hreq : v_request v = trim s) by (injection Hv as <-; reflexivity).
    assert (Hcode : v_currentCode v
                    = match currentCode pl with Some s => s | None => [] end)
      by (injection Hv as <-; reflexivity).
    assert (Htgt : v_target v
                   = if existsb (streq t0)
                          [js "microbit"; js "arcade"; js "maker"]
                     then t0 else js "microbit")
      by (injection Hv as <-; reflexivity).
    split.
    { intros t Ht0 Hin. rewrite Htgt. subst t0. rewrite Ht0 in *.
      assert (E : existsb (streq (trim t))
                    [js "microbit"; js "arcade"; js "maker"] = true).
      { apply existsb_exists. exists (trim t). split; [exact Hin|].
        apply streq_refl. }
      now rewrite E. }
    split; [exists s; auto|].
    rewrite Hreq. split; [now apply truthy_true|].
    split; [apply trim_is_trimmed|]. split; [apply trim_is_trimmed|exact Hcode].
Qed.

End PayloadFacts.

(* ================================================================== *)
(** ** The roster operations *)
(* ================================================================== *)

Section RosterFacts.

Local Open Scope Z_scope.

Variable hashToken : jsstring -> jsstring.

Lemma map_unchanged {A} (cond : A -> bool) (upd : A -> A) (rows : list A) :
  existsb cond rows = false ->
  map (fun r => if cond r then upd r else r) rows = rows.
Proof.
  induction rows as [|r rows IH]; [reflexivity|].
  cbn [existsb map]. intros H. apply orb_false_iff in H as [Hr Hrest].
  now rewrite Hr, IH.
Qed.

Lemma find_id_update (id : jsstring) (upd : classroom -> classroom)
  (key : jsstring) (rows : list classroom) :
  (forall c, c_id (upd c) = c_id c) ->
  find (fun c => streq (c_id c) key)
       (map (fun c => if streq (c_id c) id then upd c else c) rows)
  = option_map (fun c => if streq (c_id c) id then upd c else c)
      (find (fun c => streq (c_id c) key) rows).
Proof.
  intros Hid. induction rows as [|r rows IH]; [reflexivity|].
  cbn [map find]. destruct (streq (c_id r) id) eqn:Ec; rewrite ?Hid;
    destruct (streq (c_id r) key); cbn [option_map]; rewrite ?Ec; auto.
Qed.

Lemma find_last_row {A} (f : A -> bool) (rows : list A) (x : A) :
  existsb f rows = false -> f x = true -> find f (rows ++ [x]) = Some x.
Proof.
  induction rows as [|r rows IH]; cbn [existsb app find]; intros H Hx.
  - now rewrite Hx.
  - apply orb_false_iff in H as [Hr Hrest]. rewrite Hr. now apply IH.
Qed.

Lemma find_old_row {A} (f : A -> bool) (rows : list A) (x y : A) :
  find f rows = Some y -> find f (rows ++ [x]) = Some y.
Proof.
  induction rows as [|r rows IH]; cbn [app find]; [discriminate|].
  destruct (f r); auto.
Qed.

Lemma existsb_or_false {A} (f g : A -> bool) (rows : list A) :
  existsb (fun r => f r || g r) rows = false ->
  existsb f rows = false /\ existsb g rows = false.
Proof.
  induction rows as [|r rows IH]; [auto|].
  cbn [existsb]. intros H. apply orb_false_iff in H as [Hr Hrest].
  apply orb_false_iff in Hr as [Hf Hg]. destruct (IH Hrest) as [IHf IHg].
  now rewrite Hf, Hg, IHf, IHg.
Qed.

(** X16: [resetStudentUsage] sets the counter of every student of the classroom
    to zero and changes nothing else: the classrooms, the other columns of
    those students, and the students of other classrooms stay as they
    were. *)
Theorem resetStudentUsage_effect (d : db) (cid : jsstring) :
  classrooms (resetStudentUsage d cid) = classrooms d
  /\ Forall2 (fun s s' =>
                sameButUsage s s'
                /\ (s_classroom_id s = cid -> s_requests_used s' = 0)
                /\ (s_classroom_id s <> cid -> s' = s))
       (students d) (students (resetStudentUsage d cid)).
Proof.
  unfold resetStudentUsage, updateStudents. cbn [fst classrooms students].
  split; [reflexivity|].
  induction (students d) as [|r rows IH]; [constructor|].
  cbn [map]. constructor; [|exact IH].
  destruct (streq (s_classroom_id r) cid) eqn:E.
  - unfold sameButUsage, set_requests_used. cbn.
    apply streq_eq in E. repeat split; auto; try (intros H; contradiction).
  - split; [apply sameButUsage_refl|]. split; [|reflexivity].
    intros H. apply streq_eq in H. congruence.
Qed.

(** X17: the reset route changes the database only for a teacher token that
    resolves to a classroom, and then exactly by resetting that
    classroom; without a credential or with an unknown one it answers 401
    and changes nothing. *)
Theorem handleReset_scope (d : db) (header : option jsstring) :
  let tok := extractBearerToken header in
  match getClassroomByTeacherToken hashToken d tok with
  | Some c =>
      tok <> [] ->
      handleReset hashToken d header
      = ((200, RosterOk), resetStudentUsage d (c_id c))
  | None =>
      snd (handleReset hashToken d header) = d
      /\ fst (fst (handleReset hashToken d header)) = 401
  end
  /\ (tok = [] ->
      handleReset hashToken d header
      = ((401, RosterError MISSING_TEACHER_TOKEN), d)).
Proof.
  cbv zeta. unfold handleReset, requireTeacherAuth.
  destruct (extractBearerToken header) as [|t0 tok'] eqn:Etok.
  - cbn [truthy negb]. split; [|reflexivity].
    destruct (getClassroomByTeacherToken hashToken d []);
      [intros H; congruence|split; reflexivity].
  - cbn [truthy negb]. split; [|discriminate].
    destruct (getClassroomByTeacherToken hashToken d (t0 :: tok'));
      [reflexivity|split; reflexivity].
Qed.

(** X18: after the teacher of a classroom has reset it through the route, a
    student of that classroom whose access is active is let through again
    (for a classroom that is active and has a positive limit), however
    many requests the student had used. *)
Theorem reset_readmits_student (cfg : config) (req : request_in)
  (upstream : provider_outcome) (d : db) (header : option jsstring)
  (s : student) (c : classroom) :
  let tok := extractBearerToken (authorization req) in
  let d1 := snd (handleReset hashToken d header) in
  extractBearerToken header <> [] ->
  getClassroomByTeacherToken hashToken d (extractBearerToken header) = Some c ->
  tok <> [] -> tok <> SERVER_APP_TOKEN cfg ->
  getStudentByToken hashToken d tok = Some s ->
  s_classroom_id s = c_id c -> s_active s <> 0 ->
  getClassroom d (c_id c) = Some c -> c_active c <> 0 ->
  0 < c_request_limit c ->
  admissible hashToken d1 tok
  /\ exists k post,
      handleGenerate hashToken cfg req upstream (start d1)
      = (k,
         {| w_db := incrementStudentUsage d1 (s_id s);
            w_log := [EvSelectStudent (hashToken tok);
                      EvSelectClassroom (c_id c);
                      EvUpdateUsage (s_id s); EvReadBody] ++ post |})
      /\ getStudentByToken hashToken (incrementStudentUsage d1 (s_id s)) tok
         = Some (set_requests_used 1 s).
Proof.
  intros tok d1 Hhdr Hteacher Hne Hmiss Hs Hcls Hsa Hc Hca Hlim.
  assert (Hd1 : d1 = resetStudentUsage d (c_id c)).
  { subst d1. unfold handleReset, requireTeacherAuth.
    apply truthy_true in Hhdr. rewrite Hhdr, Hteacher. reflexivity. }
  assert (Hs1 : getStudentByToken hashToken d1 tok
                = Some (set_requests_used 0 s)).
  { rewrite Hd1. unfold getStudentByToken, resetStudentUsage, updateStudents.
    cbn [fst students]. rewrite find_token_update by reflexivity.
    unfold getStudentByToken in Hs. rewrite Hs. cbn [option_map].
    now rewrite Hcls, streq_refl. }
  assert (Hc1 : getClassroom d1 (c_id c) = Some c)
    by (rewrite Hd1; exact Hc).
  assert (Hadm : admissible hashToken d1 tok).
  { exists (set_requests_used 0 s), c. cbn. rewrite Hcls. auto. }
  split; [exact Hadm|].
  pose proof (authorize_student_mode hashToken cfg tok (start d1) Hne Hmiss)
    as Ha.
  cbv zeta in Ha. cbn [start w_db w_log app] in Ha. rewrite Hs1 in Ha.
  cbn [set_requests_used s_active s_classroom_id s_requests_used s_id] in Ha.
  apply truthyZ_true in Hsa, Hca. rewrite Hsa, Hcls, Hc1, Hca in Ha.
  cbn [negb] in Ha.
  assert (E : (0 >=? c_request_limit c) = false).
  { destruct (0 >=? c_request_limit c) eqn:G; [|reflexivity].
    apply Z.geb_le in G. lia. }
  rewrite E in Ha.
  destruct (handle_passed hashToken cfg req upstream _ _ _ Ha)
    as (k & post & Hrun & _).
  exists k, post. split; [exact Hrun|].
  pose proof (getStudentByToken_increment hashToken d1 tok _ Hs1) as Hinc.
  cbn [set_requests_used s_id s_requests_used] in Hinc. exact Hinc.
Qed.

(** X19: [updateClassroom] with no field to set returns false and changes
    nothing, even when the classroom exists.  Otherwise it returns whether
    a classroom with that id exists; it never touches the students, the
    id, join code, teacher token or creation time of any classroom, or any
    column of a classroom with another id. *)
Theorem updateClassroom_contract (d : db) (id : jsstring)
  (f : classroom_fields) :
  (noFields f = true -> updateClassroom d id f = (d, false))
  /\ (noFields f = false ->
      snd (updateClassroom d id f)
      = existsb (fun c => streq (c_id c) id) (classrooms d))
  /\ students (fst (updateClassroom d id f)) = students d
  /\ Forall2 (fun c c' =>
                c_id c' = c_id c /\ c_join_code c' = c_join_code c
                /\ c_teacher_token c' = c_teacher_token c
                /\ c_created_at c' = c_created_at c
                /\ (c_id c <> id -> c' = c))
       (classrooms d) (classrooms (fst (updateClassroom d id f))).
Proof.
  unfold updateClassroom.
  destruct (noFields f) eqn:Hn.
  - split; [reflexivity|]. split; [discriminate|]. split; [reflexivity|].
    cbn [fst]. induction (classrooms d) as [|r rows IH]; constructor; auto;
      repeat split; auto.
  - split; [discriminate|]. split.
    { intros _. cbn [snd]. clear.
      induction (classrooms d) as [|r rows IH]; [reflexivity|].
      cbn [filter existsb]. destruct (streq (c_id r) id); [|exact IH].
      cbn [List.length orb]. apply Z.gtb_lt. lia. }
    split; [reflexivity|]. cbn [fst classrooms].
    induction (classrooms d) as [|r rows IH]; [constructor|].
    cbn [map]. constructor; [|exact IH].
    destruct (streq (c_id r) id) eqn:E.
    + cbn. repeat split. intros H. apply streq_eq in E. contradiction.
    + repeat split; reflexivity.
Qed.

(** X20: once a classroom is paused by [updateClassroom] (active set to 0),
    every request of one of its active students is answered 403 with the
    paused message and no counter changes, whatever quota is left. *)
Theorem paused_classroom_refuses (cfg : config) (req : request_in)
  (upstream : provider_outcome) (d : db) (f : classroom_fields)
  (s : student) :
  let tok := extractBearerToken (authorization req) in
  let d1 := fst (updateClassroom d (s_classroom_id s) f) in
  f_active f = Some 0 ->
  tok <> [] -> tok <> SERVER_APP_TOKEN cfg ->
  getStudentByToken hashToken d tok = Some s -> s_active s <> 0 ->
  handleGenerate hashToken cfg req upstream (start d1)
  = (Return,
     {| w_db := d1;
        w_log := [EvSelectStudent (hashToken tok);
                  EvSelectClassroom (s_classroom_id s);
                  EvRespond 403 (ErrorBody (Text PAUSED))] |}).
Proof.
  intros tok d1 Hf Hne Hmiss Hs Hsa.
  assert (Hnf : noFields f = false).
  { unfold noFields. rewrite Hf.
    destruct (f_name f), (f_request_limit f), (f_max_students f); reflexivity. }
  assert (Hs1 : getStudentByToken hashToken d1 tok = Some s).
  { subst d1. unfold updateClassroom. rewrite Hnf. exact Hs. }
  assert (Hc1 : getClassroom d1 (s_classroom_id s) = None
                \/ exists c', getClassroom d1 (s_classroom_id s) = Some c'
                              /\ c_active c' = 0).
  { subst d1. unfold updateClassroom. rewrite Hnf. unfold getClassroom.
    cbn [fst classrooms]. rewrite find_id_update by reflexivity.
    destruct (find _ (classrooms d)) as [c0|] eqn:Hfind; [|now left].
    right. cbn [option_map]. apply find_some in Hfind as [_ Hid].
    rewrite Hid. eexists. split; [reflexivity|].
    cbn. now rewrite Hf. }
  apply handle_rejected.
  pose proof (authorize_student_mode hashToken cfg tok (start d1) Hne Hmiss)
    as Ha.
  cbv zeta in Ha. cbn [start w_db w_log app] in Ha. rewrite Hs1 in Ha.
  apply truthyZ_true in Hsa. rewrite Hsa in Ha. cbn [negb] in Ha.
  destruct Hc1 as [Hnone|(c' & Hsome & Hina)].
  - rewrite Hnone in Ha. exact Ha.
  - rewrite Hsome in Ha. apply truthyZ_false in Hina.
    rewrite Hina in Ha. exact Ha.
Qed.

(** X21: once a student is deactivated by [deactivateStudent] with the
    student's id and classroom, every request with that student's token
    is answered 403 with the deactivated message. *)
Theorem deactivated_student_refused (cfg : config) (req : request_in)
  (upstream : provider_outcome) (d : db) (s : student) :
  let tok := extractBearerToken (authorization req) in
  let d1 := fst (deactivateStudent d (s_id s) (s_classroom_id s)) in
  tok <> [] -> tok <> SERVER_APP_TOKEN cfg ->
  getStudentByToken hashToken d tok = Some s ->
  snd (deactivateStudent d (s_id s) (s_classroom_id s)) = true
  /\ handleGenerate hashToken cfg req upstream (start d1)
     = (Return,
        {| w_db := d1;
           w_log := [EvSelectStudent (hashToken tok);
                     EvRespond 403 (ErrorBody (Text DEACTIVATED))] |}).
Proof.
  intros tok d1 Hne Hmiss Hs.
  assert (Hin : In s (students d)).
  { unfold getStudentByToken in Hs. now apply find_some in Hs as [Hs _]. }
  split.
  { unfold deactivateStudent, updateStudents. cbn [snd].
    rewrite changes_positive. apply existsb_exists. exists s.
    split; [exact Hin|]. now rewrite !streq_refl. }
  assert (Hs1 : getStudentByToken hashToken d1 tok = Some (set_active 0 s)).
  { subst d1. unfold getStudentByToken, deactivateStudent, updateStudents.
    cbn [fst students]. rewrite find_token_update by reflexivity.
    unfold getStudentByToken in Hs. rewrite Hs. cbn [option_map].
    now rewrite !streq_refl. }
  apply handle_rejected.
  pose proof (authorize_student_mode hashToken cfg tok (start d1) Hne Hmiss)
    as Ha.
  cbv zeta in Ha. cbn [start w_db w_log app] in Ha. rewrite Hs1 in Ha.
  exact Ha.
Qed.

(** X22: [deactivateStudent] with a classroom id under which the student has
    no row returns false and leaves the database as it was: a student of
    another classroom is out of reach. *)
Theorem deactivateStudent_other_classroom (d : db)
  (studentId classroomId : jsstring) :
  hasRow d studentId classroomId = false ->
  deactivateStudent d studentId classroomId = (d, false).
Proof.
  unfold hasRow, deactivateStudent, updateStudents. intros H.
  rewrite changes_positive.
  fold (rowOf studentId classroomId). rewrite H.
  rewrite (map_unchanged _ _ _ H). destruct d; reflexivity.
Qed.

End RosterFacts.

Section JoinFacts.

Local Open Scope Z_scope.

Variable hashToken : jsstring -> jsstring.

(** X23: a join that is refused creates no row: with no active classroom for
    the code the answer is the invalid-code error, with the classroom at
    [max_students] active students it is the full error, and in every
    refusal the database is the one before. *)
Theorem joinClassroom_refusals (d : db) (code displayName : jsstring)
  (seed : student_seed) :
  (classroomByJoinCode d code = None ->
   joinClassroom hashToken d code displayName seed
   = Done (d, inl INVALID_JOIN_CODE))
  /\ (forall c, classroomByJoinCode d code = Some c ->
      c_max_students c <= countActiveStudents d (c_id c) ->
      joinClassroom hashToken d code displayName seed
      = Done (d, inl CLASSROOM_FULL))
  /\ (forall d' err,
      joinClassroom hashToken d code displayName seed = Done (d', inl err) ->
      d' = d).
Proof.
  unfold joinClassroom, classroomByJoinCode.
  destruct (find _ (classrooms d)) as [c|].
  - split; [discriminate|]. split.
    + intros c0 [= <-] Hfull.
      assert (E : (countActiveStudents d (c_id c) >=? c_max_students c) = true)
        by (apply Z.geb_le; lia).
      now rewrite E.
    + intros d' err.
      destruct (countActiveStudents d (c_id c) >=? c_max_students c);
        [now intros [= <- _]|].
      destruct (existsb _ (students d)); discriminate.
  - split; [reflexivity|]. split; [discriminate|]. now intros d' err [= <- _].
Qed.

Lemma countActive_after_join (d : db) (c : classroom) (row : student) :
  s_classroom_id row = c_id c -> s_active row = 1 ->
  countActiveStudents
    {| classrooms := classrooms d; students := students d ++ [row] |} (c_id c)
  = countActiveStudents d (c_id c) + 1.
Proof.
  intros Hc Ha. unfold countActiveStudents. cbn [students].
  rewrite filter_app, length_app. cbn [filter].
  rewrite Hc, streq_refl, Ha. cbn. lia.
Qed.

(** X24: a join that succeeds appends one student row to the active classroom
    found by the code: the row has the seed's id, that classroom's id,
    the hash of the returned token, a zero counter and is active.  Nothing
    else changes.  The classroom had fewer than [max_students] active
    students before and has one more after; the returned token resolves
    to the new row, and every token that resolved before resolves to the
    same row. *)
Theorem joinClassroom_success (d d' : db) (code displayName : jsstring)
  (seed : student_seed) (j : joined) :
  joinClassroom hashToken d code displayName seed = Done (d', inr j) ->
  exists c row,
    classroomByJoinCode d code = Some c
    /\ j = {| studentToken := seed_student_token seed;
              j_classroomId := c_id c; classroomName := c_name c |}
    /\ classrooms d' = classrooms d
    /\ students d' = students d ++ [row]
    /\ s_id row = seed_student_id seed
    /\ s_classroom_id row = c_id c
    /\ s_token row = hashToken (seed_student_token seed)
    /\ s_requests_used row = 0 /\ s_active row = 1
    /\ countActiveStudents d (c_id c) < c_max_students c
    /\ countActiveStudents d' (c_id c) = countActiveStudents d (c_id c) + 1
    /\ getStudentByToken hashToken d' (studentToken j) = Some row
    /\ (forall tok s, getStudentByToken hashToken d tok = Some s ->
                      getStudentByToken hashToken d' tok = Some s).
Proof.
  unfold joinClassroom, classroomByJoinCode.
  destruct (find _ (classrooms d)) as [c|]; [|discriminate].
  destruct (countActiveStudents d (c_id c) >=? c_max_students c) eqn:Hcap;
    [discriminate|].
  destruct (existsb _ (students d)) eqn:Hclash; [discriminate|].
  intros [= <- <-]. exists c, (joinedRow hashToken c displayName seed).
  apply existsb_or_false in Hclash as [_ Htok].
  assert (Hlt : countActiveStudents d (c_id c) < c_max_students c).
  { destruct (Z.ltb_spec (countActiveStudents d (c_id c)) (c_max_students c))
      as [L|L]; [exact L|]. apply Z.geb_le in L. congruence. }
  pose proof (countActive_after_join d c
                (joinedRow hashToken c displayName seed) eq_refl eq_refl)
    as Hcount.
  repeat split; try reflexivity.
  - exact Hlt.
  - exact Hcount.
  - unfold getStudentByToken. cbn [students studentToken].
    apply find_last_row; [exact Htok|]. cbn. apply streq_refl.
  - intros tok s. unfold getStudentByToken. cbn [students].
    apply find_old_row.
Qed.

Lemma joinClassroom_success_parts (d d' : db) (code displayName : jsstring)
  (seed : student_seed) (j : joined) :
  joinClassroom hashToken d code displayName seed = Done (d', inr j) ->
  exists c,
    classroomByJoinCode d code = Some c
    /\ classrooms d' = classrooms d
    /\ getStudentByToken hashToken d' (studentToken j)
       = Some (joinedRow hashToken c displayName seed).
Proof.
  unfold joinClassroom, classroomByJoinCode.
  destruct (find _ (classrooms d)) as [c|]; [|discriminate].
  destruct (countActiveStudents d (c_id c) >=? c_max_students c);
    [discriminate|].
  destruct (existsb _ (students d)) eqn:Hclash; [discriminate|].
  intros [= <- <-]. exists c.
  apply existsb_or_false in Hclash as [_ Htok].
  repeat split.
  unfold getStudentByToken. cbn [students studentToken].
  apply find_last_row; [exact Htok|]. cbn. apply streq_refl.
Qed.

Lemma find_unique_id (rows : list classroom) (c : classroom) :
  NoDup (map c_id rows) -> In c rows ->
  find (fun x => streq (c_id x) (c_id c)) rows = Some c.
Proof.
  intros Hnd Hin.
  destruct (find (fun x => streq (c_id x) (c_id c)) rows) as [x|] eqn:E.
  - apply find_some in E as [Hx Heq]. apply streq_eq in Heq.
    f_equal. eapply NoDup_map_In_inj; eauto.
  - exfalso. apply (find_none _ _ E) in Hin. now rewrite streq_refl in Hin.
Qed.

(** X25: a student who has just joined can generate: with classroom ids
    unique, as the primary key makes them, and a positive limit on the
    classroom, the token returned by the join is admissible at once. *)
Theorem joined_student_is_admissible (d d' : db) (code displayName : jsstring)
  (seed : student_seed) (j : joined) :
  joinClassroom hashToken d code displayName seed = Done (d', inr j) ->
  NoDup (map c_id (classrooms d)) ->
  (forall c, classroomByJoinCode d code = Some c -> 0 < c_request_limit c) ->
  admissible hashToken d' (studentToken j).
Proof.
  intros Hjoin Hnd Hlim.
  destruct (joinClassroom_success_parts d d' code displayName seed j Hjoin)
    as (c & Hc & Hcls & Hnew).
  exists (joinedRow hashToken c displayName seed), c.
  split; [exact Hnew|]. split; [cbn; lia|].
  unfold classroomByJoinCode in Hc. pose proof Hc as Hc'.
  apply find_some in Hc' as [Hin Hact].
  apply andb_true_iff in Hact as [_ Hact]. apply Z.eqb_eq in Hact.
  split.
  { unfold getClassroom. rewrite Hcls. cbn [joinedRow s_classroom_id].
    now apply find_unique_id. }
  split; [lia|]. cbn. now apply Hlim.
Qed.

End JoinFacts.

Section CreateFacts.

Local Open Scope Z_scope.

Variable hashToken : jsstring -> jsstring.

Lemma find_none_existsb {A} (f : A -> bool) (rows : list A) :
  find f rows = None -> existsb f rows = false.
Proof.
  induction rows as [|r rows IH]; [reflexivity|].
  cbn [find existsb]. destruct (f r); [discriminate|exact IH].
Qed.

Lemma existsb_and_false {A} (f g : A -> bool) (rows : list A) :
  existsb f rows = false -> existsb (fun r => f r && g r) rows = false.
Proof.
  induction rows as [|r rows IH]; [reflexivity|].
  cbn [existsb]. intros H. apply orb_false_iff in H as [Hr Hrest].
  now rewrite Hr, IH.
Qed.

Lemma filter_and_none {A} (f g : A -> bool) (rows : list A) :
  (forall r, In r rows -> f r = false) ->
  filter (fun r => f r && g r) rows = [].
Proof.
  induction rows as [|r rows IH]; [reflexivity|].
  intros H. cbn [filter]. rewrite (H r (or_introl eq_refl)). cbn [andb].
  apply IH. intros r' Hr'. apply H. now right.
Qed.

Lemma existsb_none {A} (f : A -> bool) (rows : list A) :
  (forall r, In r rows -> f r = false) -> existsb f rows = false.
Proof.
  induction rows as [|r rows IH]; [reflexivity|].
  intros H. cbn [existsb]. rewrite (H r (or_introl eq_refl)). cbn [orb].
  apply IH. intros r' Hr'. apply H. now right.
Qed.

Lemma createClassroom_parts (d d' : db) (name : jsstring)
  (requestLimit maxStudents : option Z) (seed : classroom_seed) (r : created) :
  createClassroom hashToken d name requestLimit maxStudents seed
  = Done (d', r) ->
  existsb (fun c => streq (c_id c) (seed_id seed)) (classrooms d) = false
  /\ existsb (fun c => streq (c_join_code c)
                         (generateJoinCode (seed_bytes seed)))
       (classrooms d) = false
  /\ d' = {| classrooms :=
               classrooms d
               ++ [createdRow hashToken name requestLimit maxStudents seed];
             students := students d |}
  /\ r = {| classroomId := seed_id seed;
            joinCode := generateJoinCode (seed_bytes seed);
            teacherToken := seed_teacher_token seed |}.
Proof.
  unfold createClassroom. cbv zeta.
  destruct (existsb _ (classrooms d)) eqn:E; [discriminate|].
  apply existsb_or_false in E as [Eid Ecode].
  intros [= <- <-]. repeat split; assumption.
Qed.

(** X26: a classroom that was created is found again: by its id, by its join
    code (it is active) and, when no earlier classroom has the same
    teacher token, by the teacher token returned; it has limit 50 and room
    for 40 students unless other values were given; the students and the
    earlier classrooms are untouched. *)
Theorem createClassroom_round_trip (d d' : db) (name : jsstring)
  (requestLimit maxStudents : option Z) (seed : classroom_seed) (r : created) :
  createClassroom hashToken d name requestLimit maxStudents seed
  = Done (d', r) ->
  exists row,
    classrooms d' = classrooms d ++ [row]
    /\ students d' = students d
    /\ c_name row = name /\ c_active row = 1
    /\ c_request_limit row
       = match requestLimit with Some n => n | None => 50 end
    /\ c_max_students row
       = match maxStudents with Some n => n | None => 40 end
    /\ getClassroom d' (classroomId r) = Some row
    /\ classroomByJoinCode d' (joinCode r) = Some row
    /\ (getClassroomByTeacherToken hashToken d (teacherToken r) = None ->
        getClassroomByTeacherToken hashToken d' (teacherToken r) = Some row)
    /\ (forall id c, getClassroom d id = Some c ->
                     getClassroom d' id = Some c).
Proof.
  intros H. apply createClassroom_parts in H as (Eid & Ecode & -> & ->).
  exists (createdRow hashToken name requestLimit maxStudents seed).
  cbn [classrooms students classroomId joinCode teacherToken].
  repeat split.
  - unfold getClassroom. cbn [classrooms].
    apply find_last_row; [exact Eid|]. cbn. apply streq_refl.
  - unfold classroomByJoinCode. cbn [classrooms].
    apply find_last_row; [now apply existsb_and_false|].
    cbn. now rewrite streq_refl.
  - unfold getClassroomByTeacherToken. cbn [classrooms]. intros Hnone.
    apply find_last_row; [now apply find_none_existsb|].
    cbn. apply streq_refl.
  - intros id c. unfold getClassroom. cbn [classrooms]. apply find_old_row.
Qed.

(** X27: a classroom that was just created can be joined with its join code:
    when the foreign key held before, the classroom has room for at least
    one student and the new student's id and token are not taken, the
    join succeeds and gives a token for that classroom. *)
Theorem created_classroom_can_be_joined (d d1 : db) (name : jsstring)
  (requestLimit maxStudents : option Z) (seed : classroom_seed) (r : created)
  (displayName : jsstring) (sseed : student_seed) :
  createClassroom hashToken d name requestLimit maxStudents seed
  = Done (d1, r) ->
  referencesHold d ->
  0 < match maxStudents with Some n => n | None => 40 end ->
  (forall s, In s (students d) ->
             s_id s <> seed_student_id sseed
             /\ s_token s <> hashToken (seed_student_token sseed)) ->
  exists d2,
    joinClassroom hashToken d1 (joinCode r) displayName sseed
    = Done (d2, inr {| studentToken := seed_student_token sseed;
                       j_classroomId := classroomId r;
                       classroomName := name |})
    /\ countActiveStudents d2 (classroomId r) = 1.
Proof.
  intros H Href Hroom Hfresh.
  apply createClassroom_parts in H as (Eid & Ecode & -> & ->).
  cbn [classroomId joinCode].
  set (row := createdRow hashToken name requestLimit maxStudents seed).
  assert (Hfind : find (fun c => streq (c_join_code c)
                                   (generateJoinCode (seed_bytes seed))
                                 && (c_active c =? 1))
                    (classrooms d ++ [row]) = Some row).
  { apply find_last_row; [now apply existsb_and_false|].
    cbn. now rewrite streq_refl. }
  assert (Hcount : countActiveStudents
                     {| classrooms := classrooms d ++ [row];
                        students := students d |} (seed_id seed) = 0).
  { unfold countActiveStudents. cbn [students].
    rewrite filter_and_none; [reflexivity|].
    intros s Hs. destruct (Href s Hs) as (c & Hc & Hid).
    destruct (streq (s_classroom_id s) (seed_id seed)) eqn:E; [|reflexivity].
    apply streq_eq in E. exfalso.
    assert (X : existsb (fun c => streq (c_id c) (seed_id seed))
                  (classrooms d) = true).
    { apply existsb_exists. exists c. split; [exact Hc|].
      apply streq_eq. congruence. }
    congruence. }
  assert (Hclash : existsb (fun s => streq (s_id s) (seed_student_id sseed)
                                     || streq (s_token s)
                                          (hashToken (seed_student_token sseed)))
                     (students d) = false).
  { apply existsb_none. intros s Hs. destruct (Hfresh s Hs) as [Hi Ht].
    now rewrite (streq_neq _ _ Hi), (streq_neq _ _ Ht). }
  unfold joinClassroom. cbn [classrooms students]. rewrite Hfind.
  change (c_id row) with (seed_id seed). rewrite Hcount.
  change (c_max_students row)
    with (orElse maxStudents 40).
  assert (Hcap : (0 >=? orElse maxStudents 40) = false).
  { destruct (0 >=? orElse maxStudents 40) eqn:G; [|reflexivity].
    apply Z.geb_le in G. unfold orElse in G.
    destruct maxStudents; lia. }
  rewrite Hcap. cbv zeta. rewrite Hclash.
  eexists. split; [reflexivity|].
  unfold countActiveStudents. cbn [students].
  rewrite filter_app, length_app. cbn [filter s_classroom_id s_active].
  rewrite streq_refl. cbn [andb Z.eqb List.length Pos.eqb].
  unfold countActiveStudents in Hcount. cbn [students] in Hcount.
  lia.
Qed.

End CreateFacts.

Section JoinCodeFacts.

Local Open Scope N_scope.

Lemma alphabet_entry (i : nat) :
  (i < 32)%nat -> joinCodeChar (nth i JOIN_CODE_CHARS 0) = true.
Proof.
  intros Hi.
  do 32 (destruct i as [|i]; [reflexivity|]). lia.
Qed.

(** X28: a join code made from six random bytes has six characters, each an
    upper-case letter or a digit from the alphabet, and never one of the
    look-alikes 0, O, 1 and I. *)
Theorem generateJoinCode_alphabet (bytes : list N) :
  List.length bytes = 6%nat ->
  List.length (generateJoinCode bytes) = 6%nat
  /\ forallb joinCodeChar (generateJoinCode bytes) = true.
Proof.
  intros Hlen. unfold generateJoinCode. split.
  - rewrite length_map, length_firstn, Hlen. reflexivity.
  - apply forallb_forall. intros c Hc.
    apply in_map_iff in Hc as (b & <- & _).
    apply alphabet_entry.
    change (N.of_nat (List.length JOIN_CODE_CHARS)) with 32.
    pose proof (N.mod_lt b 32). lia.
Qed.

End JoinCodeFacts.

(* ================================================================== *)
(** ** Routing and the request body *)
(* ================================================================== *)

Section RouteFacts.

Local Open Scope N_scope.

Lemma splitOn_nonempty (sep : char) (s : jsstring) : splitOn sep s <> [].
Proof.
  destruct s as [|c s]; [discriminate|].
  cbn [splitOn]. destruct (c =? sep); [discriminate|].
  destruct (splitOn sep s); discriminate.
Qed.

Lemma splitOn_piece (sep : char) (s : jsstring) :
  forallb (fun c => negb (c =? sep)) s = true -> splitOn sep s = [s].
Proof.
  induction s as [|c s IH]; [reflexivity|].
  cbn [forallb]. intros H. apply andb_true_iff in H as [Hc Hs].
  apply negb_true_iff in Hc. cbn [splitOn]. now rewrite Hc, (IH Hs).
Qed.

Lemma splitOn_app (sep : char) (p s : jsstring) :
  forallb (fun c => negb (c =? sep)) p = true ->
  splitOn sep (p ++ sep :: s) = p :: splitOn sep s.
Proof.
  induction p as [|c p IH]; cbn [forallb app splitOn].
  - intros _. now rewrite N.eqb_refl.
  - intros H. apply andb_true_iff in H as [Hc Hp].
    apply negb_true_iff in Hc. now rewrite Hc, (IH Hp).
Qed.

Lemma splitOn_inv (sep : char) (s p : jsstring) (ps : list jsstring) :
  splitOn sep s = p :: ps ->
  forallb (fun c => negb (c =? sep)) p = true
  /\ ((ps = [] /\ s = p)
      \/ exists s', s = p ++ sep :: s' /\ splitOn sep s' = ps).
Proof.
  revert p ps. induction s as [|c s IH]; intros p ps.
  - intros [= <- <-]. split; [reflexivity|now left].
  - cbn [splitOn]. destruct (c =? sep) eqn:E.
    + intros [= <- <-]. apply N.eqb_eq in E. subst c.
      split; [reflexivity|]. right. now exists s.
    + destruct (splitOn sep s) as [|l ls] eqn:D;
        [now apply splitOn_nonempty in D|].
      intros [= <- <-]. destruct (IH l ls eq_refl) as [Hl Hcases].
      split; [cbn [forallb]; now rewrite E, Hl|].
      destruct Hcases as [[-> ->]|(s' & -> & Hs')]; [now left|].
      right. now exists s'.
Qed.

(** X29: the route that removes a student matches exactly the [DELETE]
    requests whose path is [/classroom/students/] followed by one segment
    without a slash (which may be empty), and hands that segment over as
    [studentId]. *)
Theorem matchRoute_delete_student (method pathname : jsstring) (ps : params) :
  matchRoute method pathname DELETE_STUDENT = Some ps
  <-> method = js "DELETE"
      /\ exists seg,
          forallb (fun c => negb (c =? SLASH)) seg = true
          /\ pathname = js "/classroom/students/" ++ seg
          /\ ps = [(js "studentId", seg)].
Proof.
  unfold matchRoute. cbn [r_method r_path DELETE_STUDENT].
  change (splitOn SLASH (js "/classroom/students/:studentId"))
    with [[]; js "classroom"; js "students"; js ":studentId"].
  split.
  - destruct (streq method (js "DELETE")) eqn:Em; [|discriminate].
    apply streq_eq in Em. cbn [negb]. cbv zeta.
    destruct (splitOn SLASH pathname) as [|a [|b [|c [|e [|x rest]]]]] eqn:D;
      try discriminate.
    cbn [List.length Nat.eqb negb].
    unfold matchParts.
    change (startsWith [COLON] []) with false.
    change (startsWith [COLON] (js "classroom")) with false.
    change (startsWith [COLON] (js "students")) with false.
    change (startsWith [COLON] (js ":studentId")) with true.
    cbv iota.
    destruct (streq [] a) eqn:Ea; [|discriminate].
    destruct (streq (js "classroom") b) eqn:Eb; [|discriminate].
    destruct (streq (js "students") c) eqn:Ec; [|discriminate].
    cbn [negb]. intros [= <-].
    apply streq_eq in Ea, Eb, Ec. subst a b c.
    split; [exact Em|]. exists e.
    apply splitOn_inv in D as [_ [[Hn _]|(s1 & -> & D)]]; [discriminate|].
    apply splitOn_inv in D as [_ [[Hn _]|(s2 & -> & D)]]; [discriminate|].
    apply splitOn_inv in D as [_ [[Hn _]|(s3 & -> & D)]]; [discriminate|].
    apply splitOn_inv in D as [He [[_ ->]|(s4 & _ & D)]];
      [|now apply splitOn_nonempty in D].
    split; [exact He|]. split; reflexivity.
  - intros (-> & seg & Hseg & -> & ->).
    change (js "/classroom/students/" ++ seg)
      with ([] ++ SLASH :: js "classroom" ++ SLASH :: js "students"
               ++ SLASH :: seg).
    rewrite streq_refl. cbn [negb]. cbv zeta.
    rewrite !splitOn_app by reflexivity.
    rewrite (splitOn_piece _ _ Hseg). reflexivity.
Qed.

Lemma receive_total (maxBytes size : N) (kept chunks : list (list N)) :
  size <= maxBytes ->
  receive maxBytes size kept chunks
  = if maxBytes <? size + N.of_nat (List.length (List.concat chunks))
    then None else Some (kept ++ chunks).
Proof.
  revert size kept. induction chunks as [|chunk rest IH]; intros size kept Hs.
  - cbn [receive List.concat List.length]. rewrite app_nil_r, N.add_0_r.
    assert (E : (maxBytes <? size) = false) by (apply N.ltb_ge; lia).
    now rewrite E.
  - cbn [receive List.concat]. cbv zeta. rewrite length_app, Nat2N.inj_add.
    destruct (maxBytes <? size + N.of_nat (List.length chunk)) eqn:E.
    + apply N.ltb_lt in E.
      assert (X : (maxBytes <? size + (N.of_nat (List.length chunk)
                                       + N.of_nat (List.length (List.concat rest))))
                  = true) by (apply N.ltb_lt; lia).
      now rewrite X.
    + apply N.ltb_ge in E. rewrite (IH _ _ E), <- app_assoc, N.add_assoc.
      reflexivity.
Qed.

Variable decode : list N -> jsstring.
Variable parse : jsstring -> option payload.

(** X30: the size limit of [readJson] bears on the whole body, however it is
    cut into chunks: a body of more than [maxBytes] bytes is rejected as
    too large, whatever follows; a body within the limit is decoded as one
    text when the stream ends, an empty text standing for the empty
    object, and a stream error is passed on. *)
Theorem readJson_size_limit (maxBytes : N) (chunks : list (list N))
  (fin : stream_end) :
  let whole := List.concat chunks in
  (maxBytes < N.of_nat (List.length whole) ->
   readJsonStream decode parse maxBytes chunks fin
   = BodyRejected (Error (Some (Text PAYLOAD_TOO_LARGE))))
  /\ (N.of_nat (List.length whole) <= maxBytes ->
      readJsonStream decode parse maxBytes chunks fin
      = match fin with
        | StreamError e => BodyRejected e
        | StreamEnd =>
            if truthy (decode whole)
            then match parse (decode whole) with
                 | Some p => BodyParsed p
                 | None => BodyRejected (Error (Some (Text INVALID_JSON)))
                 end
            else BodyParsed emptyPayload
        end).
Proof.
  cbv zeta. unfold readJsonStream.
  rewrite receive_total by lia. rewrite N.add_0_l. cbn [app].
  split; intros H.
  - apply N.ltb_lt in H. now rewrite H.
  - apply N.ltb_ge in H. now rewrite H.
Qed.

End RouteFacts.

(* ================================================================== *)
(** ** The further properties on sample data *)
(* ================================================================== *)

(** Student s1 is let through as a student and the upstream call goes to
    openai. *)
Lemma upstream_call_guard_witness :
  (exists principal,
      fst (authorize sampleHash openConfig (js "tok-one") (start sampleDb))
      = Normal principal)
  /\ isKnownProvider (PROVIDER openConfig) = true
  /\ apiKey openConfig <> [].
Proof.
  destruct (upstream_call_guard sampleHash openConfig
              (requestWith (bearer "tok-one")) (ProviderText (js "x()"))
              sampleDb (js "openai"))
    as (Hauth & _ & Hkey & Hprov & _).
  - simpl. tauto.
  - split; [exact Hauth|]. split; assumption.
Defined.

(** The text of the provider comes back as the code of a 200 response. *)
Lemma success_response_witness :
  exists raw pl v,
    ProviderText (js "basic.clearScreen()") = ProviderText raw
    /\ bodyRead (requestWith None) = BodyParsed pl
    /\ validatePayload pl = inr v
    /\ In (v_target v) [js "microbit"; js "arcade"; js "maker"]
    /\ ResultBody {| code := js "basic.clearScreen()"; notes := [] |}
       = ResultBody (normalizeResponse (v_target v) raw)
    /\ code (normalizeResponse (v_target v) raw) <> []
    /\ In (EvFetch (PROVIDER openConfig))
         (w_log (snd (handleGenerate sampleHash openConfig (requestWith None)
                        (ProviderText (js "basic.clearScreen()"))
                        (start sampleDb)))).
Proof.
  apply (success_response sampleHash openConfig (requestWith None)
           (ProviderText (js "basic.clearScreen()")) sampleDb
           (ResultBody {| code := js "basic.clearScreen()"; notes := [] |})).
  simpl. tauto.
Defined.

(** A timeout in open mode is answered 500 with the budget of 60000 ms. *)
Lemma upstream_failures_witness :
  last (w_log (snd (handleGenerate sampleHash openConfig (requestWith None)
                      ProviderAborted (start sampleDb))))
    EvReadBody
  = EvRespond 500 (ErrorBody (TimedOut 60000)).
Proof.
  refine (proj1 (upstream_failures sampleHash openConfig (requestWith None)
                   ProviderAborted sampleDb (js "openai") _) eq_refl).
  simpl. tauto.
Defined.

(** No sample row is a whole request past its limit, and this stays so
    after student s1 has used the last request. *)
Lemma generate_keeps_quota_witness :
  withinQuota
    (w_db (snd (handleGenerate sampleHash openConfig
                  (requestWith (bearer "tok-one")) (ProviderText [])
                  (start sampleDb)))).
Proof.
  apply (generate_keeps_quota sampleHash openConfig
           (requestWith (bearer "tok-one")) (ProviderText []) sampleDb).
  - repeat constructor; simpl; intuition discriminate.
  - intros s c Hin Hc. simpl in Hin.
    repeat destruct Hin as [Hin|Hin]; try contradiction; subst s;
      vm_compute in Hc; try discriminate; injection Hc as <-;
      reflexivity.
Defined.

(** Student s1 is charged although the key is missing: the counter of s1
    is 3 afterwards and the answer is the missing-key error. *)
Lemma charged_without_api_key_witness :
  let keyless := {| env_SERVER_APP_TOKEN := None; PROVIDER := js "openai";
                    apiKey := []; REQUEST_TIMEOUT_MS := 60000 |} in
  let out := handleGenerate sampleHash keyless
               (requestWith (bearer "tok-one")) (ProviderText [])
               (start sampleDb) in
  getStudentByToken sampleHash (w_db (snd out)) (js "tok-one")
  = Some (mkStudent "s1" "c1" "tok-one" 3 1)
  /\ last (w_log (snd out)) EvReadBody
     = EvRespond 500 (ErrorBody (MissingApiKey (js "openai"))).
Proof.
  intros keyless out.
  destruct (charged_without_api_key sampleHash keyless
              (requestWith (bearer "tok-one")) (ProviderText []) sampleDb)
    as ((s & Hs & _ & Hcount) & _ & Hlast); try discriminate;
    try reflexivity.
  - exists (mkStudent "s1" "c1" "tok-one" 2 1), (mkClassroom "c1" 3 1).
    repeat split; try reflexivity; discriminate.
  - injection Hs as <-. split; [exact Hcount|].
    exact (Hlast samplePayload _ eq_refl eq_refl).
Defined.

(** A token with a blank inside comes back whole. *)
Lemma extractBearerToken_round_trip_witness :
  extractBearerToken (Some (js "Bearer " ++ js "tok one")) = js "tok one".
Proof.
  apply (extractBearerToken_round_trip (js "tok one"));
    [discriminate|reflexivity|reflexivity].
Defined.

(** The teacher resets classroom c1 and student s2, who had used 3 of 3,
    is let through again. *)
Lemma reset_readmits_student_witness :
  admissible sampleHash (snd (handleReset sampleHash sampleDb (bearer "teacher")))
    (js "tok-two").
Proof.
  refine (proj1 (reset_readmits_student sampleHash openConfig
                   (requestWith (bearer "tok-two")) (ProviderText [])
                   sampleDb (bearer "teacher")
                   (mkStudent "s2" "c1" "tok-two" 3 1) (mkClassroom "c1" 3 1)
                   _ _ _ _ _ _ _ _ _ _));
    try reflexivity; discriminate.
Defined.

(** Classroom c1 is paused and student s1, with quota left, is refused. *)
Lemma paused_classroom_refuses_witness :
  let paused := {| f_name := None; f_request_limit := None;
                   f_max_students := None; f_active := Some 0%Z |} in
  fst (handleGenerate sampleHash openConfig (requestWith (bearer "tok-one"))
         (ProviderText [])
         (start (fst (updateClassroom sampleDb (js "c1") paused))))
  = Return.
Proof.
  intros paused.
  exact (f_equal fst
           (paused_classroom_refuses sampleHash openConfig
              (requestWith (bearer "tok-one")) (ProviderText []) sampleDb
              paused (mkStudent "s1" "c1" "tok-one" 2 1)
              eq_refl ltac:(discriminate) ltac:(discriminate) eq_refl
              ltac:(discriminate))).
Defined.

(** Student s1 is deactivated and then refused. *)
Lemma deactivated_student_refused_witness :
  fst (handleGenerate sampleHash openConfig (requestWith (bearer "tok-one"))
         (ProviderText [])
         (start (fst (deactivateStudent sampleDb (js "s1") (js "c1")))))
  = Return.
Proof.
  exact (f_equal fst
           (proj2 (deactivated_student_refused sampleHash openConfig
                     (requestWith (bearer "tok-one")) (ProviderText [])
                     sampleDb (mkStudent "s1" "c1" "tok-one" 2 1)
                     ltac:(discriminate) ltac:(discriminate) eq_refl))).
Defined.

(** Student s1 belongs to classroom c1, not c2. *)
Lemma deactivateStudent_other_classroom_witness :
  deactivateStudent sampleDb (js "s1") (js "c2") = (sampleDb, false).
Proof.
  apply (deactivateStudent_other_classroom sampleDb (js "s1") (js "c2")).
  reflexivity.
Defined.

(** A seventh student joins classroom c1 with its code. *)
Lemma joinClassroom_success_witness :
  exists d',
    countActiveStudents d' (js "c1")
    = (countActiveStudents sampleDb (js "c1") + 1)%Z.
Proof.
  destruct (joinClassroom sampleHash sampleDb (js "ABC234") (js "Grace")
              {| seed_student_id := js "s7";
                 seed_student_token := js "tok-seven";
                 seed_joined := js "2024-01-02 10:00:00" |})
    as [[d' [err|j]]|] eqn:Hjoin; try discriminate.
  exists d'.
  destruct (joinClassroom_success sampleHash sampleDb d' (js "ABC234")
              (js "Grace") _ j Hjoin)
    as (c & row & Hc & _ & _ & _ & _ & _ & _ & _ & _ & _ & Hcount & _).
  injection Hc as <-. exact Hcount.
Defined.

(** The student who has just joined classroom c1 may generate. *)
Lemma joined_student_is_admissible_witness :
  exists d' j,
    joinClassroom sampleHash sampleDb (js "ABC234") (js "Grace")
      {| seed_student_id := js "s7"; seed_student_token := js "tok-seven";
         seed_joined := js "2024-01-02 10:00:00" |}
    = Done (d', inr j)
    /\ admissible sampleHash d' (studentToken j).
Proof.
  destruct (joinClassroom sampleHash sampleDb (js "ABC234") (js "Grace")
              {| seed_student_id := js "s7";
                 seed_student_token := js "tok-seven";
                 seed_joined := js "2024-01-02 10:00:00" |})
    as [[d' [err|j]]|] eqn:Hjoin; try discriminate.
  exists d', j. split; [reflexivity|].
  apply (joined_student_is_admissible sampleHash sampleDb d' (js "ABC234")
           (js "Grace") _ j Hjoin).
  - repeat constructor; simpl; intuition discriminate.
  - intros c [= <-]. reflexivity.
Defined.

(** A third classroom with the defaults, found again by its teacher
    token. *)
Lemma createClassroom_round_trip_witness :
  exists d' r row,
    createClassroom sampleHash sampleDb (js "Year 8") None None
      {| seed_id := js "c3"; seed_bytes := [0; 1; 2; 3; 4; 255]%N;
         seed_teacher_token := js "teacher-two";
         seed_now := js "2024-01-03 08:00:00" |}
    = Done (d', r)
    /\ joinCode r = js "ABCDE9"
    /\ getClassroomByTeacherToken sampleHash d' (js "teacher-two") = Some row
    /\ c_request_limit row = 50%Z /\ c_max_students row = 40%Z.
Proof.
  destruct (createClassroom sampleHash sampleDb (js "Year 8") None None
              {| seed_id := js "c3"; seed_bytes := [0; 1; 2; 3; 4; 255]%N;
                 seed_teacher_token := js "teacher-two";
                 seed_now := js "2024-01-03 08:00:00" |})
    as [[d' r]|] eqn:Hcreate; try discriminate.
  destruct (createClassroom_round_trip sampleHash sampleDb d' (js "Year 8")
              None None _ r Hcreate)
    as (row & _ & _ & _ & _ & Hlimit & Hmax & _ & _ & Hteacher & _).
  exists d', r, row. split; [reflexivity|].
  injection Hcreate as <- <-.
  split; [reflexivity|]. split; [apply Hteacher; reflexivity|].
  split; assumption.
Defined.

(** A classroom created in a small consistent database is joined. *)
Lemma created_classroom_can_be_joined_witness :
  let d := {| classrooms := [mkClassroom "c1" 3 1];
              students := [mkStudent "s1" "c1" "tok-one" 2 1] |} in
  exists d1 r d2 j,
    createClassroom sampleHash d (js "Year 8") None None
      {| seed_id := js "c3"; seed_bytes := [0; 1; 2; 3; 4; 255]%N;
         seed_teacher_token := js "teacher-two";
         seed_now := js "2024-01-03 08:00:00" |}
    = Done (d1, r)
    /\ joinClassroom sampleHash d1 (joinCode r) (js "Grace")
         {| seed_student_id := js "s7"; seed_student_token := js "tok-seven";
            seed_joined := js "2024-01-03 09:00:00" |}
       = Done (d2, inr j)
    /\ j_classroomId j = js "c3".
Proof.
  intros d.
  destruct (createClassroom sampleHash d (js "Year 8") None None
              {| seed_id := js "c3"; seed_bytes := [0; 1; 2; 3; 4; 255]%N;
                 seed_teacher_token := js "teacher-two";
                 seed_now := js "2024-01-03 08:00:00" |})
    as [[d1 r]|] eqn:Hcreate; try discriminate.
  destruct (created_classroom_can_be_joined sampleHash d d1 (js "Year 8")
              None None _ r (js "Grace")
              {| seed_student_id := js "s7";
                 seed_student_token := js "tok-seven";
                 seed_joined := js "2024-01-03 09:00:00" |} Hcreate)
    as (d2 & Hjoin & _).
  - intros s [<-|[]]. exists (mkClassroom "c1" 3 1).
    split; [now left|reflexivity].
  - reflexivity.
  - intros s [<-|[]]. split; discriminate.
  - exists d1, r, d2. eexists. split; [reflexivity|].
    split; [exact Hjoin|]. injection Hcreate as _ <-. reflexivity.
Defined.

(** Six bytes, among them 0 and 255. *)
Lemma generateJoinCode_alphabet_witness :
  List.length (generateJoinCode [0; 1; 2; 3; 4; 255]%N) = 6%nat
  /\ forallb joinCodeChar (generateJoinCode [0; 1; 2; 3; 4; 255]%N) = true.
Proof.
  apply (generateJoinCode_alphabet [0; 1; 2; 3; 4; 255]%N). reflexivity.
Defined.
